(** * Reactive view updates of the data-visualisation exercises

    A shallow embedding of the two interactive applications of the
    repository: the animated company map ([dvc_ex4.py]) and the
    dimension-reduction explorer ([dvc_ex3.py]).

    Conventions of the embedding.
    - A pandas float cell is an [option Q]: every finite float is a
      rational, and [None] is [np.nan].  Sums and means are computed
      exactly; rounding of float arithmetic is outside the model, and no
      statement below depends on it.
    - A Python string is kept as the bytes of its UTF-8 encoding, whose
      order is the order of the code points.
    - Module-level globals and the objects they name are fields of an
      explicit state; handlers are computations in a state-and-exception
      monad in which the state survives a raised exception, as Python
      globals do.
    - Calls into scikit-learn and the Bokeh palettes are parameters of the
      development (Section variables): they are black boxes for the
      program as well. *)

From Stdlib Require Import List String Ascii ZArith QArith Qround Bool Lia DecimalString Permutation.
From stdpp Require Import base list.
Import ListNotations.

Open Scope string_scope.

(** ** Python runtime *)

Inductive exn : Type :=
  | KeyError
  | IndexError
  | TypeError
  | ValueError.

Inductive result (A : Type) : Type :=
  | Ok (a : A)
  | Raise (e : exn).

Arguments Ok {A} a.
Arguments Raise {A} e.

Definition is_ok {A} (r : result A) : bool :=
  match r with Ok _ => true | Raise _ => false end.

Definition rbind {A B} (r : result A) (k : A -> result B) : result B :=
  match r with
  | Ok a => k a
  | Raise e => Raise e
  end.

(** State and exceptions: the state after a raise is the state at the
    point of the raise. *)
Definition M (S A : Type) : Type := S -> result A * S.

Definition ret {S A} (a : A) : M S A := fun s => (Ok a, s).

Definition bind {S A B} (c : M S A) (k : A -> M S B) : M S B :=
  fun s =>
    match c s with
    | (Ok a, s') => k a s'
    | (Raise e, s') => (Raise e, s')
    end.

Definition gets {S A} (f : S -> A) : M S A := fun s => (Ok (f s), s).
Definition modify {S} (f : S -> S) : M S unit := fun s => (Ok tt, f s).
Definition lift {S A} (r : result A) : M S A := fun s => (r, s).

Declare Scope py_scope.
Delimit Scope py_scope with py.
Notation "x <- c ;; k" := (bind c (fun x => k))
  (at level 100, c at next level, right associativity) : py_scope.
Notation "c ;;; k" := (bind c (fun _ => k))
  (at level 100, right associativity) : py_scope.

(** [str(n)] for a Python int. *)
Definition str (n : Z) : string := NilZero.string_of_int (Z.to_int n).

(** A float cell; [nan] is the missing-value marker [np.nan]. *)
Definition float : Type := option Q.
Definition nan {A} : option A := None.

(** [a < b] on floats: [False] as soon as one side is [nan]. *)
Definition Qltb (a b : Q) : bool := negb (Qle_bool b a).

Definition float_lt (a : float) (b : Q) : bool :=
  match a with
  | Some q => Qltb q b
  | None => false
  end.

Definition notna {A} (c : option A) : bool :=
  match c with Some _ => true | None => false end.

(** Distinct values in ascending order, as [np.unique] and the group
    keys of [groupby] give them; strings compare by code point. *)
Fixpoint insert_sorted (k : string) (ks : list string) : list string :=
  match ks with
  | [] => [k]
  | k' :: rest =>
      if String.leb k k' then k :: ks else k' :: insert_sorted k rest
  end.

Definition sorted_unique (l : list string) : list string :=
  fold_right insert_sorted [] (nodup string_dec l).

(** ** The animated map, [dvc_ex4.py] *)

Module DvcEx4.

(** One line of [us_company_map] after the coordinate columns ['x'] and
    ['y'] have been added.  The per-year columns ['Market Cap <year>'] and
    ['Employees <year>'] are functions of the year; which of them exist
    is recorded in the table.  Every line has a city: a line whose
    ['City'] is missing is in no group of [groupby] and in no selection
    of a city, and is not a line of the tables considered here. *)
Record company : Type := {
  raw_Symbol : option string;
  raw_City : string;
  raw_x : float;
  raw_y : float;
  raw_Market_Cap : Z -> float;
  raw_Employees : Z -> float
}.

Record base_table : Type := {
  Market_Cap_years : list Z;
  Employees_years : list Z;
  companies : list company
}.

(** A line of the working frame [df] of [create_df]. *)
Record row : Type := {
  Symbol : option string;
  City : string;
  x : float;
  y : float;
  Market_Cap : float;
  Employees : float
}.

(** [np.log(v) * k], kept symbolic: the logarithm is not rational. *)
Inductive log_scaled : Type :=
  | log_times (v : float) (k : Q).

(** A line of the frame returned for the subplot. *)
Record company_row : Type := {
  company_data : row;
  company_circle_size : log_scaled
}.

(** A line of the frame returned for the main plot, indexed by city. *)
Record city_row : Type := {
  City_index : string;
  Market_Cap_sum : float;
  Employees_sum : float;
  x_mean : float;
  y_mean : float;
  Symbol_count : nat;
  city_circle_size : log_scaled
}.

Inductive frame : Type :=
  | main_frame (rows : list city_row)
  | sub_frame (rows : list company_row).

Definition has_column (y : Z) (ys : list Z) : bool := existsb (Z.eqb y) ys.

(** Lines 93-96: column selection (a copy) and renaming. *)
Definition select_columns (year : Z) (c : company) : row :=
  {| Symbol := raw_Symbol c;
     City := raw_City c;
     x := raw_x c;
     y := raw_y c;
     Market_Cap := raw_Market_Cap c year;
     Employees := raw_Employees c year |}.

Definition take_year (us_company_map : base_table) (year : Z) : result (list row) :=
  if has_column year (Market_Cap_years us_company_map)
     && has_column year (Employees_years us_company_map)
  then Ok (map (select_columns year) (companies us_company_map))
  else Raise KeyError.

(** Line 99:
    [df.loc[df['Market Cap'] < market_cap_lower,
            ['Symbol', 'Market Cap', 'Employees']] = np.nan]. *)
Definition mask_row (market_cap_lower : Q) (r : row) : row :=
  if float_lt (Market_Cap r) market_cap_lower
  then {| Symbol := nan;
          City := City r;
          x := x r;
          y := y r;
          Market_Cap := nan;
          Employees := nan |}
  else r.

Definition mask_below (market_cap_lower : Q) (df : list row) : list row :=
  map (mask_row market_cap_lower) df.

(** The frame of [create_df] just before the [if main:] branch. *)
Definition masked_df (us_company_map : base_table) (year : Z) (market_cap_lower : Q)
  : result (list row) :=
  rbind (take_year us_company_map year)
        (fun df => Ok (mask_below market_cap_lower df)).

(** Aggregations of [groupby(...).agg(...)]; all of them skip [nan]. *)
Definition nansum (vals : list float) : Q :=
  fold_left (fun acc v => match v with Some q => (acc + q)%Q | None => acc end)
            vals 0%Q.

Definition agg_sum (vals : list float) : float := Some (nansum vals).

Definition agg_count {A} (vals : list (option A)) : nat :=
  length (List.filter notna vals).

Definition agg_mean (vals : list float) : float :=
  match agg_count vals with
  | O => nan
  | n => Some (nansum vals / inject_Z (Z.of_nat n))%Q
  end.

(** Group keys of [groupby(['City'])]. *)
Definition group_keys (df : list row) : list string :=
  sorted_unique (map City df).

Definition group_of (k : string) (df : list row) : list row :=
  List.filter (fun r => String.eqb (City r) k) df.

Definition circle_size (employees : float) : log_scaled :=
  log_times employees (7 # 2).

Definition agg_city (df : list row) (k : string) : city_row :=
  let g := group_of k df in
  let employees := agg_sum (map Employees g) in
  {| City_index := k;
     Market_Cap_sum := agg_sum (map Market_Cap g);
     Employees_sum := employees;
     x_mean := agg_mean (map x g);
     y_mean := agg_mean (map y g);
     Symbol_count := agg_count (map Symbol g);
     city_circle_size := circle_size employees |}.

Definition with_circle_size (r : row) : company_row :=
  {| company_data := r; company_circle_size := circle_size (Employees r) |}.

Definition create_df (us_company_map : base_table)
    (year : Z) (city : string) (market_cap_lower : Q) (main : bool) : result frame :=
  rbind (masked_df us_company_map year market_cap_lower) (fun df =>
    if main
    then Ok (main_frame (map (agg_city df) (group_keys df)))
    else Ok (sub_frame (map with_circle_size
                            (List.filter (fun r => String.eqb (City r) city) df)))).

(** *** Session state, views and the host document

    Figure construction (ranges, palettes, glyphs) is outside the model;
    of the views, the state keeps what the handlers write: the two data
    sources, the year label, the subplot title and the button label. *)

(** A periodic callback registered with the document; the function it
    runs is always [update_year]. *)
Record periodic_callback : Type := {
  callback_id : nat;
  period_milliseconds : Z
}.

Definition periodic_callback_eqb (a b : periodic_callback) : bool :=
  Nat.eqb (callback_id a) (callback_id b)
  && Z.eqb (period_milliseconds a) (period_milliseconds b).

Record app : Type := {
  us_company_map : base_table;
  year : Z;
  city : string;
  market_cap_lower : Q;
  main_df : list city_row;
  main_source_data : frame;
  sub_source_data : frame;
  label_text : string;
  subplot_title : string;
  btn_label : string;
  callback : option periodic_callback;
  session_callbacks : list periodic_callback;
  next_callback_id : nat
}.

Definition set_year (v : Z) (a : app) : app :=
  {| us_company_map := us_company_map a; year := v; city := city a;
     market_cap_lower := market_cap_lower a; main_df := main_df a;
     main_source_data := main_source_data a; sub_source_data := sub_source_data a;
     label_text := label_text a; subplot_title := subplot_title a;
     btn_label := btn_label a; callback := callback a;
     session_callbacks := session_callbacks a;
     next_callback_id := next_callback_id a |}.

Definition set_city (v : string) (a : app) : app :=
  {| us_company_map := us_company_map a; year := year a; city := v;
     market_cap_lower := market_cap_lower a; main_df := main_df a;
     main_source_data := main_source_data a; sub_source_data := sub_source_data a;
     label_text := label_text a; subplot_title := subplot_title a;
     btn_label := btn_label a; callback := callback a;
     session_callbacks := session_callbacks a;
     next_callback_id := next_callback_id a |}.

Definition set_market_cap_lower (v : Q) (a : app) : app :=
  {| us_company_map := us_company_map a; year := year a; city := city a;
     market_cap_lower := v; main_df := main_df a;
     main_source_data := main_source_data a; sub_source_data := sub_source_data a;
     label_text := label_text a; subplot_title := subplot_title a;
     btn_label := btn_label a; callback := callback a;
     session_callbacks := session_callbacks a;
     next_callback_id := next_callback_id a |}.

Definition set_main_source_data (v : frame) (a : app) : app :=
  {| us_company_map := us_company_map a; year := year a; city := city a;
     market_cap_lower := market_cap_lower a; main_df := main_df a;
     main_source_data := v; sub_source_data := sub_source_data a;
     label_text := label_text a; subplot_title := subplot_title a;
     btn_label := btn_label a; callback := callback a;
     session_callbacks := session_callbacks a;
     next_callback_id := next_callback_id a |}.

Definition set_sub_source_data (v : frame) (a : app) : app :=
  {| us_company_map := us_company_map a; year := year a; city := city a;
     market_cap_lower := market_cap_lower a; main_df := main_df a;
     main_source_data := main_source_data a; sub_source_data := v;
     label_text := label_text a; subplot_title := subplot_title a;
     btn_label := btn_label a; callback := callback a;
     session_callbacks := session_callbacks a;
     next_callback_id := next_callback_id a |}.

Definition set_label_text (v : string) (a : app) : app :=
  {| us_company_map := us_company_map a; year := year a; city := city a;
     market_cap_lower := market_cap_lower a; main_df := main_df a;
     main_source_data := main_source_data a; sub_source_data := sub_source_data a;
     label_text := v; subplot_title := subplot_title a;
     btn_label := btn_label a; callback := callback a;
     session_callbacks := session_callbacks a;
     next_callback_id := next_callback_id a |}.

Definition set_subplot_title (v : string) (a : app) : app :=
  {| us_company_map := us_company_map a; year := year a; city := city a;
     market_cap_lower := market_cap_lower a; main_df := main_df a;
     main_source_data := main_source_data a; sub_source_data := sub_source_data a;
     label_text := label_text a; subplot_title := v;
     btn_label := btn_label a; callback := callback a;
     session_callbacks := session_callbacks a;
     next_callback_id := next_callback_id a |}.

Definition set_btn_label (v : string) (a : app) : app :=
  {| us_company_map := us_company_map a; year := year a; city := city a;
     market_cap_lower := market_cap_lower a; main_df := main_df a;
     main_source_data := main_source_data a; sub_source_data := sub_source_data a;
     label_text := label_text a; subplot_title := subplot_title a;
     btn_label := v; callback := callback a;
     session_callbacks := session_callbacks a;
     next_callback_id := next_callback_id a |}.

Definition set_callback (v : option periodic_callback) (a : app) : app :=
  {| us_company_map := us_company_map a; year := year a; city := city a;
     market_cap_lower := market_cap_lower a; main_df := main_df a;
     main_source_data := main_source_data a; sub_source_data := sub_source_data a;
     label_text := label_text a; subplot_title := subplot_title a;
     btn_label := btn_label a; callback := v;
     session_callbacks := session_callbacks a;
     next_callback_id := next_callback_id a |}.

Definition set_session_callbacks (v : list periodic_callback) (n : nat) (a : app) : app :=
  {| us_company_map := us_company_map a; year := year a; city := city a;
     market_cap_lower := market_cap_lower a; main_df := main_df a;
     main_source_data := main_source_data a; sub_source_data := sub_source_data a;
     label_text := label_text a; subplot_title := subplot_title a;
     btn_label := btn_label a; callback := callback a;
     session_callbacks := v;
     next_callback_id := n |}.

(** [f'Tech Companies in {city} Year {year}'] *)
Definition title_of (city : string) (year : Z) : string :=
  "Tech Companies in " ++ city ++ " Year " ++ str year.

Definition play_label : string := "► Play".
Definition pause_label : string := "❚❚ Pause".

Local Open Scope py_scope.

(** [create_df] called from a handler: it reads the global table. *)
Definition create_df_now (main : bool) : M app frame :=
  fun a => (create_df (us_company_map a) (year a) (city a) (market_cap_lower a) main, a).

(** [main_df.index[i]] *)
Definition main_df_index (i : nat) : M app string :=
  fun a => (match nth_error (main_df a) i with
            | Some r => Ok (City_index r)
            | None => Raise IndexError
            end, a).

Definition tap_update (new : list nat) : M app unit :=
  match new with
  | [] => ret tt
  | i :: _ =>
      c <- main_df_index i ;;
      modify (set_city c) ;;;
      df <- create_df_now false ;;
      modify (set_sub_source_data df) ;;;
      a <- gets id ;;
      modify (set_subplot_title (title_of (city a) (year a)))
  end.

Definition slider_update (new : Q) : M app unit :=
  modify (set_market_cap_lower new) ;;;
  df <- create_df_now true ;;
  modify (set_main_source_data df) ;;;
  df' <- create_df_now false ;;
  modify (set_sub_source_data df').

Definition update_year : M app unit :=
  modify (fun a => set_year (year a + 1) a) ;;;
  modify (fun a => if (2022 <? year a)%Z then set_year 2019 a else a) ;;;
  modify (fun a => set_label_text (str (year a)) a) ;;;
  modify (fun a => set_subplot_title (title_of (city a) (year a)) a) ;;;
  df <- create_df_now true ;;
  modify (set_main_source_data df) ;;;
  df' <- create_df_now false ;;
  modify (set_sub_source_data df').

(** [curdoc().add_periodic_callback(update_year, period)] returns a new
    callback object and registers it. *)
Definition add_periodic_callback (period : Z) : M app periodic_callback :=
  fun a =>
    let cb := {| callback_id := next_callback_id a; period_milliseconds := period |} in
    (Ok cb, set_session_callbacks (session_callbacks a ++ [cb]) (S (next_callback_id a)) a).

(** [curdoc().remove_periodic_callback(cb)] raises [ValueError] when [cb]
    is not registered, which includes [None]. *)
Definition remove_periodic_callback (cb : option periodic_callback) : M app unit :=
  fun a =>
    match cb with
    | Some c =>
        if existsb (periodic_callback_eqb c) (session_callbacks a)
        then (Ok tt,
              set_session_callbacks
                (List.filter (fun c' => negb (periodic_callback_eqb c c')) (session_callbacks a))
                (next_callback_id a) a)
        else (Raise ValueError, a)
    | None => (Raise ValueError, a)
    end.

Definition play : M app unit :=
  l <- gets btn_label ;;
  if String.eqb l play_label
  then
    modify (set_btn_label pause_label) ;;;
    cb <- add_periodic_callback 200 ;;
    modify (set_callback (Some cb))
  else
    modify (set_btn_label play_label) ;;;
    cb <- gets callback ;;
    remove_periodic_callback cb.

(** The state the module sets up when it is run: the globals of lines
    80-82, the two frames of lines 125-126, the label, the title of the
    subplot, the button and the callback.  The two figures and the
    globals of lines 216-217 are built from this state by
    [DvcEx4Plots.launch], which raises where the module raises; every
    state of a running application is the state of a [startup] that
    returned. *)
Definition startup (table : base_table) : result app :=
  let year0 := 2022%Z in
  let city0 := "San Jose" in
  let market_cap_lower0 := 0%Q in
  rbind (create_df table year0 city0 market_cap_lower0 true) (fun main =>
  rbind (create_df table year0 city0 market_cap_lower0 false) (fun sub =>
    Ok {| us_company_map := table;
          year := year0;
          city := city0;
          market_cap_lower := market_cap_lower0;
          main_df := match main with main_frame rows => rows | sub_frame _ => [] end;
          main_source_data := main;
          sub_source_data := sub;
          label_text := str year0;
          subplot_title := title_of city0 year0;
          btn_label := play_label;
          callback := None;
          session_callbacks := [];
          next_callback_id := 0 |})).

(** Events the host runtime delivers, one at a time.  A periodic tick
    exists only while a periodic callback is registered; an exception
    raised by a handler is logged by the server and the session goes on. *)
Inductive event : Type :=
  | tap (new : list nat)
  | slider (new : Q)
  | click
  | tick.

Definition deliver (ev : event) : M app unit :=
  match ev with
  | tap new => tap_update new
  | slider new => slider_update new
  | click => play
  | tick => fun a =>
      match session_callbacks a with
      | [] => (Ok tt, a)
      | _ :: _ => update_year a
      end
  end.

Definition step (a : app) (ev : event) : app := snd (deliver ev a).

Definition run (evs : list event) (a : app) : app := fold_left step evs a.

Inductive reachable (table : base_table) : app -> Prop :=
  | reachable_startup a :
      startup table = Ok a -> reachable table a
  | reachable_step a ev :
      reachable table a -> reachable table (step a ev).

End DvcEx4.

(** ** The dimension-reduction explorer, [dvc_ex3.py] *)

Module DvcEx3.

(** *** Data frames

    A column is either of object dtype (strings, with [nan] for a missing
    entry) or numeric.  A frame is the ordered list of its named columns
    over the default index [0 .. n-1]; [read_csv] gives distinct names. *)
Inductive Series : Type :=
  | object_col (values : list (option string))
  | float_col (values : list float).

Definition series_length (s : Series) : nat :=
  match s with
  | object_col v => length v
  | float_col v => length v
  end.

Definition is_object_dtype (s : Series) : bool :=
  match s with object_col _ => true | float_col _ => false end.

Definition is_numeric_dtype (s : Series) : bool :=
  match s with object_col _ => false | float_col _ => true end.

Definition DataFrame : Type := list (string * Series).

Definition column_names (df : DataFrame) : list string := map fst df.

Definition nrows (df : DataFrame) : nat :=
  match df with
  | [] => 0
  | (_, s) :: _ => series_length s
  end.

(** [df[name]] *)
Fixpoint get_column (name : string) (df : DataFrame) : result Series :=
  match df with
  | [] => Raise KeyError
  | (n, s) :: rest => if String.eqb n name then Ok s else get_column name rest
  end.

(** [df[name] = s]: overwrite in place, or append as the last column. *)
Fixpoint set_column (name : string) (s : Series) (df : DataFrame) : DataFrame :=
  match df with
  | [] => [(name, s)]
  | (n, s') :: rest =>
      if String.eqb n name then (n, s) :: rest
      else (n, s') :: set_column name s rest
  end.

(** A new column must be as long as the index; a frame without columns
    takes any. *)
Definition length_matches (s : Series) (df : DataFrame) : bool :=
  match df with
  | [] => true
  | _ :: _ => Nat.eqb (series_length s) (nrows df)
  end.

Definition assign_column (name : string) (s : Series) (df : DataFrame)
  : result DataFrame :=
  if length_matches s df then Ok (set_column name s df) else Raise ValueError.

(** [df.iloc[:, k:]] *)
Definition iloc_columns_from (k : nat) (df : DataFrame) : DataFrame := skipn k df.

Fixpoint rmap {A B} (f : A -> result B) (l : list A) : result (list B) :=
  match l with
  | [] => Ok []
  | a :: rest =>
      rbind (f a) (fun b => rbind (rmap f rest) (fun bs => Ok (b :: bs)))
  end.

Definition take {A} (labels : list nat) (values : list A) : result (list A) :=
  rmap (fun i => match nth_error values i with
                 | Some v => Ok v
                 | None => Raise KeyError
                 end) labels.

Definition series_take (labels : list nat) (s : Series) : result Series :=
  match s with
  | object_col v => rbind (take labels v) (fun v' => Ok (object_col v'))
  | float_col v => rbind (take labels v) (fun v' => Ok (float_col v'))
  end.

(** [df[names]] *)
Definition get_columns (names : list string) (df : DataFrame) : result DataFrame :=
  rmap (fun n => rbind (get_column n df) (fun s => Ok (n, s))) names.

(** [df.loc[labels, names]] *)
Definition loc (df : DataFrame) (labels : list nat) (names : list string)
  : result DataFrame :=
  rbind (get_columns names df) (fun sub =>
    rmap (fun c => rbind (series_take labels (snd c)) (fun s => Ok (fst c, s))) sub).

(** A Python string is a sequence of code points; a column name is kept
    as its UTF-8 bytes, whose order is the order of the code points.
    [code_point] reads the first code point of a name and returns the
    rest; bytes that are not UTF-8 encode no string and give [None]. *)
Definition continuation_byte (c : ascii) : option N :=
  let n := N_of_ascii c in
  if ((128 <=? n) && (n <? 192))%N then Some (n - 128)%N else None.

Definition code_point (s : string) : option (N * string) :=
  match s with
  | EmptyString => None
  | String b0 s1 =>
      let n0 := N_of_ascii b0 in
      if (n0 <? 128)%N then Some (n0, s1)
      else if (n0 <? 192)%N then None
      else if (n0 <? 224)%N then
        match s1 with
        | String b1 s2 =>
            match continuation_byte b1 with
            | Some n1 =>
                let cp := ((n0 - 192) * 64 + n1)%N in
                if (128 <=? cp)%N then Some (cp, s2) else None
            | None => None
            end
        | EmptyString => None
        end
      else if (n0 <? 240)%N then
        match s1 with
        | String b1 (String b2 s3) =>
            match continuation_byte b1, continuation_byte b2 with
            | Some n1, Some n2 =>
                let cp := ((n0 - 224) * 4096 + n1 * 64 + n2)%N in
                if ((2048 <=? cp) && negb ((55296 <=? cp) && (cp <=? 57343)))%N
                then Some (cp, s3) else None
            | _, _ => None
            end
        | _ => None
        end
      else if (n0 <? 248)%N then
        match s1 with
        | String b1 (String b2 (String b3 s4)) =>
            match continuation_byte b1, continuation_byte b2, continuation_byte b3 with
            | Some n1, Some n2, Some n3 =>
                let cp := ((n0 - 240) * 262144 + n1 * 4096 + n2 * 64 + n3)%N in
                if ((65536 <=? cp) && (cp <=? 1114111))%N then Some (cp, s4) else None
            | _, _, _ => None
            end
        | _ => None
        end
      else None
  end.

(** The class [\d] of the module [re] on strings: the decimal digits of
    Unicode (general category Nd), here those of Unicode 14.0, the
    database of Python 3.11, as ranges of code points.  The digits 0 to 9
    of ASCII are the first range. *)
Definition decimal_digit_ranges : list (N * N) :=
  [ (48, 57); (1632, 1641); (1776, 1785); (1984, 1993); (2406, 2415);
    (2534, 2543); (2662, 2671); (2790, 2799); (2918, 2927); (3046, 3055);
    (3174, 3183); (3302, 3311); (3430, 3439); (3558, 3567); (3664, 3673);
    (3792, 3801); (3872, 3881); (4160, 4169); (4240, 4249); (6112, 6121);
    (6160, 6169); (6470, 6479); (6608, 6617); (6784, 6793); (6800, 6809);
    (6992, 7001); (7088, 7097); (7232, 7241); (7248, 7257); (42528, 42537);
    (43216, 43225); (43264, 43273); (43472, 43481); (43504, 43513);
    (43600, 43609); (44016, 44025); (65296, 65305); (66720, 66729);
    (68912, 68921); (69734, 69743); (69872, 69881); (69942, 69951);
    (70096, 70105); (70384, 70393); (70736, 70745); (70864, 70873);
    (71248, 71257); (71360, 71369); (71472, 71481); (71904, 71913);
    (72016, 72025); (72784, 72793); (73040, 73049); (73120, 73129);
    (92768, 92777); (92864, 92873); (93008, 93017); (120782, 120831);
    (123200, 123209); (123632, 123641); (125264, 125273);
    (130032, 130041) ]%N.

Definition is_decimal_digit (cp : N) : bool :=
  existsb (fun range => (fst range <=? cp)%N && (cp <=? snd range)%N)
          decimal_digit_ranges.

Definition newline : string := String (ascii_of_nat 10) EmptyString.

(** [re.search('^PCA \d$', name)]: [$] also matches just before a final
    newline. *)
Definition matches_PCA_digit (name : string) : bool :=
  match name with
  | String "P" (String "C" (String "A" (String " " rest))) =>
      match code_point rest with
      | Some (d, tail) =>
          is_decimal_digit d && (String.eqb tail "" || String.eqb tail newline)
      | None => false
      end
  | _ => false
  end.

(** [df.filter(regex='^PCA \d$')] *)
Definition filter_PCA (df : DataFrame) : DataFrame :=
  List.filter (fun c => matches_PCA_digit (fst c)) df.

(** *** numpy *)

(** A two-dimensional float array, as the list of its columns. *)
Definition ndarray : Type := list (list float).

(** [X[:, j]] *)
Definition array_column (X : ndarray) (j : nat) : result (list float) :=
  match nth_error X j with
  | Some c => Ok c
  | None => Raise IndexError
  end.

Definition series_floats (s : Series) : result (list float) :=
  match s with
  | float_col v => Ok v
  | object_col _ => Raise TypeError
  end.

Definition isnan {A} (v : option A) : bool := negb (notna v).

Definition Qmin_list (first : Q) (rest : list Q) : Q :=
  fold_left (fun m v => if Qltb v m then v else m) rest first.

Definition Qmax_list (first : Q) (rest : list Q) : Q :=
  fold_left (fun m v => if Qltb m v then v else m) rest first.

Definition n_equal_bins : nat := 10.

Definition bin_index (first_edge last_edge v : Q) : nat :=
  Nat.min (Z.to_nat (Qfloor ((v - first_edge) * inject_Z (Z.of_nat n_equal_bins)
                             / (last_edge - first_edge))))
          (n_equal_bins - 1).

Definition linspace (first_edge last_edge : Q) : list Q :=
  map (fun i => first_edge + inject_Z (Z.of_nat i) * (last_edge - first_edge)
                             / inject_Z (Z.of_nat n_equal_bins))%Q
      (seq 0 (S n_equal_bins)).

Definition present (vals : list float) : list Q :=
  flat_map (fun v => match v with Some q => [q] | None => [] end) vals.

(** [np.histogram(a)] with the default ten bins, on the cells of a frame.
    An empty array has range (0, 1); a [nan] makes the detected range
    non-finite, which raises; a constant array has its range widened by
    one half on both sides.  Counts do not depend on the order in which
    the cells are flattened.  (The case of no present cell is not met:
    past the two tests the array is non-empty and without [nan].) *)
Definition np_histogram (a : DataFrame) : result (list nat * list Q) :=
  if forallb (fun c => Nat.eqb (series_length (snd c)) 0) a
  then Ok (repeat 0%nat n_equal_bins, linspace 0 1)
  else
    rbind (rmap (fun c => series_floats (snd c)) a) (fun cols =>
      let cells := concat cols in
      if existsb isnan cells then Raise ValueError
      else
        match present cells with
        | [] => Raise ValueError
        | v :: rest =>
            let lo := Qmin_list v rest in
            let hi := Qmax_list v rest in
            let first_edge := if Qeq_bool lo hi then (lo - (1 # 2))%Q else lo in
            let last_edge := if Qeq_bool lo hi then (hi + (1 # 2))%Q else hi in
            Ok (map (fun i => length (List.filter (fun q => Nat.eqb (bin_index first_edge last_edge q) i)
                                             (v :: rest)))
                    (seq 0 n_equal_bins),
                linspace first_edge last_edge)
        end).

(** [a.max()] of an integer array. *)
Definition np_max (a : list nat) : result nat :=
  match a with
  | [] => Raise ValueError
  | n :: rest => Ok (fold_left Nat.max rest n)
  end.

(** The builtin [min] and [max] over an iterable of floats: a comparison
    with [nan] is false, so the result depends on where the [nan] is. *)
Definition float_ltb (a b : float) : bool :=
  match a, b with
  | Some p, Some q => Qltb p q
  | _, _ => false
  end.

Definition py_min (vals : list float) : result float :=
  match vals with
  | [] => Raise ValueError
  | v :: rest => Ok (fold_left (fun m item => if float_ltb item m then item else m) rest v)
  end.

Definition py_max (vals : list float) : result float :=
  match vals with
  | [] => Raise ValueError
  | v :: rest => Ok (fold_left (fun m item => if float_ltb m item then item else m) rest v)
  end.

(** [np.unique(s.astype(str))] *)
Definition astype_str (vals : list (option string)) : list string :=
  map (fun v => match v with Some s => s | None => "nan" end) vals.

Definition np_unique (vals : list string) : list string := sorted_unique vals.

(** *** Counting values *)

(** A value of an index. *)
Inductive cell : Type :=
  | Num (q : Q)
  | Str (s : string).

Definition cell_eqb (a b : cell) : bool :=
  match a, b with
  | Num p, Num q => Qeq_bool p q
  | Str s, Str t => String.eqb s t
  | _, _ => false
  end.

Definition series_cells (s : Series) : list (option cell) :=
  match s with
  | object_col v => map (option_map Str) v
  | float_col v => map (option_map Num) v
  end.

Section Tally.
Context {K : Type} (eqb : K -> K -> bool).

Fixpoint tally_add (k : K) (acc : list (K * nat)) : list (K * nat) :=
  match acc with
  | [] => [(k, 1%nat)]
  | (k', n) :: rest =>
      if eqb k' k then (k', S n) :: rest else (k', n) :: tally_add k rest
  end.

Fixpoint insert_desc (e : K * nat) (l : list (K * nat)) : list (K * nat) :=
  match l with
  | [] => [e]
  | e' :: rest =>
      if (snd e' <=? snd e)%nat then e :: l else e' :: insert_desc e rest
  end.

(** Occurrence counts, most frequent first; ties keep the order of
    first appearance. *)
Definition count_values (keys : list K) : list (K * nat) :=
  fold_right insert_desc [] (fold_left (fun acc k => tally_add k acc) keys []).
End Tally.

(** [s.value_counts()] of a column: missing entries are not counted. *)
Definition value_counts (s : Series) : list (cell * nat) :=
  count_values cell_eqb
    (flat_map (fun v => match v with Some c => [c] | None => [] end) (series_cells s)).

(** The lines of a three-column frame without a missing entry. *)
Fixpoint complete_rows (a b c : list (option cell)) : list (cell * (cell * cell)) :=
  match a, b, c with
  | va :: a', vb :: b', vc :: c' =>
      match va, vb, vc with
      | Some p, Some q, Some r => (p, (q, r)) :: complete_rows a' b' c'
      | _, _, _ => complete_rows a' b' c'
      end
  | _, _, _ => []
  end.

Definition row_eqb (r1 r2 : cell * (cell * cell)) : bool :=
  cell_eqb (fst r1) (fst r2)
  && cell_eqb (fst (snd r1)) (fst (snd r2))
  && cell_eqb (snd (snd r1)) (snd (snd r2)).

(** [s.value_counts()] of a three-column frame: a series of the counts of
    the distinct lines, indexed by the triple of their values. *)
Definition frame_value_counts (s : DataFrame) : list ((cell * (cell * cell)) * nat) :=
  match s with
  | [(_, a); (_, b); (_, c)] =>
      count_values row_eqb (complete_rows (series_cells a) (series_cells b) (series_cells c))
  | _ => []
  end.

(** [c in dis_s.index] on the three-level index: a key that is not a
    tuple is looked up in the first level only. *)
Definition in_first_level (c : cell) (dis_s : list ((cell * (cell * cell)) * nat)) : bool :=
  existsb (fun e => cell_eqb (fst (fst e)) c) dis_s.

(** [dis_s.loc[c]]: the part of the series under the first-level key. *)
Definition loc_first_level (c : cell) (dis_s : list ((cell * (cell * cell)) * nat))
  : list ((cell * cell) * nat) :=
  map (fun e => (snd (fst e), snd e))
      (List.filter (fun e => cell_eqb (fst (fst e)) c) dis_s).

Inductive count_entry : Type :=
  | count_zero
  | count_part (part : list ((cell * cell) * nat)).

(** *** Dictionaries *)

Inductive pyobj : Type :=
  | py_str (s : string)
  | py_int (n : Z)
  | py_ndarray (a : list string).

(** [hash(k)]: an array is not hashable. *)
Definition hashable (k : pyobj) : result unit :=
  match k with
  | py_ndarray _ => Raise TypeError
  | _ => Ok tt
  end.

Definition pyobj_eqb (a b : pyobj) : bool :=
  match a, b with
  | py_str s, py_str t => String.eqb s t
  | py_int m, py_int n => Z.eqb m n
  | _, _ => false
  end.

Definition dict : Type := list (pyobj * string).

Fixpoint dict_put (k : pyobj) (v : string) (d : dict) : dict :=
  match d with
  | [] => [(k, v)]
  | (k', v') :: rest =>
      if pyobj_eqb k' k then (k', v) :: rest else (k', v') :: dict_put k v rest
  end.

Definition dict_setitem (d : dict) (k : pyobj) (v : string) : result dict :=
  rbind (hashable k) (fun _ => Ok (dict_put k v d)).

Definition dict_getitem (d : dict) (k : pyobj) : result string :=
  rbind (hashable k) (fun _ =>
    match find (fun e => pyobj_eqb (fst e) k) d with
    | Some e => Ok (snd e)
    | None => Raise KeyError
    end).

(** [{key: color for color in palette}] *)
Definition dict_of_palette (key : pyobj) (palette : list string) : result dict :=
  fold_left (fun acc color => rbind acc (fun d => dict_setitem d key color))
            palette (Ok []).

(** [cat_palette[k]], where [cat_palette] may be [None]. *)
Definition subscript (cat_palette : option dict) (k : pyobj) : result string :=
  match cat_palette with
  | Some d => dict_getitem d k
  | None => Raise TypeError
  end.

(** *** Views *)

Inductive mapper : Type :=
  | factor_cmap (field : string) (palette : list string) (factors : list string) (start : Z)
  | log_cmap (field : string) (palette : list string) (low high : float)
  | linear_cmap (field : string) (palette : list string) (low high : float).

Definition set_field (f : string) (m : mapper) : mapper :=
  match m with
  | factor_cmap _ p l st => factor_cmap f p l st
  | log_cmap _ p lo hi => log_cmap f p lo hi
  | linear_cmap _ p lo hi => linear_cmap f p lo hi
  end.

Record pca_plot : Type := {
  pca_title : string;
  fill_color : mapper;
  color_bar : bool;
  legend_on_the_left : bool
}.

(** The data source of the histogram and its title. *)
Record histogram : Type := {
  top : list nat;
  top_s : list nat;
  left : list Q;
  right : list Q;
  hist_y_range_end : Q;
  hist_title : string
}.

(** The data source of the bar chart and its title. *)
Record bar_chart : Type := {
  categories : list cell;
  count_all : list nat;
  count_sel : list count_entry;
  color : list string;
  bar_y_range_end : Q;
  bar_title : string
}.

Inductive subplot : Type :=
  | hist_plot (ph : histogram)
  | bar_plot (pb : bar_chart).

(** [p_pca_source.data['label']]: a column at first, the selected name
    once [update_pca_col] has written it. *)
Inductive label_data : Type :=
  | label_column (s : Series)
  | label_name (v : string).

(** Bokeh checks the data of a [ColumnDataSource] when an entry has been
    written: every entry must be a sequence that is not a string.  The
    entry is written first, the check comes second. *)
Definition ColumnData_validate (v : label_data) : result unit :=
  match v with
  | label_column _ => Ok tt
  | label_name _ => Raise ValueError
  end.

Section Explorer.

(** The palettes of Bokeh. *)
Variable TolRainbow23 : list string.
Variable Turbo256 : list string.

(** The state of numpy's global random generator, and scikit-learn.
    The estimators draw from the global generator when no [random_state]
    is given. *)
Variable rng : Type.
Variable np_random_seed : Z -> rng.
Variable MinMaxScaler_fit_transform : DataFrame -> result ndarray.
Variable SimpleImputer_mean_fit_transform : ndarray -> result ndarray.
Variable PCA_fit_transform : nat -> ndarray -> rng -> result ndarray * rng.
Variable MiniBatchKMeans_fit_labels : nat -> nat -> DataFrame -> rng -> result (list Z) * rng.

Definition create_cmap (df : DataFrame) (col : string)
  : result (mapper * option dict) :=
  rbind (get_column col df) (fun s =>
    match s with
    | object_col values =>
        let l := np_unique (astype_str values) in
        let palette := TolRainbow23 in
        let mapper := factor_cmap col palette l 1 in
        rbind (dict_of_palette (py_ndarray l) palette) (fun cat_palette =>
          Ok (mapper, Some cat_palette))
    | float_col values =>
        rbind (py_min values) (fun low =>
        rbind (py_max values) (fun high =>
          if notna low && negb (float_ltb low (Some 0%Q))
          then Ok (log_cmap col Turbo256 low high, None)
          else Ok (linear_cmap col Turbo256 low high, None)))
    end).

Definition plot_pca (df : DataFrame) (ft_selected : string) : result pca_plot :=
  let c := ft_selected in
  rbind (create_cmap df c) (fun cm =>
  rbind (get_column c df) (fun s =>
    Ok {| pca_title := "PCA with Color Map on " ++ c;
          fill_color := set_field "y" (fst cm);
          color_bar := is_numeric_dtype s;
          legend_on_the_left := negb (is_numeric_dtype s) && is_object_dtype s |})).

Definition hist_columns (col : string) : list string := ["PCA 1"; "PCA 2"; col].

Definition draw_hist (df : DataFrame) (col : string) (points_selected : list nat)
  : result histogram :=
  rbind (loc df points_selected (hist_columns col)) (fun s =>
  rbind (get_columns (hist_columns col) df) (fun all =>
  rbind (np_histogram all) (fun h =>
  rbind (np_histogram s) (fun h_s =>
  rbind (np_max (fst h)) (fun top_max =>
    Ok {| top := fst h;
          top_s := fst h_s;
          left := removelast (snd h);
          right := tl (snd h);
          hist_y_range_end := ((11 # 10) * inject_Z (Z.of_nat top_max))%Q;
          hist_title := "Histogram of " ++ col |}))))).

Definition draw_bar_chart (df : DataFrame) (col : string) (points_selected : list nat)
  : result bar_chart :=
  rbind (loc df points_selected (hist_columns col)) (fun s =>
  rbind (get_column col df) (fun column =>
    let dis := value_counts column in
    let dis_s := frame_value_counts s in
    let cat := map fst dis in
    let count := map snd dis in
    let count_s :=
      map (fun c => if in_first_level c dis_s
                    then count_part (loc_first_level c dis_s)
                    else count_zero) cat in
    rbind (create_cmap df col) (fun cm =>
    rbind (rmap (fun c => subscript (snd cm) (py_int (Z.of_nat c)))
                (seq 0 (length cat))) (fun cat_color =>
    rbind (np_max count) (fun count_max =>
      Ok {| categories := cat;
            count_all := count;
            count_sel := count_s;
            color := cat_color;
            bar_y_range_end := ((11 # 10) * inject_Z (Z.of_nat count_max))%Q;
            bar_title := "Distribution of " ++ col |}))))).

Definition draw_subplot (df : DataFrame) (ft_selected : string) (points_selected : list nat)
  : result subplot :=
  rbind (get_column ft_selected df) (fun s =>
    if is_numeric_dtype s
    then rbind (draw_hist df ft_selected points_selected) (fun p => Ok (hist_plot p))
    else rbind (draw_bar_chart df ft_selected points_selected) (fun p => Ok (bar_plot p))).

(** *** The pipeline

    [pca] and [clustering] receive a reference to a frame, write their
    new columns into the frame it names, and return the same reference. *)
Record memory : Type := {
  heap : list DataFrame;
  np_random : rng
}.

Definition ref : Type := nat.

Local Open Scope py_scope.

(** The frame behind a reference.  A Python name always refers to an
    object; the error case is there for a reference outside the heap and
    is never met by the program. *)
Definition deref (r : ref) : M memory DataFrame :=
  fun m => (match heap m !! r with
            | Some df => Ok df
            | None => Raise KeyError
            end, m).

Definition store (r : ref) (df : DataFrame) : M memory unit :=
  modify (fun m => {| heap := <[r := df]> (heap m); np_random := np_random m |}).

(** [df[name] = values] on the frame behind [r]. *)
Definition setitem (r : ref) (name : string) (values : Series) : M memory unit :=
  df <- deref r ;;
  df' <- lift (assign_column name values df) ;;
  store r df'.

Definition with_np_random {A} (f : rng -> result A * rng) : M memory A :=
  fun m => let (a, g) := f (np_random m) in
           (a, {| heap := heap m; np_random := g |}).

Definition pca (df : ref) : M memory ref :=
  frame <- deref df ;;
  let X := iloc_columns_from 5 frame in
  X_scaled <- lift (MinMaxScaler_fit_transform X) ;;
  X_imp <- lift (SimpleImputer_mean_fit_transform X_scaled) ;;
  X_pca <- with_np_random (PCA_fit_transform 2 X_imp) ;;
  c0 <- lift (array_column X_pca 0) ;;
  setitem df "PCA 1" (float_col c0) ;;;
  c1 <- lift (array_column X_pca 1) ;;
  setitem df "PCA 2" (float_col c1) ;;;
  ret df.

Definition astype_str_labels (labels : list Z) : Series :=
  object_col (map (fun l => Some (str l)) labels).

Definition clustering (df : ref) (n_clusters : nat) : M memory ref :=
  frame <- deref df ;;
  let X_pca := filter_PCA frame in
  modify (fun m => {| heap := heap m; np_random := np_random_seed 0 |}) ;;;
  labels <- with_np_random (MiniBatchKMeans_fit_labels n_clusters 2 X_pca) ;;
  let y_pred := astype_str_labels labels in
  setitem df "Cluster" y_pred ;;;
  ret df.

(** [clustering(pca(pca_data))], with the default number of clusters. *)
Definition pipeline (pca_data0 : ref) : M memory ref :=
  r <- pca pca_data0 ;;
  clustering r 2.

(** *** Session state and handlers *)

Record session : Type := {
  mem : memory;
  pca_data : ref;
  df : ref;
  sub_ft_selected : string;
  points_selected : list nat;
  p_pca_source_label : label_data;
  layout_p_pca : pca_plot;
  layout_p_sub : subplot
}.

Definition set_mem (v : memory) (s : session) : session :=
  {| mem := v; pca_data := pca_data s; df := df s;
     sub_ft_selected := sub_ft_selected s; points_selected := points_selected s;
     p_pca_source_label := p_pca_source_label s;
     layout_p_pca := layout_p_pca s; layout_p_sub := layout_p_sub s |}.

Definition set_sub_ft_selected (v : string) (s : session) : session :=
  {| mem := mem s; pca_data := pca_data s; df := df s;
     sub_ft_selected := v; points_selected := points_selected s;
     p_pca_source_label := p_pca_source_label s;
     layout_p_pca := layout_p_pca s; layout_p_sub := layout_p_sub s |}.

Definition set_points_selected (v : list nat) (s : session) : session :=
  {| mem := mem s; pca_data := pca_data s; df := df s;
     sub_ft_selected := sub_ft_selected s; points_selected := v;
     p_pca_source_label := p_pca_source_label s;
     layout_p_pca := layout_p_pca s; layout_p_sub := layout_p_sub s |}.

Definition set_p_pca_source_label (v : label_data) (s : session) : session :=
  {| mem := mem s; pca_data := pca_data s; df := df s;
     sub_ft_selected := sub_ft_selected s; points_selected := points_selected s;
     p_pca_source_label := v;
     layout_p_pca := layout_p_pca s; layout_p_sub := layout_p_sub s |}.

Definition set_layout_p_pca (v : pca_plot) (s : session) : session :=
  {| mem := mem s; pca_data := pca_data s; df := df s;
     sub_ft_selected := sub_ft_selected s; points_selected := points_selected s;
     p_pca_source_label := p_pca_source_label s;
     layout_p_pca := v; layout_p_sub := layout_p_sub s |}.

Definition set_layout_p_sub (v : subplot) (s : session) : session :=
  {| mem := mem s; pca_data := pca_data s; df := df s;
     sub_ft_selected := sub_ft_selected s; points_selected := points_selected s;
     p_pca_source_label := p_pca_source_label s;
     layout_p_pca := layout_p_pca s; layout_p_sub := v |}.

(** The frame the global [df] names. *)
Definition the_df : M session DataFrame :=
  fun s => (fst (deref (df s) (mem s)), s).

(** Line 503 stores [select_col_pca.value], a string, as the column
    ['label']; the check of the data source then raises, and the two
    lines after it are not reached. *)
Definition update_pca_col (new : string) : M session unit :=
  modify (set_p_pca_source_label (label_name new)) ;;;
  lift (ColumnData_validate (label_name new)) ;;;
  frame <- the_df ;;
  p_pca <- lift (plot_pca frame new) ;;
  modify (set_layout_p_pca p_pca).

Definition update_sub_col (new : string) : M session unit :=
  modify (set_sub_ft_selected new) ;;;
  frame <- the_df ;;
  s <- gets id ;;
  p <- lift (draw_subplot frame (sub_ft_selected s) (points_selected s)) ;;
  modify (set_layout_p_sub p).

Definition lasso_update (new : list nat) : M session unit :=
  modify (set_points_selected new) ;;;
  frame <- the_df ;;
  s <- gets id ;;
  p <- lift (draw_subplot frame (sub_ft_selected s) (points_selected s)) ;;
  modify (set_layout_p_sub p).

(** Lines 417-439: the frame read from the file is the only frame; the
    globals [pca_data] and [df] both name it. *)
Definition plotting (pca_data0 : ref) : M memory session :=
  df0 <- pipeline pca_data0 ;;
  let pca_ft_selected := "Market Cap" in
  let sub_ft_selected0 := "Mean Recommendation" in
  let points_selected0 := @nil nat in
  frame <- deref df0 ;;
  label <- lift (get_column pca_ft_selected frame) ;;
  setitem df0 "label" label ;;;
  frame <- deref df0 ;;
  label <- lift (get_column "label" frame) ;;
  p_pca <- lift (plot_pca frame pca_ft_selected) ;;
  p_sub <- lift (draw_subplot frame sub_ft_selected0 points_selected0) ;;
  m <- gets id ;;
  ret {| mem := m; pca_data := pca_data0; df := df0;
         sub_ft_selected := sub_ft_selected0;
         points_selected := points_selected0;
         p_pca_source_label := label_column label;
         layout_p_pca := p_pca;
         layout_p_sub := p_sub |}.

(** [pd.read_csv] puts the table at a fresh reference. *)
Definition startup (table : DataFrame) (g : rng) : result session * memory :=
  plotting 0%nat {| heap := [table]; np_random := g |}.

Inductive event : Type :=
  | select_col_pca (new : string)
  | select_col_sub (new : string)
  | lasso (new : list nat).

Definition deliver (ev : event) : M session unit :=
  match ev with
  | select_col_pca new => update_pca_col new
  | select_col_sub new => update_sub_col new
  | lasso new => lasso_update new
  end.

Definition step (s : session) (ev : event) : session := snd (deliver ev s).

End Explorer.

Arguments heap {rng} m.
Arguments np_random {rng} m.
Arguments deref {rng} r.
Arguments store {rng} r df.
Arguments setitem {rng} r name values.
Arguments with_np_random {rng A} f.
Arguments mem {rng} s.
Arguments pca_data {rng} s.
Arguments df {rng} s.
Arguments sub_ft_selected {rng} s.
Arguments points_selected {rng} s.
Arguments p_pca_source_label {rng} s.
Arguments layout_p_pca {rng} s.
Arguments layout_p_sub {rng} s.
Arguments the_df {rng}.

End DvcEx3.

(** ** Example data *)

Module Examples.
Import DvcEx4.

Definition all_years : list Z := [2019; 2020; 2021; 2022]%Z.

Definition firm (symbol city_name : string) (cap employees : Q) : company :=
  {| raw_Symbol := Some symbol;
     raw_City := city_name;
     raw_x := Some 0%Q;
     raw_y := Some 0%Q;
     raw_Market_Cap := fun _ => Some cap;
     raw_Employees := fun _ => Some employees |}.

(** Two companies of one city, with market caps 50 and 150. *)
Definition A : company := firm "A" "Austin" 50 10.
Definition B : company := firm "B" "Austin" 150 20.

Definition scenario_1 : base_table :=
  {| Market_Cap_years := all_years;
     Employees_years := all_years;
     companies := [A; B] |}.

(** A company without a market cap in any year. *)
Definition unlisted : company :=
  {| raw_Symbol := Some "U";
     raw_City := "Reno";
     raw_x := Some 0%Q;
     raw_y := Some 0%Q;
     raw_Market_Cap := fun _ => nan;
     raw_Employees := fun _ => Some 5%Q |}.

Definition with_unlisted : base_table :=
  {| Market_Cap_years := all_years;
     Employees_years := all_years;
     companies := [A; unlisted; B] |}.

(** A session of the map in a given year, with the animation stopped. *)
Definition session_in (y : Z) : app :=
  {| us_company_map := scenario_1;
     year := y;
     city := "Austin";
     market_cap_lower := 0%Q;
     main_df := [];
     main_source_data := main_frame [];
     sub_source_data := sub_frame [];
     label_text := str y;
     subplot_title := title_of "Austin" y;
     btn_label := play_label;
     callback := None;
     session_callbacks := [];
     next_callback_id := 0 |}.

End Examples.

(** ** Example data for the explorer *)

Module ExplorerExamples.
Import DvcEx3.
Local Open Scope list_scope.

(** Two companies; five categorical columns, then the numeric features. *)
Definition two_companies : DataFrame :=
  [ ("Country", object_col [Some "US"; Some "CH"]);
    ("Industry", object_col [Some "Software"; Some "Pharma"]);
    ("Company", object_col [Some "Acme"; Some "Berna"]);
    ("Symbol", object_col [Some "ACM"; Some "BRN"]);
    ("Recommendation", object_col [Some "buy"; Some "hold"]);
    ("Market Cap", float_col [Some 50%Q; Some 150%Q]);
    ("Mean Recommendation", float_col [Some 2%Q; Some 3%Q]) ].

(** The same frame once the pipeline has added its columns. *)
Definition explored : DataFrame :=
  (two_companies
   ++ [ ("PCA 1", float_col [Some 50%Q; Some 150%Q]);
        ("PCA 2", float_col [Some 2%Q; Some 3%Q]);
        ("Cluster", object_col [Some "0"; Some "0"]) ])%list.

(** A feature with a missing value in its second line. *)
Definition with_missing_feature : DataFrame :=
  (explored ++ [ ("Dividend Yield", float_col [Some 1%Q; nan]) ])%list.

(** A stand-in for scikit-learn.  Scaling and imputation return the
    numeric cells as they are and the projection keeps the first
    components.  The generator state is a counter; the clustering labels
    every point with the state it is called in and advances it, so that
    its labels do depend on the generator. *)
Definition toy_seed (seed : Z) : nat := Z.to_nat seed.

Definition toy_scaler (X : DataFrame) : result ndarray :=
  rmap (fun c => series_floats (snd c)) X.

Definition toy_imputer (X : ndarray) : result ndarray := Ok X.

Definition toy_projection (n_components : nat) (X : ndarray) (g : nat)
  : result ndarray * nat :=
  (Ok (firstn n_components X), g).

Definition toy_kmeans (n_clusters n_init : nat) (X : DataFrame) (g : nat)
  : result (list Z) * nat :=
  (Ok (repeat (Z.of_nat g) (nrows X)), S g).

(** A stand-in for the clustering that labels every point with the
    number of columns it is given. *)
Definition toy_kmeans_by_width (n_clusters n_init : nat) (X : DataFrame) (g : nat)
  : result (list Z) * nat :=
  (Ok (repeat (Z.of_nat (length X)) (nrows X)), S g).

(** A table whose first column is a numeric feature, and a table that
    has a column named like a component already. *)
Definition market_cap_first : DataFrame :=
  [ ("Market Cap", float_col [Some 50%Q; Some 150%Q]);
    ("Country", object_col [Some "US"; Some "CH"]);
    ("Industry", object_col [Some "Software"; Some "Pharma"]);
    ("Company", object_col [Some "Acme"; Some "Berna"]);
    ("Symbol", object_col [Some "ACM"; Some "BRN"]);
    ("Mean Recommendation", float_col [Some 2%Q; Some 3%Q]);
    ("Dividend Yield", float_col [Some 1%Q; Some 4%Q]) ].

Definition with_a_component : DataFrame :=
  (two_companies ++ [ ("PCA 9", float_col [Some 7%Q; Some 8%Q]) ])%list.

Definition one_colour : list string := ["#E8ECFB"].

(** Two memories that hold the frame at different places and whose
    generators are in different states. *)
Definition memory_a : memory nat := {| heap := [explored]; np_random := 5%nat |}.
Definition memory_b : memory nat :=
  {| heap := [two_companies; explored]; np_random := 9%nat |}.

Definition memory_c : memory nat := {| heap := [two_companies]; np_random := 3%nat |}.

End ExplorerExamples.


(** ** Notions used in the statements *)

Module MapStatements.
Import DvcEx4.

(** A line of the base table as the masking line of [create_df] leaves it. *)
Definition masked_line (year : Z) (T : Q) (c : company) : row :=
  mask_row T (select_columns year c).

(** The lines of the base table of one city, and those of them the
    threshold does not mask. *)
Definition in_city (k : string) (table : base_table) : list company :=
  List.filter (fun c => String.eqb (raw_City c) k) (companies table).

Definition kept (year : Z) (T : Q) (c : company) : bool :=
  negb (float_lt (raw_Market_Cap c year) T).

(** The three fields of the animation control. *)
Definition control (a : app) : string * option periodic_callback * list periodic_callback :=
  (btn_label a, callback a, session_callbacks a).

(** The two states of the animation control. *)
Definition stopped (a : app) : Prop :=
  btn_label a = play_label /\ session_callbacks a = [].

Definition running (a : app) : Prop :=
  btn_label a = pause_label
  /\ exists cb, session_callbacks a = [cb] /\ callback a = Some cb.

Definition timer_invariant (a : app) : Prop := stopped a \/ running a.

End MapStatements.

Module ExplorerStatements.
Import DvcEx3.

Definition empty_like (s : Series) : Series :=
  match s with
  | object_col _ => object_col []
  | float_col _ => float_col []
  end.

(** A frame whose columns are all numeric and without [nan]. *)
Definition all_finite (a : DataFrame) : Prop :=
  forall c, In c a -> exists v, snd c = float_col v /\ forallb notna v = true.

(** Every column of [old] whose name is not in [added] is still there,
    with the same cells, in [new], and [new] has no other column beside
    those of [old] and those named in [added]. *)
Definition columns_kept (added : list string) (old new : DataFrame) : Prop :=
  forall name, ~ In name added -> get_column name new = get_column name old.

Definition added_columns : list string := ["PCA 1"; "PCA 2"; "Cluster"; "label"].

(** The numeric features of a table: its columns of numbers. *)
Definition numeric_features (table : DataFrame) : DataFrame :=
  List.filter (fun c => is_numeric_dtype (snd c)) table.


Section Outcomes.

Variable rng : Type.
Variable np_random_seed : Z -> rng.
Variable MinMaxScaler_fit_transform : DataFrame -> result ndarray.
Variable SimpleImputer_mean_fit_transform : ndarray -> result ndarray.
Variable PCA_fit_transform : nat -> ndarray -> rng -> result ndarray * rng.
Variable MiniBatchKMeans_fit_labels : nat -> nat -> DataFrame -> rng -> result (list Z) * rng.

Definition with_heap (h : list DataFrame) (m : memory rng) : memory rng :=
  {| heap := h; np_random := np_random m |}.

Definition with_generator (g : rng) (m : memory rng) : memory rng :=
  {| heap := heap m; np_random := g |}.

(** What [clustering] returns, given the frame behind its argument. *)
Definition clustering_outcome (r : ref) (n_clusters : nat) (t : DataFrame) (m : memory rng)
  : result ref * memory rng :=
  match MiniBatchKMeans_fit_labels n_clusters 2 (filter_PCA t) (np_random_seed 0) with
  | (Ok labels, g) =>
      match assign_column "Cluster" (astype_str_labels labels) t with
      | Ok t' => (Ok r, {| heap := <[r := t']> (heap m); np_random := g |})
      | Raise e => (Raise e, {| heap := heap m; np_random := g |})
      end
  | (Raise e, g) => (Raise e, {| heap := heap m; np_random := g |})
  end.

(** The pipeline in the words of the specification: min-max normalise
    each numeric feature, impute the missing values with the column
    mean, project onto two components, cluster the two-dimensional
    projection into a fixed number of groups (two) with a fixed seed
    (0). *)
Definition reduce_and_cluster (table : DataFrame) (g : rng)
  : result (list float * list float * list Z) :=
  rbind (MinMaxScaler_fit_transform (numeric_features table)) (fun normalized =>
  rbind (SimpleImputer_mean_fit_transform normalized) (fun imputed =>
  rbind (fst (PCA_fit_transform 2 imputed g)) (fun projected =>
  rbind (array_column projected 0) (fun component_1 =>
  rbind (array_column projected 1) (fun component_2 =>
  rbind (fst (MiniBatchKMeans_fit_labels 2 2
                [("PCA 1", float_col component_1); ("PCA 2", float_col component_2)]
                (np_random_seed 0))) (fun labels =>
    Ok (component_1, component_2, labels))))))).

(** What [pca] returns, given the frame behind its argument. *)
Definition pca_outcome (r : ref) (t : DataFrame) (m : memory rng)
  : result ref * memory rng :=
  match MinMaxScaler_fit_transform (iloc_columns_from 5 t) with
  | Raise e => (Raise e, m)
  | Ok X_scaled =>
  match SimpleImputer_mean_fit_transform X_scaled with
  | Raise e => (Raise e, m)
  | Ok X_imp =>
  match PCA_fit_transform 2 X_imp (np_random m) with
  | (Raise e, g) => (Raise e, with_generator g m)
  | (Ok X_pca, g) =>
  match array_column X_pca 0 with
  | Raise e => (Raise e, with_generator g m)
  | Ok c0 =>
  match assign_column "PCA 1" (float_col c0) t with
  | Raise e => (Raise e, with_generator g m)
  | Ok t1 =>
  match array_column X_pca 1 with
  | Raise e => (Raise e, {| heap := <[r := t1]> (heap m); np_random := g |})
  | Ok c1 =>
  match assign_column "PCA 2" (float_col c1) t1 with
  | Raise e => (Raise e, {| heap := <[r := t1]> (heap m); np_random := g |})
  | Ok t2 => (Ok r, {| heap := <[r := t2]> (heap m); np_random := g |})
  end end end end end end end.

End Outcomes.

Arguments with_heap {rng} h m.
Arguments with_generator {rng} g m.

End ExplorerStatements.

(** ** Notions for further properties of the map *)

Module MapNotions.
Import DvcEx4 MapStatements.

(** The table has the columns of each year of the animation. *)
Definition years_present (table : base_table) : Prop :=
  forall y, (2019 <= y <= 2022)%Z ->
    has_column y (Market_Cap_years table) = true
    /\ has_column y (Employees_years table) = true.

(** What is shown is what [create_df] gives for the current globals. *)
Definition views_consistent (a : app) : Prop :=
  create_df (us_company_map a) (year a) (city a) (market_cap_lower a) true
  = Ok (main_source_data a)
  /\ create_df (us_company_map a) (year a) (city a) (market_cap_lower a) false
     = Ok (sub_source_data a)
  /\ label_text a = str (year a)
  /\ subplot_title a = title_of (city a) (year a).

(** The index of a frame grouped by city. *)
Definition frame_index (f : frame) : list string :=
  match f with
  | main_frame rows => map City_index rows
  | sub_frame _ => []
  end.

(** The year after a step of the animation. *)
Definition next_year (y : Z) : Z := if (2022 <? y + 1)%Z then 2019%Z else (y + 1)%Z.

Definition ticks (n : nat) : list event := repeat tick n.

(** What a tick leaves alone. *)
Definition beside_the_year (a : app)
  : base_table * string * Q * list city_row
    * (string * option periodic_callback * list periodic_callback) * nat :=
  (us_company_map a, city a, market_cap_lower a, main_df a, control a, next_callback_id a).

(** Every registered callback fires every 200 ms and is older than the
    next identity. *)
Definition callbacks_well_formed (a : app) : Prop :=
  forall cb, In cb (session_callbacks a) ->
             period_milliseconds cb = 200%Z /\ (callback_id cb < next_callback_id a)%nat.

End MapNotions.

(** ** Notions for further properties of the explorer *)

Module ExplorerNotions.
Import DvcEx3.

(** The number of cells of a frame. *)
Definition cells_count (a : DataFrame) : nat :=
  list_sum (map (fun c => series_length (snd c)) a).

(** The session after a sequence of events. *)
Definition run_session (TolRainbow23 Turbo256 : list string) (rng : Type)
    (evs : list event) (s : session rng) : session rng :=
  fold_left (step TolRainbow23 Turbo256 rng) evs s.

End ExplorerNotions.

(** ** An example session *)

Module SessionExamples.
Import DvcEx3 ExplorerExamples.
Local Open Scope list_scope.

(** The setup on the two companies, with the stand-in for scikit-learn
    and a palette of one colour. *)
Definition toy_startup : result (session nat) * memory nat :=
  startup one_colour [] nat toy_seed toy_scaler toy_imputer toy_projection toy_kmeans
          two_companies 7%nat.

(** The frame this setup leaves. *)
Definition set_up : DataFrame :=
  explored ++ [("label", float_col [Some 50%Q; Some 150%Q])].

Definition toy_step : session nat -> event -> session nat := step one_colour [] nat.

Definition toy_run : list event -> session nat -> session nat :=
  ExplorerNotions.run_session one_colour [] nat.

End SessionExamples.

(** ** dvc_ex4.py: the two figures

    [plot_city] and [plot_company] are called once, when the module is
    run; the handlers afterwards only replace the data of the sources.
    Of a figure the model keeps what is computed from the data: the
    title, the two ranges and the bounds of the colour mapper.  The
    builtins [min] and [max] are those of the explorer. *)

Module DvcEx4Plots.
Import DvcEx4.

(** [v + k], [v - k] and [k * v] on floats: [nan] stays [nan]. *)
Definition float_plus (v : float) (k : Q) : float :=
  match v with Some q => Some (q + k)%Q | None => nan end.

Definition float_minus (v : float) (k : Q) : float :=
  match v with Some q => Some (q - k)%Q | None => nan end.

Definition float_times (k : Q) (v : float) : float :=
  match v with Some q => Some (k * q)%Q | None => nan end.

Record Range1d : Type := {
  range_start : float;
  range_end : float
}.

(** [log_cmap(field, palette=Turbo256, low=..., high=...)] *)
Record log_cmap : Type := {
  cmap_field : string;
  cmap_low : float;
  cmap_high : float
}.

Record figure : Type := {
  title : string;
  x_range : Range1d;
  y_range : Range1d;
  fill_color : log_cmap
}.

(** Lines 140-195. *)
Definition plot_city (main_df : list city_row) : result figure :=
  rbind (DvcEx3.py_min (map (fun r => float_minus (x_mean r) 200000) main_df)) (fun x0 =>
  rbind (DvcEx3.py_max (map x_mean main_df)) (fun x1 =>
  rbind (DvcEx3.py_min (map (fun r => float_minus (y_mean r) 200000) main_df)) (fun y0 =>
  rbind (DvcEx3.py_max (map y_mean main_df)) (fun y1 =>
  rbind (DvcEx3.py_min (map Market_Cap_sum main_df)) (fun low =>
  rbind (DvcEx3.py_max (map Market_Cap_sum main_df)) (fun high =>
    Ok {| title := "US Tech Companies Distribution by City";
          x_range := {| range_start := x0; range_end := float_plus x1 200000 |};
          y_range := {| range_start := y0; range_end := float_plus y1 200000 |};
          fill_color := {| cmap_field := "Market Cap";
                           cmap_low := low; cmap_high := high |} |})))))).

(** [us_company_map['Market Cap <year>']] and
    [us_company_map['Employees <year>']] *)
Definition Market_Cap_column (us_company_map : base_table) (year : Z)
  : result (list float) :=
  if has_column year (Market_Cap_years us_company_map)
  then Ok (map (fun c => raw_Market_Cap c year) (companies us_company_map))
  else Raise KeyError.

Definition Employees_column (us_company_map : base_table) (year : Z)
  : result (list float) :=
  if has_column year (Employees_years us_company_map)
  then Ok (map (fun c => raw_Employees c year) (companies us_company_map))
  else Raise KeyError.

(** Lines 216-217: the globals [markt_max], [markt_min], [emp_max] and
    [emp_min]; in each tuple the maximum is evaluated first. *)
Record extremes : Type := {
  markt_max : float;
  markt_min : float;
  emp_max : float;
  emp_min : float
}.

Definition table_extremes (us_company_map : base_table) (year : Z) : result extremes :=
  rbind (Market_Cap_column us_company_map year) (fun caps =>
  rbind (DvcEx3.py_max caps) (fun markt_max0 =>
  rbind (Market_Cap_column us_company_map year) (fun caps' =>
  rbind (DvcEx3.py_min caps') (fun markt_min0 =>
  rbind (Employees_column us_company_map year) (fun emps =>
  rbind (DvcEx3.py_max emps) (fun emp_max0 =>
  rbind (Employees_column us_company_map year) (fun emps' =>
  rbind (DvcEx3.py_min emps') (fun emp_min0 =>
    Ok {| markt_max := markt_max0; markt_min := markt_min0;
          emp_max := emp_max0; emp_min := emp_min0 |})))))))).

(** Lines 220-279; the globals it reads are arguments. *)
Definition plot_company (globals : extremes) (city : string) (year : Z)
    (sub_df : list company_row) : result figure :=
  let x_range0 := {| range_start := float_times 11 (emp_min globals);
                     range_end := float_times 11 (emp_max globals) |} in
  let y_range0 := {| range_start := float_times 11 (markt_min globals);
                     range_end := float_times 11 (markt_max globals) |} in
  rbind (DvcEx3.py_min (map (fun r => Market_Cap (company_data r)) sub_df)) (fun low =>
  rbind (DvcEx3.py_max (map (fun r => Market_Cap (company_data r)) sub_df)) (fun high =>
    Ok {| title := title_of city year;
          x_range := x_range0;
          y_range := y_range0;
          fill_color := {| cmap_field := "Market Cap";
                           cmap_low := low; cmap_high := high |} |})).

Record document : Type := {
  state : app;
  main_plot : figure;
  subplot : figure
}.

Definition sub_df_of (a : app) : list company_row :=
  match sub_source_data a with
  | sub_frame rows => rows
  | main_frame _ => []
  end.

(** The module from its first line to [curdoc().add_root(layout)], with
    the two figures: the frames are made first, then the main plot, the
    four globals and the subplot. *)
Definition launch (table : base_table) : result document :=
  rbind (startup table) (fun a =>
  rbind (plot_city (main_df a)) (fun main_plot0 =>
  rbind (table_extremes table (year a)) (fun globals =>
  rbind (plot_company globals (city a) (year a) (sub_df_of a)) (fun subplot0 =>
    Ok {| state := a; main_plot := main_plot0; subplot := subplot0 |})))).

End DvcEx4Plots.

Module PlotExamples.
Import DvcEx4 Examples.

(** Three companies with a place on the map: two in San Jose, the city
    selected when the module is run, and one in Austin. *)
Definition located (symbol city_name : string) (cap employees px py : Q) : company :=
  {| raw_Symbol := Some symbol;
     raw_City := city_name;
     raw_x := Some px;
     raw_y := Some py;
     raw_Market_Cap := fun _ => Some cap;
     raw_Employees := fun _ => Some employees |}.

Definition two_cities : base_table :=
  {| Market_Cap_years := all_years;
     Employees_years := all_years;
     companies := [ located "S1" "San Jose" 300 40 (-13570000) 4480000;
                    located "T1" "Austin" 50 10 (-10880000) 3540000;
                    located "S2" "San Jose" 100 30 (-13560000) 4490000 ] |}.

End PlotExamples.

(** ** Properties of the animated map *)

Section MapFacts.
Import DvcEx4 Examples PlotExamples MapStatements.

Lemma Qltb_lt (a b : Q) : Qltb a b = true <-> (a < b)%Q.
Proof.
  unfold Qltb. rewrite negb_true_iff. split.
  - intros H. apply Qnot_le_lt. intros Hle.
    apply Qle_bool_iff in Hle. congruence.
  - intros H. destruct (Qle_bool b a) eqn:E; [|reflexivity].
    apply Qle_bool_iff in E. exfalso. exact (Qlt_not_le _ _ H E).
Qed.

Lemma float_lt_Some (v : float) (T cap : Q) :
  v = Some cap -> (cap < T)%Q -> float_lt v T = true.
Proof. intros -> H. simpl. now apply Qltb_lt. Qed.

Lemma float_lt_not (v : float) (T cap : Q) :
  v = Some cap -> ~ (cap < T)%Q -> float_lt v T = false.
Proof.
  intros -> H. simpl. destruct (Qltb cap T) eqn:E; [|reflexivity].
  apply Qltb_lt in E. contradiction.
Qed.

Lemma masked_df_ok table year T :
  has_column year (Market_Cap_years table) = true ->
  has_column year (Employees_years table) = true ->
  masked_df table year T = Ok (map (masked_line year T) (companies table)).
Proof.
  intros H1 H2. unfold masked_df, take_year. rewrite H1, H2. simpl.
  unfold mask_below. now rewrite map_map.
Qed.

Lemma masked_line_fixed year T c :
  City (masked_line year T c) = raw_City c
  /\ x (masked_line year T c) = raw_x c
  /\ y (masked_line year T c) = raw_y c.
Proof.
  unfold masked_line, mask_row.
  destruct (float_lt (Market_Cap (select_columns year c)) T); simpl; auto.
Qed.

Lemma masked_line_below year T c :
  float_lt (raw_Market_Cap c year) T = true ->
  Symbol (masked_line year T c) = nan
  /\ Market_Cap (masked_line year T c) = nan
  /\ Employees (masked_line year T c) = nan.
Proof.
  intros H. unfold masked_line, mask_row. simpl. rewrite H. simpl. auto.
Qed.

Lemma masked_line_kept year T c :
  float_lt (raw_Market_Cap c year) T = false ->
  masked_line year T c = select_columns year c.
Proof.
  intros H. unfold masked_line, mask_row. simpl. now rewrite H.
Qed.

Lemma create_df_sub_ok table year city_name T :
  has_column year (Market_Cap_years table) = true ->
  has_column year (Employees_years table) = true ->
  create_df table year city_name T false
  = Ok (sub_frame
          (map with_circle_size
               (List.filter (fun r => String.eqb (City r) city_name)
                       (map (masked_line year T) (companies table))))).
Proof.
  intros H1 H2. unfold create_df. now rewrite (masked_df_ok _ _ _ H1 H2).
Qed.

Lemma filter_map_swap {A B} (f : A -> B) (p : B -> bool) (q : A -> bool) (l : list A) :
  (forall a, p (f a) = q a) ->
  List.filter p (map f l) = map f (List.filter q l).
Proof.
  intros Hpq. induction l as [|a l IH]; simpl; [reflexivity|].
  rewrite Hpq. destruct (q a); simpl; now rewrite IH.
Qed.

(** C1 (filter by threshold).  For every year whose columns exist, every
    city and every threshold [T], the frame of [create_df] after the
    masking line has one line per line of the base table, with ['City'],
    ['x'] and ['y'] unchanged; a line whose market cap of that year is
    strictly below [T] has ['Symbol'], ['Market Cap'] and ['Employees']
    replaced by [nan], a line whose market cap is a number not below [T]
    keeps them, and the subplot frame is made of the (masked) lines of the
    chosen city.  For the table {A: 50, B: 150} and [T = 100], A is masked
    and B is retained. *)
Theorem create_df_masks_below_threshold :
  (forall table year city_name T,
      has_column year (Market_Cap_years table) = true ->
      has_column year (Employees_years table) = true ->
      exists df,
        masked_df table year T = Ok df
        /\ length df = length (companies table)
        /\ (forall i c,
               nth_error (companies table) i = Some c ->
               exists r,
                 nth_error df i = Some r
                 /\ City r = raw_City c /\ x r = raw_x c /\ y r = raw_y c
                 /\ (forall cap,
                        raw_Market_Cap c year = Some cap ->
                        ((cap < T)%Q ->
                         Symbol r = nan /\ Market_Cap r = nan /\ Employees r = nan)
                        /\ (~ (cap < T)%Q ->
                            Symbol r = raw_Symbol c
                            /\ Market_Cap r = Some cap
                            /\ Employees r = raw_Employees c year)))
        /\ create_df table year city_name T false
           = Ok (sub_frame
                   (map with_circle_size
                        (List.filter (fun r => String.eqb (City r) city_name) df))))
  /\ masked_df scenario_1 2022 100
     = Ok [ {| Symbol := nan; City := "Austin"; x := Some 0%Q; y := Some 0%Q;
               Market_Cap := nan; Employees := nan |};
            {| Symbol := Some "B"; City := "Austin"; x := Some 0%Q; y := Some 0%Q;
               Market_Cap := Some 150%Q; Employees := Some 20%Q |} ].
Proof.
  split; [|reflexivity].
  intros table year city_name T H1 H2.
  exists (map (masked_line year T) (companies table)).
  split; [now apply masked_df_ok|].
  split; [now rewrite length_map|].
  split; [|now apply create_df_sub_ok].
  intros i c Hi. exists (masked_line year T c). split.
  - rewrite nth_error_map, Hi. reflexivity.
  - destruct (masked_line_fixed year T c) as (HC & Hx & Hy).
    repeat (split; [assumption|]).
    intros cap Hcap. split; intros Hlt.
    + apply masked_line_below. eapply float_lt_Some; eauto.
    + rewrite masked_line_kept by (eapply float_lt_not; eauto).
      simpl. auto.
Qed.

Lemma create_df_masks_scenario_1 :
  has_column 2022 (Market_Cap_years scenario_1) = true
  /\ has_column 2022 (Employees_years scenario_1) = true
  /\ exists df,
       masked_df scenario_1 2022 100 = Ok df
       /\ length df = length (companies scenario_1)
       /\ (forall i c,
              nth_error (companies scenario_1) i = Some c ->
              exists r,
                nth_error df i = Some r
                /\ City r = raw_City c /\ x r = raw_x c /\ y r = raw_y c
                /\ (forall cap,
                       raw_Market_Cap c 2022 = Some cap ->
                       ((cap < 100)%Q ->
                        Symbol r = nan /\ Market_Cap r = nan /\ Employees r = nan)
                       /\ (~ (cap < 100)%Q ->
                           Symbol r = raw_Symbol c
                           /\ Market_Cap r = Some cap
                           /\ Employees r = raw_Employees c 2022)))
       /\ create_df scenario_1 2022 "Austin" 100 false
          = Ok (sub_frame
                  (map with_circle_size
                       (List.filter (fun r => String.eqb (City r) "Austin") df))).
Proof.
  split; [reflexivity|]. split; [reflexivity|].
  apply (proj1 create_df_masks_below_threshold scenario_1 2022%Z "Austin" 100%Q);
    reflexivity.
Defined.

(** C10 (a missing metric is never masked).  For every threshold [T], a
    line whose market cap of the selected year is [nan] keeps its
    ['Symbol'] and ['Employees'] through the masking line: the comparison
    with [T] is false for [nan]. *)
Theorem missing_market_cap_is_not_masked :
  forall table year T i c,
    has_column year (Market_Cap_years table) = true ->
    has_column year (Employees_years table) = true ->
    nth_error (companies table) i = Some c ->
    raw_Market_Cap c year = nan ->
    float_lt (raw_Market_Cap c year) T = false
    /\ exists df r,
         masked_df table year T = Ok df
         /\ nth_error df i = Some r
         /\ Symbol r = raw_Symbol c
         /\ Employees r = raw_Employees c year
         /\ Market_Cap r = nan.
Proof.
  intros table year T i c H1 H2 Hi Hnan.
  assert (Hlt : float_lt (raw_Market_Cap c year) T = false) by now rewrite Hnan.
  split; [exact Hlt|].
  exists (map (masked_line year T) (companies table)), (masked_line year T c).
  split; [now apply masked_df_ok|].
  split; [rewrite nth_error_map, Hi; reflexivity|].
  rewrite (masked_line_kept _ _ _ Hlt). simpl. auto.
Qed.

Lemma missing_market_cap_unlisted :
  has_column 2022 (Market_Cap_years with_unlisted) = true
  /\ has_column 2022 (Employees_years with_unlisted) = true
  /\ nth_error (companies with_unlisted) 1 = Some unlisted
  /\ raw_Market_Cap unlisted 2022 = nan
  /\ float_lt (raw_Market_Cap unlisted 2022) 1000 = false
  /\ exists df r,
       masked_df with_unlisted 2022 1000 = Ok df
       /\ nth_error df 1 = Some r
       /\ Symbol r = raw_Symbol unlisted
       /\ Employees r = raw_Employees unlisted 2022
       /\ Market_Cap r = nan.
Proof.
  repeat (split; [reflexivity|]).
  apply (missing_market_cap_is_not_masked with_unlisted 2022%Z 1000%Q 1%nat unlisted);
    reflexivity.
Defined.

(** *** Handlers: what they leave alone *)

Ltac open_handler :=
  cbv [step deliver tap_update slider_update update_year play
       add_periodic_callback remove_periodic_callback
       create_df_now main_df_index bind modify gets ret lift id].

Ltac split_matches :=
  repeat match goal with
         | |- context [match ?e with _ => _ end] => destruct e
         end.

Lemma tap_update_control new a : control (snd (tap_update new a)) = control a.
Proof. open_handler. split_matches; reflexivity. Qed.

Lemma slider_update_control new a : control (snd (slider_update new a)) = control a.
Proof. open_handler. split_matches; reflexivity. Qed.

Lemma update_year_control a : control (snd (update_year a)) = control a.
Proof. open_handler. split_matches; reflexivity. Qed.

Lemma step_table a ev : us_company_map (step a ev) = us_company_map a.
Proof. destruct ev; open_handler; split_matches; reflexivity. Qed.

(** C2 (period advance).  For every state whose year is in the range
    2019..2022, one call of [update_year] leaves the year at the
    starting value plus one when that value is below 2022, and at 2019
    when it is 2022. *)
Theorem update_year_advances_and_wraps :
  forall a,
    (2019 <= year a <= 2022)%Z ->
    ((year a < 2022)%Z -> year (snd (update_year a)) = (year a + 1)%Z)
    /\ (year a = 2022%Z -> year (snd (update_year a)) = 2019%Z).
Proof.
  intros a Hrange.
  assert (Hyear : year (snd (update_year a))
                  = if (2022 <? year a + 1)%Z then 2019%Z else (year a + 1)%Z).
  { open_handler. simpl.
    destruct (2022 <? year a + 1)%Z; simpl; split_matches; reflexivity. }
  rewrite Hyear. split; intros H.
  - destruct (Z.ltb_spec 2022 (year a + 1)); [lia|reflexivity].
  - destruct (Z.ltb_spec 2022 (year a + 1)); [reflexivity|lia].
Qed.

Lemma update_year_from_2020_and_2022 :
  ((2019 <= year (session_in 2020) <= 2022)%Z
   /\ year (snd (update_year (session_in 2020))) = 2021%Z)
  /\ ((2019 <= year (session_in 2022) <= 2022)%Z
      /\ year (snd (update_year (session_in 2022))) = 2019%Z).
Proof.
  split; (split; [simpl; lia|]).
  - apply (proj1 (update_year_advances_and_wraps (session_in 2020)
                    ltac:(simpl; lia))).
    simpl. lia.
  - apply (proj2 (update_year_advances_and_wraps (session_in 2022)
                    ltac:(simpl; lia))).
    reflexivity.
Defined.

(** *** The animation control *)

Lemma timer_invariant_control a a' :
  control a' = control a -> timer_invariant a -> timer_invariant a'.
Proof.
  unfold control, timer_invariant, stopped, running.
  intros Heq. injection Heq as Hb Hc Hs. rewrite Hb, Hc, Hs. tauto.
Qed.

Lemma periodic_callback_eqb_refl cb : periodic_callback_eqb cb cb = true.
Proof.
  unfold periodic_callback_eqb. now rewrite Nat.eqb_refl, Z.eqb_refl.
Qed.

Lemma play_from_stopped a :
  stopped a -> fst (play a) = Ok tt /\ running (snd (play a)).
Proof.
  intros [Hl Hs]. open_handler. rewrite Hl. simpl. rewrite Hs. simpl.
  split; [reflexivity|]. split; [reflexivity|]. eexists. split; reflexivity.
Qed.

Lemma play_from_running a :
  running a -> fst (play a) = Ok tt /\ stopped (snd (play a)).
Proof.
  intros [Hl (cb & Hs & Hc)]. open_handler. rewrite Hl. simpl.
  rewrite Hc, Hs. simpl. rewrite periodic_callback_eqb_refl. simpl.
  split; [reflexivity|]. split; reflexivity.
Qed.

Lemma step_timer_invariant a ev : timer_invariant a -> timer_invariant (step a ev).
Proof.
  intros Hinv. destruct ev.
  - apply (timer_invariant_control a); [apply tap_update_control|exact Hinv].
  - apply (timer_invariant_control a); [apply slider_update_control|exact Hinv].
  - destruct Hinv as [H|H].
    + right. now apply play_from_stopped.
    + left. now apply play_from_running.
  - unfold step, deliver. destruct (session_callbacks a) eqn:E; [exact Hinv|].
    apply (timer_invariant_control a); [apply update_year_control|exact Hinv].
Qed.

Lemma startup_stopped table a : startup table = Ok a -> stopped a.
Proof.
  unfold startup, rbind. intros H.
  destruct (create_df table 2022 "San Jose" 0 true); [|discriminate].
  destruct (create_df table 2022 "San Jose" 0 false); [|discriminate].
  injection H as <-. split; reflexivity.
Qed.

Lemma reachable_timer_invariant table a : reachable table a -> timer_invariant a.
Proof.
  induction 1 as [a H|a ev _ IH].
  - left. now apply (startup_stopped table).
  - now apply step_timer_invariant.
Qed.

Lemma reachable_run table evs a : reachable table a -> reachable table (run evs a).
Proof.
  revert a. induction evs as [|ev evs IH]; intros a Ha; simpl; [exact Ha|].
  apply IH. now constructor.
Qed.

(** The number of registered callbacks along four clicks, and the
    subplot title after a tap on Austin and then on San Jose. *)
Example callbacks_along_clicks :
  map (fun evs => length (session_callbacks (run evs (session_in 2022))))
      [[]; [click]; [click; click]; [click; click; click]]
  = [0; 1; 0; 1]%nat.
Proof. reflexivity. Qed.

Example title_after_two_taps :
  match startup two_cities with
  | Ok a => subplot_title (run [tap [0%nat]] a) = "Tech Companies in Austin Year 2022"
            /\ subplot_title (run [tap [0%nat]; tap [1%nat]] a)
               = "Tech Companies in San Jose Year 2022"
  | Raise _ => False
  end.
Proof. split; reflexivity. Qed.

(** C8 (animation timer).  In every state reachable from the start of
    the application by any sequence of events (clicks of the play
    button, and also taps, slider moves and ticks), at most one periodic
    callback is registered: none while the button shows "Play", exactly
    one while it shows "Pause".  A click never raises, and two clicks in
    a row from any reachable state leave the number of callbacks
    unchanged, so that no second timer is ever added to a running one. *)
Theorem at_most_one_timer :
  forall table a,
    reachable table a ->
    (length (session_callbacks a) <= 1)%nat
    /\ (btn_label a = play_label -> session_callbacks a = [])
    /\ (btn_label a = pause_label -> length (session_callbacks a) = 1%nat)
    /\ fst (play a) = Ok tt
    /\ (length (session_callbacks (step a click)) <= 1)%nat
    /\ length (session_callbacks (step (step a click) click))
       = length (session_callbacks a).
Proof.
  intros table a Hr.
  pose proof (reachable_timer_invariant _ _ Hr) as Hinv.
  assert (Hlabels : play_label <> pause_label) by discriminate.
  assert (H1 : timer_invariant (step a click)) by now apply step_timer_invariant.
  split; [|split; [|split; [|split; [|split]]]].
  - destruct Hinv as [[_ Hs]|[_ (cb & Hs & _)]]; rewrite Hs; simpl; lia.
  - intros Hl. destruct Hinv as [[_ Hs]|[Hp _]]; [exact Hs|congruence].
  - intros Hl. destruct Hinv as [[Hp _]|[_ (cb & Hs & _)]]; [congruence|now rewrite Hs].
  - destruct Hinv as [H|H]; [now apply play_from_stopped|now apply play_from_running].
  - destruct H1 as [[_ Hs]|[_ (cb & Hs & _)]]; rewrite Hs; simpl; lia.
  - unfold step at 1 2. simpl deliver.
    destruct Hinv as [H|H].
    + destruct (play_from_stopped a H) as [_ Hrun].
      destruct (play_from_running _ Hrun) as [_ [_ Hs]].
      destruct H as [_ Hs0]. unfold step, deliver. now rewrite Hs, Hs0.
    + destruct (play_from_running a H) as [_ Hstop].
      destruct (play_from_stopped _ Hstop) as [_ [_ (cb & Hs & _)]].
      destruct H as [_ (cb0 & Hs0 & _)]. unfold step, deliver. now rewrite Hs, Hs0.
Qed.

Lemma at_most_one_timer_after_three_clicks :
  exists a0,
    startup two_cities = Ok a0
    /\ let a := run [click; tick; click; click] a0 in
       reachable two_cities a
       /\ (length (session_callbacks a) <= 1)%nat
       /\ (btn_label a = play_label -> session_callbacks a = [])
       /\ (btn_label a = pause_label -> length (session_callbacks a) = 1%nat)
       /\ fst (play a) = Ok tt
       /\ (length (session_callbacks (step a click)) <= 1)%nat
       /\ length (session_callbacks (step (step a click) click))
          = length (session_callbacks a).
Proof.
  destruct (startup two_cities) as [a0|e] eqn:E; [|discriminate E].
  exists a0. split; [reflexivity|].
  assert (Hr : reachable two_cities (run [click; tick; click; click] a0)).
  { apply reachable_run. now constructor. }
  split; [exact Hr|].
  exact (at_most_one_timer two_cities _ Hr).
Defined.

(** *** Grouping by city *)

Lemma insert_sorted_perm k ks : Permutation (insert_sorted k ks) (k :: ks).
Proof.
  induction ks as [|k' ks IH]; simpl; [reflexivity|].
  destruct (String.leb k k'); [reflexivity|].
  rewrite IH. apply perm_swap.
Qed.

Lemma sorted_unique_perm l : Permutation (sorted_unique l) (nodup string_dec l).
Proof.
  unfold sorted_unique. induction (nodup string_dec l) as [|k ks IH]; simpl.
  - reflexivity.
  - rewrite insert_sorted_perm. now constructor.
Qed.

Lemma sorted_unique_In l k : In k (sorted_unique l) <-> In k l.
Proof.
  rewrite <- (nodup_In string_dec l k). split; apply Permutation_in.
  - apply sorted_unique_perm.
  - symmetry. apply sorted_unique_perm.
Qed.

Lemma sorted_unique_NoDup l : List.NoDup (sorted_unique l).
Proof.
  eapply Permutation_NoDup.
  - symmetry. apply sorted_unique_perm.
  - apply NoDup_nodup.
Qed.

Lemma masked_line_cases year T c :
  masked_line year T c
  = if kept year T c then select_columns year c
    else {| Symbol := nan; City := raw_City c; x := raw_x c; y := raw_y c;
            Market_Cap := nan; Employees := nan |}.
Proof.
  unfold masked_line, mask_row, kept. simpl.
  now destruct (float_lt (raw_Market_Cap c year) T).
Qed.

Lemma nansum_skips {A} (keep : A -> bool) (v : A -> float) (g : list A) (acc : Q) :
  fold_left (fun acc v => match v with Some q => (acc + q)%Q | None => acc end)
            (map (fun c => if keep c then v c else nan) g) acc
  = fold_left (fun acc v => match v with Some q => (acc + q)%Q | None => acc end)
              (map v (List.filter keep g)) acc.
Proof.
  revert acc. induction g as [|c g IH]; intros acc; simpl; [reflexivity|].
  destruct (keep c); simpl; apply IH.
Qed.

Lemma agg_sum_skips {A} (keep : A -> bool) (v : A -> float) (g : list A) :
  agg_sum (map (fun c => if keep c then v c else nan) g)
  = agg_sum (map v (List.filter keep g)).
Proof. unfold agg_sum, nansum. now rewrite nansum_skips. Qed.

Lemma agg_count_skips {A B} (keep : A -> bool) (v : A -> option B) (g : list A) :
  agg_count (map (fun c => if keep c then v c else nan) g)
  = length (List.filter (fun c => notna (v c)) (List.filter keep g)).
Proof.
  unfold agg_count. induction g as [|c g IH]; simpl; [reflexivity|].
  destruct (keep c); simpl.
  - destruct (notna (v c)); simpl; now rewrite IH.
  - exact IH.
Qed.

Lemma agg_city_masked table year T k :
  let g := in_city k table in
  let live := List.filter (kept year T) g in
  agg_city (map (masked_line year T) (companies table)) k
  = {| City_index := k;
       Market_Cap_sum := agg_sum (map (fun c => raw_Market_Cap c year) live);
       Employees_sum := agg_sum (map (fun c => raw_Employees c year) live);
       x_mean := agg_mean (map raw_x g);
       y_mean := agg_mean (map raw_y g);
       Symbol_count := length (List.filter (fun c => notna (raw_Symbol c)) live);
       city_circle_size :=
         circle_size (agg_sum (map (fun c => raw_Employees c year) live)) |}.
Proof.
  intros g live. unfold agg_city, group_of.
  rewrite (filter_map_swap (masked_line year T) _
             (fun c => String.eqb (raw_City c) k)).
  2:{ intros c. now destruct (masked_line_fixed year T c) as (-> & _). }
  fold (in_city k table). fold g. rewrite !map_map.
  assert (Hcap : map (fun c => Market_Cap (masked_line year T c)) g
                 = map (fun c => if kept year T c then raw_Market_Cap c year else nan) g).
  { apply map_ext. intros c. rewrite masked_line_cases. now destruct (kept year T c). }
  assert (Hemp : map (fun c => Employees (masked_line year T c)) g
                 = map (fun c => if kept year T c then raw_Employees c year else nan) g).
  { apply map_ext. intros c. rewrite masked_line_cases. now destruct (kept year T c). }
  assert (Hsym : map (fun c => Symbol (masked_line year T c)) g
                 = map (fun c => if kept year T c then raw_Symbol c else nan) g).
  { apply map_ext. intros c. rewrite masked_line_cases. now destruct (kept year T c). }
  assert (Hx : map (fun c => x (masked_line year T c)) g = map raw_x g).
  { apply map_ext. intros c. now destruct (masked_line_fixed year T c) as (_ & -> & _). }
  assert (Hy : map (fun c => y (masked_line year T c)) g = map raw_y g).
  { apply map_ext. intros c. now destruct (masked_line_fixed year T c) as (_ & _ & ->). }
  rewrite Hcap, Hemp, Hsym, Hx, Hy.
  rewrite !agg_sum_skips, agg_count_skips. reflexivity.
Qed.

Lemma group_keys_masked table year T :
  group_keys (map (masked_line year T) (companies table))
  = sorted_unique (map raw_City (companies table)).
Proof.
  unfold group_keys. rewrite map_map. f_equal. apply map_ext.
  intros c. now destruct (masked_line_fixed year T c) as (-> & _).
Qed.

(** C5, as the code has it (group and aggregate).  For every year whose
    columns exist and every threshold, the main frame has exactly one
    line per city of the base table; in the line of a city, ['Market Cap']
    and ['Employees'] are the sums over the lines of that city that the
    threshold does not mask, ['x'] and ['y'] are the means over all lines
    of the city, and ['Symbol'] is the number of unmasked lines of the
    city that have a symbol. *)
Theorem create_df_main_groups_by_city :
  forall table year city_name T,
    has_column year (Market_Cap_years table) = true ->
    has_column year (Employees_years table) = true ->
    exists rows,
      create_df table year city_name T true = Ok (main_frame rows)
      /\ List.NoDup (map City_index rows)
      /\ (forall k, In k (map City_index rows)
                    <-> exists c, In c (companies table) /\ raw_City c = k)
      /\ forall r,
           In r rows ->
           let g := in_city (City_index r) table in
           let live := List.filter (kept year T) g in
           Market_Cap_sum r = agg_sum (map (fun c => raw_Market_Cap c year) live)
           /\ Employees_sum r = agg_sum (map (fun c => raw_Employees c year) live)
           /\ x_mean r = agg_mean (map raw_x g)
           /\ y_mean r = agg_mean (map raw_y g)
           /\ Symbol_count r
              = length (List.filter (fun c => notna (raw_Symbol c)) live).
Proof.
  intros table year city_name T H1 H2.
  set (df := map (masked_line year T) (companies table)).
  exists (map (agg_city df) (group_keys df)).
  assert (Hkeys : map City_index (map (agg_city df) (group_keys df)) = group_keys df).
  { rewrite map_map. simpl. apply map_id. }
  split.
  { unfold create_df. now rewrite (masked_df_ok _ _ _ H1 H2). }
  rewrite Hkeys. unfold df at 1 2. rewrite group_keys_masked.
  split; [apply sorted_unique_NoDup|]. split.
  - intros k. rewrite sorted_unique_In, in_map_iff. split.
    + intros (c & Hc & Hin). exists c. now split.
    + intros (c & Hin & Hc). exists c. now split.
  - intros r Hr. apply in_map_iff in Hr. destruct Hr as (k & <- & _).
    unfold df. rewrite agg_city_masked. simpl. repeat split.
Qed.

Lemma create_df_main_scenario_1 :
  has_column 2022 (Market_Cap_years scenario_1) = true
  /\ has_column 2022 (Employees_years scenario_1) = true
  /\ exists rows,
       create_df scenario_1 2022 "Austin" 100 true = Ok (main_frame rows)
       /\ List.NoDup (map City_index rows)
       /\ (forall k, In k (map City_index rows)
                     <-> exists c, In c (companies scenario_1) /\ raw_City c = k)
       /\ forall r,
            In r rows ->
            let g := in_city (City_index r) scenario_1 in
            let live := List.filter (kept 2022 100) g in
            Market_Cap_sum r = agg_sum (map (fun c => raw_Market_Cap c 2022) live)
            /\ Employees_sum r = agg_sum (map (fun c => raw_Employees c 2022) live)
            /\ x_mean r = agg_mean (map raw_x g)
            /\ y_mean r = agg_mean (map raw_y g)
            /\ Symbol_count r
               = length (List.filter (fun c => notna (raw_Symbol c)) live).
Proof.
  split; [reflexivity|]. split; [reflexivity|].
  apply (create_df_main_groups_by_city scenario_1 2022%Z "Austin" 100%Q); reflexivity.
Defined.

(** C5, as the claim has it, fails: with A (50) and B (150) in one city
    and a threshold of 100, the group has two lines, and the main frame
    gives a ['Symbol'] count of one and a ['Market Cap'] of 150, not 200. *)
Lemma symbol_count_is_not_the_row_count :
  exists r,
    create_df scenario_1 2022 "Austin" 100 true = Ok (main_frame [r])
    /\ City_index r = "Austin"
    /\ length (in_city "Austin" scenario_1) = 2%nat
    /\ Symbol_count r = 1%nat
    /\ Symbol_count r <> length (in_city (City_index r) scenario_1)
    /\ Market_Cap_sum r = Some (0 + 150)%Q
    /\ agg_sum (map (fun c => raw_Market_Cap c 2022) (in_city "Austin" scenario_1))
       = Some (0 + 50 + 150)%Q.
Proof.
  eexists. split; [reflexivity|]. simpl.
  repeat split; try reflexivity. discriminate.
Qed.
End MapFacts.

(** ** Properties of the explorer *)

Section ExplorerFacts.
Import DvcEx3 ExplorerExamples ExplorerStatements.

(** Corner cases of the library calls, as the embedding has them. *)
Example histogram_of_a_constant :
  match np_histogram [("a", float_col [Some 3%Q; Some 3%Q])] with
  | Ok (counts, _) => counts = [0; 0; 0; 0; 0; 2; 0; 0; 0; 0]%nat
  | Raise _ => False
  end.
Proof. reflexivity. Qed.

Example histogram_of_nothing :
  np_histogram [("a", float_col [])] = Ok (repeat 0%nat 10, linspace 0 1).
Proof. reflexivity. Qed.

Example names_of_components :
  map matches_PCA_digit ["PCA 1"; "PCA 9"; "PCA 12"; "PCA x"; "xPCA 1"; "Cluster"]
  = [true; true; false; false; false; false].
Proof. reflexivity. Qed.

(** [\d] is not only 0 to 9: an Arabic-Indic three (U+0663), a
    fullwidth four (U+FF14) and a mathematical bold zero (U+1D7CE) are
    decimal digits, a superscript two (U+00B2) is not. *)
Example names_with_other_digits :
  map (fun bytes => matches_PCA_digit ("PCA " ++ string_of_list_ascii (map ascii_of_nat bytes)))
      [ [217; 163]; [239; 188; 148]; [240; 157; 159; 142]; [194; 178];
        [217; 163; 10]; [217; 163; 49]; [217] ]%nat
  = [true; true; true; false; true; false; false].
Proof. reflexivity. Qed.

Example min_with_nan :
  py_min [nan; Some 1%Q] = Ok nan /\ py_min [Some 1%Q; nan; Some 0%Q] = Ok (Some 0%Q).
Proof. split; reflexivity. Qed.

(** The membership test of the count loop looks a category up among the
    values of ['PCA 1'], the first level of the index of [dis_s]: the
    first line is selected and is in the US, and "US" is not found. *)
Example category_is_looked_up_among_components :
  match loc explored [0%nat] (hist_columns "Country") with
  | Ok s => in_first_level (Str "US") (frame_value_counts s) = false
            /\ in_first_level (Num 50) (frame_value_counts s) = true
  | Raise _ => False
  end.
Proof. split; reflexivity. Qed.

Lemma fold_left_raise {A B} (f : result A -> B -> result A) (l : list B) (e : exn) :
  (forall b, f (Raise e) b = Raise e) ->
  fold_left f l (Raise e) = Raise e.
Proof.
  intros Hf. induction l as [|b l IH]; simpl; [reflexivity|].
  now rewrite Hf.
Qed.

Lemma dict_of_palette_ndarray l colour palette :
  dict_of_palette (py_ndarray l) (colour :: palette) = Raise TypeError.
Proof.
  unfold dict_of_palette. simpl. now apply fold_left_raise.
Qed.

Lemma create_cmap_object_raises colour palette Turbo df col values :
  get_column col df = Ok (object_col values) ->
  create_cmap (colour :: palette) Turbo df col = Raise TypeError.
Proof.
  intros H. unfold create_cmap. rewrite H. simpl.
  now rewrite dict_of_palette_ndarray.
Qed.

(** C3 (categorical selected counts): what the code does.  With a
    palette that has at least one colour, [draw_bar_chart] raises for
    every column of object dtype and every selection, the empty one
    included: building the category-to-colour dictionary uses an array
    as the key.  No bar chart, and so no list of selected counts, is
    ever returned.  On a frame with two countries and an empty selection
    the exception is [TypeError]. *)
Theorem draw_bar_chart_raises_on_categorical :
  (forall colour palette Turbo df col values points_selected,
      get_column col df = Ok (object_col values) ->
      is_ok (draw_bar_chart (colour :: palette) Turbo df col points_selected) = false
      /\ (is_ok (loc df points_selected (hist_columns col)) = true ->
          draw_bar_chart (colour :: palette) Turbo df col points_selected
          = Raise TypeError))
  /\ draw_bar_chart one_colour [] explored "Country" [] = Raise TypeError
  /\ draw_subplot one_colour [] explored "Country" [] = Raise TypeError.
Proof.
  split; [|split; reflexivity].
  intros colour palette Turbo df col values points_selected H.
  unfold draw_bar_chart.
  destruct (loc df points_selected (hist_columns col)) as [s|e]; simpl.
  - rewrite H. simpl.
    rewrite (create_cmap_object_raises _ _ _ _ _ _ H). simpl. auto.
  - split; [reflexivity|discriminate].
Qed.

Lemma draw_bar_chart_raises_on_countries :
  get_column "Country" explored = Ok (object_col [Some "US"; Some "CH"])
  /\ is_ok (draw_bar_chart one_colour [] explored "Country" [0%nat]) = false
  /\ (is_ok (loc explored [0%nat] (hist_columns "Country")) = true ->
      draw_bar_chart one_colour [] explored "Country" [0%nat] = Raise TypeError).
Proof.
  split; [reflexivity|].
  apply (proj1 draw_bar_chart_raises_on_categorical
               "#E8ECFB" [] [] explored "Country" [Some "US"; Some "CH"] [0%nat]).
  reflexivity.
Defined.

(** *** The histogram *)

Lemma loc_no_labels df names sub :
  get_columns names df = Ok sub ->
  loc df [] names = Ok (map (fun c => (fst c, empty_like (snd c))) sub).
Proof.
  intros H. unfold loc. rewrite H. simpl. clear H.
  induction sub as [|[n s] sub IH]; simpl; [reflexivity|].
  rewrite IH. now destruct s.
Qed.

Lemma np_histogram_no_lines (a : DataFrame) :
  forallb (fun c => Nat.eqb (series_length (snd c)) 0) a = true ->
  np_histogram a = Ok (repeat 0%nat n_equal_bins, linspace 0 1).
Proof. intros H. unfold np_histogram. now rewrite H. Qed.

Lemma empty_like_no_lines (sub : DataFrame) :
  forallb (fun c => Nat.eqb (series_length (snd c)) 0)
          (map (fun c => (fst c, empty_like (snd c))) sub) = true.
Proof.
  induction sub as [|[n s] sub IH]; simpl; [reflexivity|].
  rewrite IH. now destruct s.
Qed.

Lemma all_finite_floats a :
  all_finite a ->
  exists cols,
    rmap (fun c => series_floats (snd c)) a = Ok cols
    /\ existsb isnan (concat cols) = false
    /\ (concat cols = [] ->
        forallb (fun c => Nat.eqb (series_length (snd c)) 0) a = true).
Proof.
  induction a as [|[n s] a IH]; intros Hfin.
  - exists []. simpl. auto.
  - destruct (Hfin (n, s) (or_introl eq_refl)) as (v & Hs & Hv). simpl in Hs. subst s.
    destruct IH as (cols & Hcols & Hnan & Hnil).
    { intros c Hc. apply Hfin. now right. }
    exists (v :: cols). simpl. rewrite Hcols. simpl. split; [reflexivity|]. split.
    + rewrite existsb_app. apply orb_false_iff. split; [|exact Hnan].
      clear -Hv. induction v as [|q v IHv]; simpl in *; [reflexivity|].
      apply andb_true_iff in Hv. destruct Hv as [Hq Hv].
      unfold isnan at 1. rewrite Hq. simpl. now apply IHv.
    + intros Happ. apply app_eq_nil in Happ. destruct Happ as [-> Hc].
      simpl. now apply Hnil.
Qed.

Lemma present_nil cells :
  existsb isnan cells = false -> present cells = [] -> cells = [].
Proof.
  destruct cells as [|[q|] cells]; simpl; intros H1 H2;
    [reflexivity|discriminate|discriminate].
Qed.

Lemma np_histogram_finite a :
  all_finite a ->
  exists counts edges,
    np_histogram a = Ok (counts, edges) /\ length counts = n_equal_bins.
Proof.
  intros Hfin. unfold np_histogram.
  destruct (forallb (fun c => Nat.eqb (series_length (snd c)) 0) a) eqn:Hlines.
  - eexists _, _. split; [reflexivity|]. apply repeat_length.
  - destruct (all_finite_floats a Hfin) as (cols & Hcols & Hnan & Hnil).
    rewrite Hcols. cbv beta iota delta [rbind]. rewrite Hnan.
    destruct (present (concat cols)) as [|v rest] eqn:Hp.
    + apply present_nil in Hp; [|exact Hnan].
      rewrite (Hnil Hp) in Hlines. discriminate.
    + eexists _, _. split; [reflexivity|].
      now rewrite length_map, length_seq.
Qed.

Lemma np_max_nonempty a : a <> [] -> exists n, np_max a = Ok n.
Proof. destruct a; [congruence|]. intros _. eexists. reflexivity. Qed.

Lemma get_columns_finite df col v1 v2 v3 :
  get_column "PCA 1" df = Ok (float_col v1) ->
  get_column "PCA 2" df = Ok (float_col v2) ->
  get_column col df = Ok (float_col v3) ->
  get_columns (hist_columns col) df
  = Ok [("PCA 1", float_col v1); ("PCA 2", float_col v2); (col, float_col v3)].
Proof.
  intros H1 H2 H3. unfold get_columns, hist_columns. simpl.
  now rewrite H1, H2, H3.
Qed.

Lemma draw_hist_no_labels df col all :
  get_columns (hist_columns col) df = Ok all ->
  all_finite all ->
  exists ph,
    draw_hist df col [] = Ok ph
    /\ top_s ph = repeat 0%nat n_equal_bins
    /\ length (top ph) = n_equal_bins.
Proof.
  intros Hall Hfin. unfold draw_hist.
  rewrite (loc_no_labels _ _ _ Hall), Hall.
  destruct (np_histogram_finite all Hfin) as (counts & edges & Hh & Hlen).
  destruct (np_max_nonempty counts) as (n & Hn).
  { intros ->. discriminate Hlen. }
  cbv beta iota delta [rbind].
  rewrite Hh, (np_histogram_no_lines _ (empty_like_no_lines all)).
  cbn [fst snd]. rewrite Hn.
  eexists. split; [reflexivity|]. split; [reflexivity|exact Hlen].
Qed.

(** C4, as the code has it (empty selection on a numeric feature).  When
    the feature column and the two component columns are numeric and
    hold no [nan], [draw_hist] with an empty selection returns a
    histogram whose series of selected counts is made of ten zeros, ten
    being the number of bins of the series for all points too. *)
Theorem draw_hist_empty_selection :
  forall df col v1 v2 v3,
    get_column "PCA 1" df = Ok (float_col v1) ->
    get_column "PCA 2" df = Ok (float_col v2) ->
    get_column col df = Ok (float_col v3) ->
    forallb notna (v1 ++ v2 ++ v3)%list = true ->
    exists ph,
      draw_hist df col [] = Ok ph
      /\ top_s ph = repeat 0%nat 10
      /\ length (top ph) = 10%nat.
Proof.
  intros df col v1 v2 v3 H1 H2 H3 Hfin.
  apply (draw_hist_no_labels df col _ (get_columns_finite df col v1 v2 v3 H1 H2 H3)).
  rewrite !forallb_app in Hfin.
  apply andb_true_iff in Hfin. destruct Hfin as [F1 F23].
  apply andb_true_iff in F23. destruct F23 as [F2 F3].
  intros c [<-|[<-|[<-|[]]]]; eexists; split; simpl; eauto.
Qed.

Lemma draw_hist_empty_selection_explored :
  get_column "PCA 1" explored = Ok (float_col [Some 50%Q; Some 150%Q])
  /\ get_column "PCA 2" explored = Ok (float_col [Some 2%Q; Some 3%Q])
  /\ get_column "Mean Recommendation" explored = Ok (float_col [Some 2%Q; Some 3%Q])
  /\ forallb notna ([Some 50%Q; Some 150%Q] ++ [Some 2%Q; Some 3%Q]
                    ++ [Some 2%Q; Some 3%Q])%list = true
  /\ exists ph,
       draw_hist explored "Mean Recommendation" [] = Ok ph
       /\ top_s ph = repeat 0%nat 10
       /\ length (top ph) = 10%nat.
Proof.
  repeat (split; [reflexivity|]).
  apply (draw_hist_empty_selection explored "Mean Recommendation"
           [Some 50%Q; Some 150%Q] [Some 2%Q; Some 3%Q] [Some 2%Q; Some 3%Q]);
    reflexivity.
Defined.

(** C4, as the claim has it, fails: on a numeric feature with a missing
    value the histogram of all points has no finite range, and
    [draw_hist] raises whatever the selection is; and a histogram always
    has ten bins, never two. *)
Lemma draw_hist_raises_on_missing_value :
  get_column "Dividend Yield" with_missing_feature = Ok (float_col [Some 1%Q; nan])
  /\ draw_hist with_missing_feature "Dividend Yield" [] = Raise ValueError.
Proof. split; reflexivity. Qed.

End ExplorerFacts.

(** ** Properties of the pipeline *)

Section PipelineFacts.
Import DvcEx3 ExplorerExamples ExplorerStatements.
Local Open Scope list_scope.

Context (rng : Type)
        (np_random_seed : Z -> rng)
        (MinMaxScaler_fit_transform : DataFrame -> result ndarray)
        (SimpleImputer_mean_fit_transform : ndarray -> result ndarray)
        (PCA_fit_transform : nat -> ndarray -> rng -> result ndarray * rng)
        (MiniBatchKMeans_fit_labels :
           nat -> nat -> DataFrame -> rng -> result (list Z) * rng)
        (TolRainbow23 Turbo256 : list string).

Local Abbreviation pca :=
  (DvcEx3.pca rng MinMaxScaler_fit_transform SimpleImputer_mean_fit_transform
              PCA_fit_transform).
Local Abbreviation clustering :=
  (DvcEx3.clustering rng np_random_seed MiniBatchKMeans_fit_labels).
Local Abbreviation clustering_outcome :=
  (ExplorerStatements.clustering_outcome rng np_random_seed MiniBatchKMeans_fit_labels).
Local Abbreviation pca_outcome :=
  (ExplorerStatements.pca_outcome rng MinMaxScaler_fit_transform
     SimpleImputer_mean_fit_transform PCA_fit_transform).
Local Abbreviation reduce_and_cluster :=
  (ExplorerStatements.reduce_and_cluster rng np_random_seed MinMaxScaler_fit_transform
     SimpleImputer_mean_fit_transform PCA_fit_transform MiniBatchKMeans_fit_labels).

(** *** Frames and the heap *)

Lemma get_column_set_column_ne name n s (t : DataFrame) :
  name <> n -> get_column name (set_column n s t) = get_column name t.
Proof.
  intros Hne. induction t as [|[n' s'] t IH]; simpl.
  - destruct (String.eqb_spec n name); [congruence|reflexivity].
  - destruct (String.eqb_spec n' n) as [->|Hn]; simpl.
    + destruct (String.eqb_spec n name); [congruence|reflexivity].
    + destruct (String.eqb_spec n' name); [reflexivity|exact IH].
Qed.

Lemma get_column_set_column_eq n s (t : DataFrame) :
  get_column n (set_column n s t) = Ok s.
Proof.
  induction t as [|[n' s'] t IH]; simpl.
  - now rewrite String.eqb_refl.
  - destruct (String.eqb_spec n' n) as [->|Hn]; simpl.
    + now rewrite String.eqb_refl.
    + destruct (String.eqb_spec n' n); [congruence|exact IH].
Qed.

Lemma set_column_twice n s (t : DataFrame) :
  set_column n s (set_column n s t) = set_column n s t.
Proof.
  induction t as [|[n' s'] t IH]; simpl.
  - now rewrite String.eqb_refl.
  - destruct (String.eqb_spec n' n) as [->|Hn]; simpl.
    + now rewrite String.eqb_refl.
    + destruct (String.eqb_spec n' n); [congruence|now rewrite IH].
Qed.

Lemma set_column_fresh n s (t : DataFrame) :
  ~ In n (column_names t) -> set_column n s t = (t ++ [(n, s)])%list.
Proof.
  induction t as [|[n' s'] t IH]; simpl; intros Hn; [reflexivity|].
  destruct (String.eqb_spec n' n) as [->|Hne]; [tauto|].
  rewrite IH; [reflexivity|tauto].
Qed.

Lemma length_matches_set_column n s (t : DataFrame) :
  length_matches s t = true -> length_matches s (set_column n s t) = true.
Proof.
  destruct t as [|[n' s'] t]; simpl; intros H.
  - apply Nat.eqb_refl.
  - destruct (String.eqb n' n); simpl; [apply Nat.eqb_refl|exact H].
Qed.

Lemma filter_PCA_set_column n s (t : DataFrame) :
  matches_PCA_digit n = false -> filter_PCA (set_column n s t) = filter_PCA t.
Proof.
  intros Hn. unfold filter_PCA.
  induction t as [|[n' s'] t IH]; simpl.
  - now rewrite Hn.
  - destruct (String.eqb_spec n' n) as [->|Hne]; simpl.
    + now rewrite Hn.
    + now rewrite IH.
Qed.

Lemma filter_PCA_none (t : DataFrame) :
  (forall name, In name (column_names t) -> matches_PCA_digit name = false) ->
  filter_PCA t = [].
Proof.
  unfold filter_PCA. induction t as [|[n s] t IH]; simpl; intros H; [reflexivity|].
  rewrite (H n (or_introl eq_refl)). apply IH. intros name Hin. apply H. now right.
Qed.

Lemma lookup_stored (h : list DataFrame) (r : ref) (old new : DataFrame) :
  h !! r = Some old -> <[r := new]> h !! r = Some new.
Proof.
  intros H. apply list_lookup_insert_eq. now apply lookup_lt_Some in H.
Qed.

(** *** Running the two functions *)

Lemma setitem_run (r : ref) name values (m : memory rng) (t : DataFrame) :
  heap m !! r = Some t ->
  setitem r name values m
  = match assign_column name values t with
    | Ok t' => (Ok tt, with_heap (<[r := t']> (heap m)) m)
    | Raise e => (Raise e, m)
    end.
Proof.
  intros H. unfold setitem, bind, deref, lift, store, modify. rewrite H.
  now destruct (assign_column name values t).
Qed.

Lemma clustering_run (r : ref) n_clusters (m : memory rng) (t : DataFrame) :
  heap m !! r = Some t ->
  clustering r n_clusters m = clustering_outcome r n_clusters t m.
Proof.
  intros H. unfold DvcEx3.clustering, clustering_outcome.
  unfold bind at 1. unfold deref at 1. rewrite H.
  unfold bind at 1. unfold modify at 1.
  unfold bind at 1. unfold with_np_random at 1. cbn [np_random heap].
  destruct (MiniBatchKMeans_fit_labels n_clusters 2 (filter_PCA t) (np_random_seed 0))
    as [[labels|e] g]; [|reflexivity].
  unfold bind at 1.
  rewrite (setitem_run r _ _ _ t) by exact H.
  destruct (assign_column "Cluster" (astype_str_labels labels) t); reflexivity.
Qed.

(** C6 (clustering determinism).  Two calls of [clustering] with the
    same number of clusters on frames with the same content give the
    same outcome, whatever the state of the random generator before
    each call and wherever the frames are kept: both raise the same
    exception or both succeed, the frames afterwards are the same, so
    the ['Cluster'] labels are, and the generator is left in the same
    state.  A second call on the frame that the first call has written
    to changes nothing. *)
Theorem clustering_is_deterministic :
  forall (t : DataFrame) (n_clusters : nat) (m1 m2 : memory rng) (r1 r2 : ref),
    heap m1 !! r1 = Some t ->
    heap m2 !! r2 = Some t ->
    let run1 := clustering r1 n_clusters m1 in
    let run2 := clustering r2 n_clusters m2 in
    heap (snd run1) !! r1 = heap (snd run2) !! r2
    /\ (fst run1 = Ok r1 <-> fst run2 = Ok r2)
    /\ (forall e, fst run1 = Raise e <-> fst run2 = Raise e)
    /\ np_random (snd run1) = np_random (snd run2)
    /\ (fst run1 = Ok r1 ->
        exists labels t',
          heap (snd run1) !! r1 = Some t'
          /\ heap (snd run2) !! r2 = Some t'
          /\ get_column "Cluster" t' = Ok (astype_str_labels labels))
    /\ (fst run1 = Ok r1 ->
        let again := clustering r1 n_clusters (snd run1) in
        fst again = Ok r1
        /\ heap (snd again) !! r1 = heap (snd run1) !! r1).
Proof.
  intros t n_clusters m1 m2 r1 r2 H1 H2 run1 run2.
  subst run1 run2.
  rewrite (clustering_run r1 n_clusters m1 t H1), (clustering_run r2 n_clusters m2 t H2).
  unfold clustering_outcome.
  destruct (MiniBatchKMeans_fit_labels n_clusters 2 (filter_PCA t) (np_random_seed 0))
    as [[labels|e] g] eqn:Hfit.
  - unfold assign_column.
    destruct (length_matches (astype_str_labels labels) t) eqn:Hlen; cbn [fst snd heap np_random].
    + rewrite (lookup_stored _ _ _ _ H1), (lookup_stored _ _ _ _ H2).
      split; [reflexivity|]. split; [split; intros _; reflexivity|].
      split; [intros e; split; discriminate|].
      split; [reflexivity|]. split.
      * intros _. exists labels, (set_column "Cluster" (astype_str_labels labels) t).
        split; [reflexivity|]. split; [reflexivity|].
        apply get_column_set_column_eq.
      * intros _.
        rewrite (clustering_run r1 n_clusters _
                   (set_column "Cluster" (astype_str_labels labels) t))
          by (apply (lookup_stored _ _ _ _ H1)).
        unfold clustering_outcome.
        rewrite filter_PCA_set_column by reflexivity. rewrite Hfit.
        unfold assign_column.
        rewrite (length_matches_set_column _ _ _ Hlen). cbn [fst snd heap].
        rewrite set_column_twice. split; [reflexivity|].
        rewrite list_insert_insert_eq. apply (lookup_stored _ _ _ _ H1).
    + rewrite H1, H2. split; [reflexivity|].
      split; [split; discriminate|].
      split; [intros e'; split; intros Hsame; exact Hsame|].
      split; [reflexivity|]. split; discriminate.
  - cbn [fst snd heap np_random]. rewrite H1, H2. split; [reflexivity|].
    split; [split; discriminate|].
    split; [intros e'; split; intros Hsame; exact Hsame|].
    split; [reflexivity|]. split; discriminate.
Qed.


(** *** The order of the pipeline *)

Local Abbreviation pipeline :=
  (DvcEx3.pipeline rng np_random_seed MinMaxScaler_fit_transform
                   SimpleImputer_mean_fit_transform PCA_fit_transform
                   MiniBatchKMeans_fit_labels).

Lemma pca_run (r : ref) (m : memory rng) (t : DataFrame) :
  heap m !! r = Some t -> pca r m = pca_outcome r t m.
Proof.
  intros H. unfold DvcEx3.pca, pca_outcome.
  unfold bind at 1. unfold deref at 1. rewrite H.
  unfold bind at 1. unfold lift at 1.
  destruct (MinMaxScaler_fit_transform (iloc_columns_from 5 t)) as [X_scaled|e];
    [|reflexivity].
  unfold bind at 1. unfold lift at 1.
  destruct (SimpleImputer_mean_fit_transform X_scaled) as [X_imp|e]; [|reflexivity].
  unfold bind at 1. unfold with_np_random at 1.
  destruct (PCA_fit_transform 2 X_imp (np_random m)) as [[X_pca|e] g]; [|reflexivity].
  unfold bind at 1. unfold lift at 1.
  destruct (array_column X_pca 0) as [c0|e]; [|reflexivity].
  unfold bind at 1.
  rewrite (setitem_run r _ _ _ t) by exact H.
  destruct (assign_column "PCA 1" (float_col c0) t) as [t1|e]; [|reflexivity].
  unfold bind at 1. unfold lift at 1.
  destruct (array_column X_pca 1) as [c1|e]; [|reflexivity].
  unfold bind at 1.
  rewrite (setitem_run r _ _ _ t1) by (apply (lookup_stored _ _ _ _ H)).
  destruct (assign_column "PCA 2" (float_col c1) t1) as [t2|e]; [|reflexivity].
  unfold ret, with_heap. cbn [heap np_random].
  now rewrite list_insert_insert_eq.
Qed.

Lemma nrows_app (t : DataFrame) (extra : DataFrame) :
  t <> [] -> nrows (t ++ extra) = nrows t.
Proof. destruct t as [|[n s] t]; [congruence|reflexivity]. Qed.

Lemma length_matches_nonempty s (t : DataFrame) :
  t <> [] -> length_matches s t = Nat.eqb (series_length s) (nrows t).
Proof. destruct t; [congruence|reflexivity]. Qed.

Lemma nrows_set_column n s (t : DataFrame) :
  t <> [] -> series_length s = nrows t -> nrows (set_column n s t) = nrows t.
Proof.
  destruct t as [|[n' s'] t]; [congruence|]. simpl. intros _ Hs.
  now destruct (String.eqb n' n).
Qed.

Lemma filter_PCA_app (t extra : DataFrame) :
  filter_PCA (t ++ extra) = (filter_PCA t ++ filter_PCA extra)%list.
Proof. unfold filter_PCA. apply List.filter_app. Qed.

Lemma not_PCA_not_named (t : DataFrame) name :
  (forall n, In n (column_names t) -> matches_PCA_digit n = false) ->
  matches_PCA_digit name = true ->
  ~ In name (column_names t).
Proof. intros H Hm Hin. rewrite (H _ Hin) in Hm. discriminate. Qed.

Lemma column_names_app (t extra : DataFrame) :
  column_names (t ++ extra) = (column_names t ++ column_names extra)%list.
Proof. unfold column_names. apply map_app. Qed.

(** The frame after a successful [pca], for a frame none of whose
    columns is named like a component. *)
Lemma assign_components (t : DataFrame) c0 c1 :
  t <> [] ->
  (forall n, In n (column_names t) -> matches_PCA_digit n = false) ->
  assign_column "PCA 1" (float_col c0) t
  = (if Nat.eqb (length c0) (nrows t)
     then Ok (t ++ [("PCA 1", float_col c0)])%list
     else Raise ValueError)
  /\ assign_column "PCA 2" (float_col c1) (t ++ [("PCA 1", float_col c0)])%list
     = (if Nat.eqb (length c1) (nrows t)
        then Ok (t ++ [("PCA 1", float_col c0); ("PCA 2", float_col c1)])%list
        else Raise ValueError).
Proof.
  intros Ht Hnames. unfold assign_column. split.
  - rewrite (length_matches_nonempty _ _ Ht). simpl series_length.
    rewrite set_column_fresh; [reflexivity|].
    now apply not_PCA_not_named.
  - rewrite length_matches_nonempty by (destruct t; [congruence|discriminate]).
    rewrite (nrows_app _ _ Ht). simpl series_length.
    rewrite set_column_fresh.
    + now rewrite <- app_assoc.
    + rewrite column_names_app. intros Hin. apply in_app_or in Hin.
      destruct Hin as [Hin|[Heq|[]]]; [|discriminate Heq].
      revert Hin. now apply not_PCA_not_named.
Qed.

Lemma pipeline_run (r : ref) (m : memory rng) (t : DataFrame) :
  heap m !! r = Some t ->
  pipeline r m
  = match pca_outcome r t m with
    | (Ok r', m') => clustering r' 2 m'
    | (Raise e, m') => (Raise e, m')
    end.
Proof.
  intros H. unfold DvcEx3.pipeline, bind. now rewrite (pca_run r m t H).
Qed.

Ltac dead_branch :=
  cbn [rbind fst snd]; repeat split;
  first [ intros (? & ? & ? & ? & _); congruence | intros; congruence ].

(** C7, as the code has it (order of the pipeline).  [pca] hands to the
    scaler the columns from the sixth on, whatever they hold, and
    [clustering] clusters every column named like a component.  So for a
    frame that is not empty, whose numeric features are exactly its
    columns from the sixth on and which has no column named like a
    component yet, [clustering(pca(pca_data))] succeeds exactly when the
    four stages, chained in the order normalise each numeric feature,
    impute, project onto two components, cluster the projection into
    two groups with seed 0, succeed and give columns of the height of
    the frame; the frame then holds the two components as ['PCA 1'] and
    ['PCA 2'] and the labels of the clustering of exactly these two
    columns as ['Cluster'].  The reference returned is the one given. *)
Theorem pipeline_applies_stages_in_order :
  forall (t : DataFrame) (m : memory rng) (r : ref),
    heap m !! r = Some t ->
    t <> [] ->
    iloc_columns_from 5 t = numeric_features t ->
    (forall n, In n (column_names t) -> matches_PCA_digit n = false) ->
    let run := pipeline r m in
    (fst run = Ok r
     <-> exists c0 c1 labels,
           reduce_and_cluster t (np_random m) = Ok (c0, c1, labels)
           /\ length c0 = nrows t /\ length c1 = nrows t
           /\ length labels = nrows t)
    /\ (forall c0 c1 labels,
           reduce_and_cluster t (np_random m) = Ok (c0, c1, labels) ->
           length c0 = nrows t -> length c1 = nrows t ->
           length labels = nrows t ->
           heap (snd run) !! r
           = Some (set_column "Cluster" (astype_str_labels labels)
                     (t ++ [("PCA 1", float_col c0); ("PCA 2", float_col c1)])%list))
    /\ (forall r', fst run = Ok r' -> r' = r).
Proof.
  intros t m r H Ht Hfeatures Hnames run. subst run.
  rewrite (pipeline_run r m t H). unfold pca_outcome, reduce_and_cluster.
  rewrite <- Hfeatures.
  destruct (MinMaxScaler_fit_transform (iloc_columns_from 5 t)) as [X_scaled|e];
    cbn [rbind fst snd]; [|dead_branch].
  destruct (SimpleImputer_mean_fit_transform X_scaled) as [X_imp|e];
    cbn [rbind fst snd]; [|dead_branch].
  destruct (PCA_fit_transform 2 X_imp (np_random m)) as [[X_pca|e] g];
    cbn [rbind fst snd]; [|dead_branch].
  destruct (array_column X_pca 0) as [c0|e]; cbn [rbind fst snd]; [|dead_branch].
  destruct (assign_components t c0 [] Ht Hnames) as [Ha0 _]. rewrite Ha0.
  destruct (array_column X_pca 1) as [c1|e]; cbn [rbind fst snd].
  2:{ destruct (Nat.eqb (length c0) (nrows t)); dead_branch. }
  destruct (assign_components t c0 c1 Ht Hnames) as [_ Ha1].
  set (projection := [("PCA 1", float_col c0); ("PCA 2", float_col c1)]).
  assert (Hfilter : filter_PCA (t ++ projection) = projection).
  { rewrite filter_PCA_app, (filter_PCA_none t Hnames). reflexivity. }
  destruct (Nat.eqb_spec (length c0) (nrows t)) as [L0|L0].
  2:{ cbn [fst snd].
      destruct (fst (MiniBatchKMeans_fit_labels 2 2 projection (np_random_seed 0)));
        [|dead_branch].
      cbn [rbind]. repeat split; try (intros; congruence);
        try (intros (c0' & c1' & labels & Hre & L0' & L1' & L2'); congruence). }
  rewrite Ha1.
  destruct (Nat.eqb_spec (length c1) (nrows t)) as [L1|L1].
  2:{ cbn [fst snd].
      destruct (fst (MiniBatchKMeans_fit_labels 2 2 projection (np_random_seed 0)));
        [|dead_branch].
      cbn [rbind]. repeat split; try (intros; congruence);
        try (intros (c0' & c1' & labels & Hre & L0' & L1' & L2'); congruence). }
  fold projection.
  rewrite (clustering_run r 2 _ (t ++ projection))
    by (cbn [heap]; apply (lookup_stored _ _ _ _ H)).
  unfold clustering_outcome. rewrite Hfilter.
  destruct (MiniBatchKMeans_fit_labels 2 2 projection (np_random_seed 0))
    as [[labels|e] g'] eqn:Hfit; cbn [rbind fst snd heap]; [|dead_branch].
  unfold assign_column.
  rewrite length_matches_nonempty by (destruct t; [congruence|discriminate]).
  rewrite (nrows_app _ _ Ht).
  assert (Hlab : series_length (astype_str_labels labels) = length labels).
  { unfold astype_str_labels. simpl. apply length_map. }
  rewrite Hlab.
  destruct (Nat.eqb_spec (length labels) (nrows t)) as [L2|L2]; cbn [fst snd heap].
  - repeat split.
    + intros _. exists c0, c1, labels. auto.
    + intros c0' c1' labels' Hre _ _ _. injection Hre as <- <- <-.
      rewrite list_insert_insert_eq. apply (lookup_stored _ _ _ _ H).
    + intros r' Hr'. now injection Hr'.
  - repeat split; try (intros; congruence);
      try (intros (c0' & c1' & labels' & Hre & L0' & L1' & L2'); congruence).
Qed.

(** *** What happens to the table read at startup *)

Local Abbreviation plotting :=
  (DvcEx3.plotting TolRainbow23 Turbo256 rng np_random_seed
                   MinMaxScaler_fit_transform SimpleImputer_mean_fit_transform
                   PCA_fit_transform MiniBatchKMeans_fit_labels).
Local Abbreviation startup :=
  (DvcEx3.startup TolRainbow23 Turbo256 rng np_random_seed
                  MinMaxScaler_fit_transform SimpleImputer_mean_fit_transform
                  PCA_fit_transform MiniBatchKMeans_fit_labels).
Local Abbreviation step := (DvcEx3.step TolRainbow23 Turbo256 rng).

Lemma columns_kept_refl added t : columns_kept added t t.
Proof. intros name _. reflexivity. Qed.

Lemma columns_kept_trans added t1 t2 t3 :
  columns_kept added t1 t2 -> columns_kept added t2 t3 -> columns_kept added t1 t3.
Proof. intros H12 H23 name Hn. now rewrite (H23 name Hn), (H12 name Hn). Qed.

Lemma columns_kept_more added added' t1 t2 :
  incl added added' -> columns_kept added t1 t2 -> columns_kept added' t1 t2.
Proof. intros Hincl H name Hn. apply H. intros Hin. apply Hn. now apply Hincl. Qed.

Lemma columns_kept_assign added n s t t' :
  In n added -> assign_column n s t = Ok t' -> columns_kept added t t'.
Proof.
  unfold assign_column. intros Hin H.
  destruct (length_matches s t); [|discriminate]. injection H as <-.
  intros name Hname. apply get_column_set_column_ne. congruence.
Qed.

Lemma pca_keeps (r : ref) (m : memory rng) (t : DataFrame) :
  heap m !! r = Some t ->
  (exists new,
      heap (snd (pca r m)) !! r = Some new
      /\ columns_kept ["PCA 1"; "PCA 2"] t new)
  /\ (forall r', fst (pca r m) = Ok r' -> r' = r).
Proof.
  intros H. rewrite (pca_run r m t H). unfold pca_outcome.
  assert (Hsame : exists new, heap m !! r = Some new
                              /\ columns_kept ["PCA 1"; "PCA 2"] t new).
  { exists t. split; [exact H|apply columns_kept_refl]. }
  destruct (MinMaxScaler_fit_transform (iloc_columns_from 5 t)) as [X_scaled|e];
    [|split; [exact Hsame|discriminate]].
  destruct (SimpleImputer_mean_fit_transform X_scaled) as [X_imp|e];
    [|split; [exact Hsame|discriminate]].
  destruct (PCA_fit_transform 2 X_imp (np_random m)) as [[X_pca|e] g];
    [|split; [exact Hsame|discriminate]].
  destruct (array_column X_pca 0) as [c0|e]; [|split; [exact Hsame|discriminate]].
  destruct (assign_column "PCA 1" (float_col c0) t) as [t1|e] eqn:E1;
    [|split; [exact Hsame|discriminate]].
  assert (K1 : columns_kept ["PCA 1"; "PCA 2"] t t1).
  { eapply columns_kept_assign; [|exact E1]. simpl. auto. }
  assert (Hmid : exists new, <[r := t1]> (heap m) !! r = Some new
                             /\ columns_kept ["PCA 1"; "PCA 2"] t new).
  { exists t1. split; [apply (lookup_stored _ _ _ _ H)|exact K1]. }
  destruct (array_column X_pca 1) as [c1|e]; [|split; [exact Hmid|discriminate]].
  destruct (assign_column "PCA 2" (float_col c1) t1) as [t2|e] eqn:E2;
    [|split; [exact Hmid|discriminate]].
  split.
  - exists t2. split; [apply (lookup_stored _ _ _ _ H)|].
    apply (columns_kept_trans _ _ t1); [exact K1|].
    eapply columns_kept_assign; [|exact E2]. simpl. auto.
  - intros r' Hr'. now injection Hr'.
Qed.

Lemma clustering_keeps (r : ref) (n_clusters : nat) (m : memory rng) (t : DataFrame) :
  heap m !! r = Some t ->
  (exists new,
      heap (snd (clustering r n_clusters m)) !! r = Some new
      /\ columns_kept ["Cluster"] t new)
  /\ (forall r', fst (clustering r n_clusters m) = Ok r' -> r' = r).
Proof.
  intros H. rewrite (clustering_run r n_clusters m t H). unfold clustering_outcome.
  assert (Hsame : exists new, heap m !! r = Some new /\ columns_kept ["Cluster"] t new).
  { exists t. split; [exact H|apply columns_kept_refl]. }
  destruct (MiniBatchKMeans_fit_labels n_clusters 2 (filter_PCA t) (np_random_seed 0))
    as [[labels|e] g]; [|split; [exact Hsame|discriminate]].
  destruct (assign_column "Cluster" (astype_str_labels labels) t) as [t'|e] eqn:E;
    [|split; [exact Hsame|discriminate]].
  split.
  - exists t'. split; [apply (lookup_stored _ _ _ _ H)|].
    eapply columns_kept_assign; [|exact E]. simpl. auto.
  - intros r' Hr'. now injection Hr'.
Qed.

Lemma pipeline_keeps (r : ref) (m : memory rng) (t : DataFrame) :
  heap m !! r = Some t ->
  (exists new,
      heap (snd (pipeline r m)) !! r = Some new
      /\ columns_kept added_columns t new)
  /\ (forall r', fst (pipeline r m) = Ok r' -> r' = r).
Proof.
  intros H. unfold DvcEx3.pipeline, bind.
  destruct (pca_keeps r m t H) as [(t1 & H1 & K1) Hr].
  destruct (pca r m) as [[r'|e] m1]; cbn [fst snd] in *.
  - rewrite (Hr r' eq_refl).
    destruct (clustering_keeps r 2 m1 t1 H1) as [(t2 & H2 & K2) Hr2].
    split; [|exact Hr2].
    exists t2. split; [exact H2|].
    apply (columns_kept_trans _ _ t1).
    + apply (columns_kept_more ["PCA 1"; "PCA 2"]); [|exact K1].
      intros n [<-|[<-|[]]]; simpl; auto.
    + apply (columns_kept_more ["Cluster"]); [|exact K2].
      intros n [<-|[]]; simpl; auto.
  - split; [|discriminate].
    exists t1. split; [exact H1|].
    apply (columns_kept_more ["PCA 1"; "PCA 2"]); [|exact K1].
    intros n [<-|[<-|[]]]; simpl; auto.
Qed.

Ltac raised_with t :=
  split;
  [ exists t; split; [cbn; assumption|assumption]
  | intros ? Hs; cbn in Hs; discriminate Hs ].

Lemma plotting_keeps (r : ref) (m : memory rng) (t : DataFrame) :
  heap m !! r = Some t ->
  (exists new,
      heap (snd (plotting r m)) !! r = Some new
      /\ columns_kept added_columns t new)
  /\ (forall s, fst (plotting r m) = Ok s ->
                mem s = snd (plotting r m) /\ pca_data s = r /\ df s = r).
Proof.
  intros H. remember (plotting r m) as run eqn:Hrun.
  unfold DvcEx3.plotting in Hrun.
  unfold bind at 1 in Hrun.
  destruct (pipeline_keeps r m t H) as [(t1 & H1 & K1) Hr].
  destruct (pipeline r m) as [[r'|e] m1]; cbn [fst snd] in *.
  2:{ subst run. raised_with t1. }
  rewrite (Hr r' eq_refl) in Hrun. clear Hr r'.
  unfold bind at 1 in Hrun. unfold deref at 1 in Hrun. rewrite H1 in Hrun.
  unfold bind at 1 in Hrun. unfold lift at 1 in Hrun.
  destruct (get_column "Market Cap" t1) as [label|e].
  2:{ subst run. raised_with t1. }
  unfold bind at 1 in Hrun. rewrite (setitem_run r _ _ _ t1 H1) in Hrun.
  destruct (assign_column "label" label t1) as [t2|e] eqn:E2.
  2:{ subst run. raised_with t1. }
  assert (K2 : columns_kept added_columns t t2).
  { apply (columns_kept_trans _ _ t1); [exact K1|].
    eapply columns_kept_assign; [|exact E2]. simpl. auto. }
  assert (H2 : heap (with_heap (<[r := t2]> (heap m1)) m1) !! r = Some t2).
  { apply (lookup_stored _ _ _ _ H1). }
  set (m2 := with_heap (<[r := t2]> (heap m1)) m1) in *.
  unfold bind at 1 in Hrun. unfold deref at 1 in Hrun. rewrite H2 in Hrun.
  unfold bind at 1 in Hrun. unfold lift at 1 in Hrun.
  destruct (get_column "label" t2) as [label'|e].
  2:{ subst run. raised_with t2. }
  unfold bind at 1 in Hrun. unfold lift at 1 in Hrun.
  destruct (plot_pca TolRainbow23 Turbo256 t2 "Market Cap") as [p_pca|e].
  2:{ subst run. raised_with t2. }
  unfold bind at 1 in Hrun. unfold lift at 1 in Hrun.
  destruct (draw_subplot TolRainbow23 Turbo256 t2 "Mean Recommendation" [])
    as [p_sub|e].
  2:{ subst run. raised_with t2. }
  unfold bind, gets, ret, id in Hrun. subst run. cbn [fst snd].
  split; [exists t2; auto|].
  intros s Hs. injection Hs as <-. cbn. auto.
Qed.

Lemma step_mem (s : session rng) (ev : event) : mem (step s ev) = mem s.
Proof.
  destruct ev; unfold DvcEx3.step, deliver,
    update_pca_col, update_sub_col, lasso_update, the_df, bind, modify, gets, lift, id;
    cbn [fst snd];
    repeat match goal with
           | |- context [match ?e with _ => _ end] => destruct e
           end; reflexivity.
Qed.

(** C9, as the code has it (the table read at startup).  No handler of
    the map changes [us_company_map], and no handler of the explorer
    changes the memory that holds its frame.  [pca], [clustering] and
    the setup of the explorer write into the frame read from the file:
    after them the frame still has every column it had, with the same
    cells, except for columns named ['PCA 1'], ['PCA 2'], ['Cluster'] and
    ['label'], which are added or overwritten; after the setup the
    globals [pca_data] and [df] name this same frame. *)
Theorem base_table_keeps_its_other_columns :
  (forall a ev, DvcEx4.us_company_map (DvcEx4.step a ev) = DvcEx4.us_company_map a)
  /\ (forall s ev, mem (step s ev) = mem s)
  /\ (forall m r t,
         heap m !! r = Some t ->
         exists new,
           heap (snd (pca r m)) !! r = Some new
           /\ columns_kept ["PCA 1"; "PCA 2"] t new)
  /\ (forall m r n_clusters t,
         heap m !! r = Some t ->
         exists new,
           heap (snd (clustering r n_clusters m)) !! r = Some new
           /\ columns_kept ["Cluster"] t new)
  /\ (forall table g,
         (exists new,
             heap (snd (startup table g)) !! 0%nat = Some new
             /\ columns_kept ["PCA 1"; "PCA 2"; "Cluster"; "label"] table new)
         /\ (forall s, fst (startup table g) = Ok s ->
                       mem s = snd (startup table g)
                       /\ pca_data s = 0%nat /\ df s = 0%nat)).
Proof.
  split; [exact step_table|]. split; [exact step_mem|].
  split; [intros m r t H; exact (proj1 (pca_keeps r m t H))|].
  split; [intros m r k t H; exact (proj1 (clustering_keeps r k m t H))|].
  intros table g. unfold DvcEx3.startup.
  apply (plotting_keeps 0%nat {| heap := [table]; np_random := g |} table).
  reflexivity.
Qed.

End PipelineFacts.

(** ** The pipeline on the example frame *)

Section PipelineExamples.
Import DvcEx3 ExplorerExamples ExplorerStatements.
Local Open Scope list_scope.

Lemma clustering_is_deterministic_on_explored :
  heap memory_a !! 0%nat = Some explored
  /\ heap memory_b !! 1%nat = Some explored
  /\ heap (snd (clustering nat toy_seed toy_kmeans 0 2 memory_a)) !! 0%nat
     = heap (snd (clustering nat toy_seed toy_kmeans 1 2 memory_b)) !! 1%nat
  /\ np_random (snd (clustering nat toy_seed toy_kmeans 0 2 memory_a))
     = np_random (snd (clustering nat toy_seed toy_kmeans 1 2 memory_b)).
Proof.
  split; [reflexivity|]. split; [reflexivity|].
  destruct (clustering_is_deterministic nat toy_seed toy_kmeans
              explored 2 memory_a memory_b 0%nat 1%nat eq_refl eq_refl)
    as (Hframe & _ & _ & Hgen & _).
  split; [exact Hframe|exact Hgen].
Defined.

Lemma two_companies_has_no_component :
  forall n, In n (column_names two_companies) -> matches_PCA_digit n = false.
Proof.
  intros n Hin. simpl in Hin.
  repeat (destruct Hin as [<-|Hin]; [reflexivity|]). destruct Hin.
Qed.

Lemma pipeline_on_two_companies :
  heap memory_c !! 0%nat = Some two_companies
  /\ two_companies <> []
  /\ iloc_columns_from 5 two_companies = numeric_features two_companies
  /\ (forall n, In n (column_names two_companies) -> matches_PCA_digit n = false)
  /\ reduce_and_cluster nat toy_seed toy_scaler toy_imputer toy_projection toy_kmeans
       two_companies (np_random memory_c)
     = Ok ([Some 50%Q; Some 150%Q], [Some 2%Q; Some 3%Q], [0%Z; 0%Z])
  /\ heap (snd (pipeline nat toy_seed toy_scaler toy_imputer toy_projection toy_kmeans
                         0%nat memory_c)) !! 0%nat
     = Some explored.
Proof.
  split; [reflexivity|]. split; [discriminate|]. split; [reflexivity|].
  split; [exact two_companies_has_no_component|]. split; [reflexivity|].
  destruct (pipeline_applies_stages_in_order
              nat toy_seed toy_scaler toy_imputer toy_projection toy_kmeans
              two_companies memory_c 0%nat eq_refl
              ltac:(discriminate) eq_refl two_companies_has_no_component)
    as (_ & Hframe & _).
  exact (Hframe [Some 50%Q; Some 150%Q] [Some 2%Q; Some 3%Q] [0%Z; 0%Z]
                eq_refl eq_refl eq_refl eq_refl).
Defined.

(** C7, as the claim has it, fails.  On a table whose first column is
    the numeric feature ['Market Cap'], the stages as stated normalise
    it and give it as the first component, while [pca] takes the columns
    from the sixth on, never hands ['Market Cap'] to the scaler and
    stores another first component.  On a table that has a column
    ['PCA 9'], [clustering] clusters three columns, not the
    two-dimensional projection. *)
Lemma pipeline_departs_from_the_stated_stages :
  (let run := pipeline nat toy_seed toy_scaler toy_imputer toy_projection toy_kmeans
                       0%nat {| heap := [market_cap_first]; np_random := 3%nat |} in
   reduce_and_cluster nat toy_seed toy_scaler toy_imputer toy_projection toy_kmeans
     market_cap_first 3%nat
   = Ok ([Some 50%Q; Some 150%Q], [Some 2%Q; Some 3%Q], [0%Z; 0%Z])
   /\ get_column "Market Cap" (numeric_features market_cap_first)
      = Ok (float_col [Some 50%Q; Some 150%Q])
   /\ get_column "Market Cap" (iloc_columns_from 5 market_cap_first) = Raise KeyError
   /\ fst run = Ok 0%nat
   /\ exists frame,
        heap (snd run) !! 0%nat = Some frame
        /\ get_column "PCA 1" frame = Ok (float_col [Some 2%Q; Some 3%Q])
        /\ get_column "PCA 1" frame <> Ok (float_col [Some 50%Q; Some 150%Q]))
  /\ (let run := pipeline nat toy_seed toy_scaler toy_imputer toy_projection
                          toy_kmeans_by_width
                          0%nat {| heap := [with_a_component]; np_random := 3%nat |} in
      reduce_and_cluster nat toy_seed toy_scaler toy_imputer toy_projection
        toy_kmeans_by_width with_a_component 3%nat
      = Ok ([Some 50%Q; Some 150%Q], [Some 2%Q; Some 3%Q], [2%Z; 2%Z])
      /\ with_a_component <> []
      /\ iloc_columns_from 5 with_a_component = numeric_features with_a_component
      /\ matches_PCA_digit "PCA 9" = true
      /\ fst run = Ok 0%nat
      /\ exists frame,
           heap (snd run) !! 0%nat = Some frame
           /\ map fst (filter_PCA frame) = ["PCA 9"; "PCA 1"; "PCA 2"]
           /\ get_column "Cluster" frame = Ok (astype_str_labels [3%Z; 3%Z])
           /\ get_column "Cluster" frame <> Ok (astype_str_labels [2%Z; 2%Z])).
Proof.
  split.
  - cbv zeta. repeat (split; [vm_compute; reflexivity|]).
    exists (market_cap_first
            ++ [ ("PCA 1", float_col [Some 2%Q; Some 3%Q]);
                 ("PCA 2", float_col [Some 1%Q; Some 4%Q]);
                 ("Cluster", object_col [Some "0"; Some "0"]) ])%list.
    split; [vm_compute; reflexivity|]. split; [vm_compute; reflexivity|].
    vm_compute. discriminate.
  - cbv zeta. split; [vm_compute; reflexivity|]. split; [discriminate|].
    repeat (split; [vm_compute; reflexivity|]).
    exists (with_a_component
            ++ [ ("PCA 1", float_col [Some 50%Q; Some 150%Q]);
                 ("PCA 2", float_col [Some 2%Q; Some 3%Q]);
                 ("Cluster", object_col [Some "3"; Some "3"]) ])%list.
    repeat (split; [vm_compute; reflexivity|]).
    vm_compute. discriminate.
Qed.

Lemma pca_keeps_the_columns_of_two_companies :
  heap memory_c !! 0%nat = Some two_companies
  /\ exists new,
       heap (snd (pca nat toy_scaler toy_imputer toy_projection 0%nat memory_c)) !! 0%nat
       = Some new
       /\ columns_kept ["PCA 1"; "PCA 2"] two_companies new.
Proof.
  split; [reflexivity|].
  destruct (base_table_keeps_its_other_columns
              nat toy_seed toy_scaler toy_imputer toy_projection toy_kmeans
              one_colour [])
    as (_ & _ & Hpca & _).
  exact (Hpca memory_c 0%nat two_companies eq_refl).
Defined.

(** C9, as the claim has it, fails: the setup of the explorer succeeds on
    the example frame and leaves, behind the global [pca_data], a frame
    with four more columns than the one read from the file; [df] names
    the same frame. *)
Lemma setup_writes_into_the_base_table :
  let run :=
    startup one_colour [] nat toy_seed toy_scaler toy_imputer toy_projection toy_kmeans
            two_companies 7%nat in
  exists s,
    fst run = Ok s
    /\ mem s = snd run
    /\ df s = pca_data s
    /\ heap (mem s) !! pca_data s
       = Some (explored ++ [("label", float_col [Some 50%Q; Some 150%Q])])
    /\ heap (mem s) !! pca_data s <> Some two_companies.
Proof.
  vm_compute. eexists. split; [reflexivity|].
  split; [reflexivity|]. split; [reflexivity|]. split; [reflexivity|].
  discriminate.
Qed.

End PipelineExamples.

(** ** Further properties of the map *)

Section MapExtras.
Import DvcEx4 Examples PlotExamples MapStatements MapNotions.
Local Open Scope list_scope.

Lemma create_df_main_ok table year city_name T :
  has_column year (Market_Cap_years table) = true ->
  has_column year (Employees_years table) = true ->
  create_df table year city_name T true
  = Ok (main_frame
          (map (agg_city (map (masked_line year T) (companies table)))
               (sorted_unique (map raw_City (companies table))))).
Proof.
  intros H1 H2. unfold create_df. rewrite (masked_df_ok _ _ _ H1 H2). simpl.
  now rewrite group_keys_masked.
Qed.

Lemma create_df_raises table year city_name T main :
  has_column year (Market_Cap_years table) && has_column year (Employees_years table)
  = false ->
  create_df table year city_name T main = Raise KeyError.
Proof.
  intros H. unfold create_df, masked_df, take_year. now rewrite H.
Qed.

Lemma create_df_columns table year city_name T main f :
  create_df table year city_name T main = Ok f ->
  has_column year (Market_Cap_years table) = true
  /\ has_column year (Employees_years table) = true.
Proof.
  intros H.
  destruct (has_column year (Market_Cap_years table)
            && has_column year (Employees_years table)) eqn:E.
  - now apply andb_true_iff in E.
  - rewrite (create_df_raises _ _ _ _ _ E) in H. discriminate.
Qed.

(** *** The year *)

Lemma update_year_year a :
  year (snd (update_year a))
  = if (2022 <? year a + 1)%Z then 2019%Z else (year a + 1)%Z.
Proof.
  cbv [update_year create_df_now bind modify]. simpl.
  destruct (2022 <? year a + 1)%Z; simpl;
    repeat match goal with
           | |- context [match ?e with _ => _ end] => destruct e
           end; reflexivity.
Qed.

Lemma step_year_other a ev :
  ev <> tick -> year (step a ev) = year a.
Proof.
  destruct ev; try congruence; intros _;
    cbv [step deliver tap_update slider_update play add_periodic_callback
         remove_periodic_callback create_df_now main_df_index bind modify gets ret id];
    repeat match goal with
           | |- context [match ?e with _ => _ end] => destruct e
           end; reflexivity.
Qed.

Lemma step_year_range a ev :
  (2019 <= year a <= 2022)%Z -> (2019 <= year (step a ev) <= 2022)%Z.
Proof.
  intros H. destruct ev; try (rewrite step_year_other by discriminate; exact H).
  unfold step, deliver. destruct (session_callbacks a); [exact H|].
  rewrite update_year_year.
  destruct (Z.ltb_spec 2022 (year a + 1)); lia.
Qed.

Lemma startup_fields table a :
  startup table = Ok a ->
  us_company_map a = table /\ year a = 2022%Z /\ city a = "San Jose"
  /\ market_cap_lower a = 0%Q
  /\ create_df table 2022 "San Jose" 0 true = Ok (main_source_data a)
  /\ create_df table 2022 "San Jose" 0 false = Ok (sub_source_data a)
  /\ main_df a = match main_source_data a with
                 | main_frame rows => rows
                 | sub_frame _ => []
                 end
  /\ label_text a = str 2022 /\ subplot_title a = title_of "San Jose" 2022.
Proof.
  unfold startup, rbind. intros H.
  destruct (create_df table 2022 "San Jose" 0 true) as [f1|]; [|discriminate].
  destruct (create_df table 2022 "San Jose" 0 false) as [f2|]; [|discriminate].
  injection H as <-. simpl. repeat split.
Qed.

Lemma reachable_facts table a :
  reachable table a ->
  (2019 <= year a <= 2022)%Z /\ us_company_map a = table.
Proof.
  intros Hr. induction Hr as [a H|a ev _ [IHy IHt]].
  - destruct (startup_fields table a H) as (Ht & Hy & _). rewrite Hy. split; [lia|exact Ht].
  - split; [now apply step_year_range|]. now rewrite step_table.
Qed.

(** X1 (the year stays in its range).  In every state reachable from
    the start of the application the global [year] is one of 2019, 2020,
    2021 and 2022, and the table is the one read at startup. *)
Theorem year_stays_in_range :
  forall table a,
    reachable table a ->
    (2019 <= year a <= 2022)%Z /\ us_company_map a = table.
Proof.
  intros table a Hr. induction Hr as [a H|a ev _ [IHy IHt]].
  - destruct (startup_fields table a H) as (Ht & Hy & _).
    rewrite Hy. split; [lia|exact Ht].
  - split.
    + destruct ev; try (rewrite step_year_other by discriminate; exact IHy).
      unfold step, deliver. destruct (session_callbacks a); [exact IHy|].
      rewrite update_year_year. destruct (Z.ltb_spec 2022 (year a + 1)); lia.
    + now rewrite step_table.
Qed.

Lemma year_stays_in_range_after_six_ticks :
  exists a0,
    startup two_cities = Ok a0
    /\ reachable two_cities (run (click :: ticks 6) a0)
    /\ (2019 <= year (run (click :: ticks 6) a0) <= 2022)%Z
    /\ us_company_map (run (click :: ticks 6) a0) = two_cities.
Proof.
  destruct (startup two_cities) as [a0|e] eqn:E; [|discriminate E].
  exists a0. split; [reflexivity|].
  assert (Hr : reachable two_cities (run (click :: ticks 6) a0)).
  { apply reachable_run. now constructor. }
  split; [exact Hr|].
  exact (year_stays_in_range two_cities _ Hr).
Defined.


(** *** Running the handlers *)

Lemma slider_update_run new a f1 f2 :
  create_df (us_company_map a) (year a) (city a) new true = Ok f1 ->
  create_df (us_company_map a) (year a) (city a) new false = Ok f2 ->
  slider_update new a
  = (Ok tt, set_sub_source_data f2 (set_main_source_data f1 (set_market_cap_lower new a))).
Proof.
  intros H1 H2.
  cbv [slider_update create_df_now bind modify]. simpl.
  rewrite H1. simpl. now rewrite H2.
Qed.

Lemma tap_update_run i rest a r f :
  nth_error (main_df a) i = Some r ->
  create_df (us_company_map a) (year a) (City_index r) (market_cap_lower a) false = Ok f ->
  tap_update (i :: rest) a
  = (Ok tt,
     set_subplot_title (title_of (City_index r) (year a))
       (set_sub_source_data f (set_city (City_index r) a))).
Proof.
  intros Hi Hf.
  cbv [tap_update main_df_index create_df_now bind modify gets ret id].
  rewrite Hi. simpl. now rewrite Hf.
Qed.

Lemma update_year_run a f1 f2 :
  create_df (us_company_map a) (next_year (year a)) (city a) (market_cap_lower a) true
  = Ok f1 ->
  create_df (us_company_map a) (next_year (year a)) (city a) (market_cap_lower a) false
  = Ok f2 ->
  update_year a
  = (Ok tt,
     set_sub_source_data f2
       (set_main_source_data f1
          (set_subplot_title (title_of (city a) (next_year (year a)))
             (set_label_text (str (next_year (year a)))
                (set_year (next_year (year a)) a))))).
Proof.
  unfold next_year. intros H1 H2.
  cbv [update_year create_df_now bind modify]. simpl.
  destruct (2022 <? year a + 1)%Z; simpl; simpl in H1, H2; rewrite H1; simpl;
    now rewrite H2.
Qed.

Lemma create_df_city_irrelevant table y c c' T :
  create_df table y c T true = create_df table y c' T true.
Proof. unfold create_df. now destruct (masked_df table y T). Qed.

Lemma create_df_total table y c T main :
  has_column y (Market_Cap_years table) = true ->
  has_column y (Employees_years table) = true ->
  exists f, create_df table y c T main = Ok f.
Proof.
  intros H1 H2. destruct main.
  - eexists. now apply create_df_main_ok.
  - eexists. now apply create_df_sub_ok.
Qed.

Lemma next_year_range y : (2019 <= y <= 2022)%Z -> (2019 <= next_year y <= 2022)%Z.
Proof. unfold next_year. intros H. destruct (Z.ltb_spec 2022 (y + 1)); lia. Qed.

Lemma step_views_consistent table a ev :
  years_present table ->
  us_company_map a = table ->
  (2019 <= year a <= 2022)%Z ->
  views_consistent a -> views_consistent (step a ev).
Proof.
  intros Hyears Htable Hyear (Hmain & Hsub & Hlabel & Htitle).
  destruct (Hyears (year a) Hyear) as [Hc1 Hc2].
  destruct ev as [new|new| |]; unfold step, deliver.
  - (* tap *)
    destruct new as [|i rest]; [simpl; repeat split; assumption|].
    destruct (nth_error (main_df a) i) as [r|] eqn:Hi.
    + destruct (create_df_total table (year a) (City_index r) (market_cap_lower a) false
                  Hc1 Hc2) as [f Hf].
      rewrite <- Htable in Hf.
      rewrite (tap_update_run i rest a r f Hi Hf). simpl.
      repeat split; try assumption;
        try (rewrite <- Hmain; apply create_df_city_irrelevant).
    + cbv [tap_update main_df_index bind]. rewrite Hi. simpl.
      repeat split; assumption.
  - (* slider *)
    destruct (create_df_total table (year a) (city a) new true Hc1 Hc2) as [f1 Hf1].
    destruct (create_df_total table (year a) (city a) new false Hc1 Hc2) as [f2 Hf2].
    rewrite <- Htable in Hf1, Hf2.
    rewrite (slider_update_run new a f1 f2 Hf1 Hf2). simpl.
    repeat split; assumption.
  - (* click *)
    assert (Hsame : forall a', us_company_map a' = us_company_map a ->
                               year a' = year a -> city a' = city a ->
                               market_cap_lower a' = market_cap_lower a ->
                               main_source_data a' = main_source_data a ->
                               sub_source_data a' = sub_source_data a ->
                               label_text a' = label_text a ->
                               subplot_title a' = subplot_title a ->
                               views_consistent a').
    { intros a' E1 E2 E3 E4 E5 E6 E7 E8. unfold views_consistent.
      rewrite E1, E2, E3, E4, E5, E6, E7, E8. repeat split; assumption. }
    apply Hsame;
      cbv [play add_periodic_callback remove_periodic_callback bind modify gets];
      repeat match goal with
             | |- context [match ?e with _ => _ end] => destruct e
             end; reflexivity.
  - (* tick *)
    destruct (session_callbacks a); [simpl; repeat split; assumption|].
    destruct (Hyears (next_year (year a)) (next_year_range _ Hyear)) as [Hn1 Hn2].
    destruct (create_df_total table (next_year (year a)) (city a) (market_cap_lower a)
                true Hn1 Hn2) as [f1 Hf1].
    destruct (create_df_total table (next_year (year a)) (city a) (market_cap_lower a)
                false Hn1 Hn2) as [f2 Hf2].
    rewrite <- Htable in Hf1, Hf2.
    rewrite (update_year_run a f1 f2 Hf1 Hf2). simpl.
    repeat split; assumption.
Qed.

Lemma reachable_views_consistent table a :
  years_present table -> reachable table a -> views_consistent a.
Proof.
  intros Hyears Hr. induction Hr as [a H|a ev Hr IH].
  - destruct (startup_fields table a H)
      as (Ht & Hy & Hc & Hm & Hmain & Hsub & _ & Hl & Hti).
    unfold views_consistent. rewrite Ht, Hy, Hc, Hm. repeat split; assumption.
  - destruct (reachable_facts table a Hr) as [Hy Ht].
    now apply (step_views_consistent table).
Qed.

(** X2 (what is shown follows the globals).  When the table has the
    columns of the years 2019 to 2022, then in every reachable state,
    that is after every handler, also one that raised, the data of the
    main plot and of the subplot are what [create_df] returns for the
    current year, city and lower bound, the label shows the current
    year, and the title of the subplot names the current city and
    year. *)
Theorem views_follow_the_globals :
  forall table a,
    years_present table ->
    reachable table a ->
    create_df table (year a) (city a) (market_cap_lower a) true
    = Ok (main_source_data a)
    /\ create_df table (year a) (city a) (market_cap_lower a) false
       = Ok (sub_source_data a)
    /\ label_text a = str (year a)
    /\ subplot_title a = title_of (city a) (year a).
Proof.
  intros table a Hyears Hr.
  destruct (reachable_facts table a Hr) as [_ Ht].
  pose proof (reachable_views_consistent table a Hyears Hr) as H.
  unfold views_consistent in H. now rewrite Ht in H.
Qed.

Lemma two_cities_years_present : years_present two_cities.
Proof.
  intros y Hy.
  assert (Hcases : y = 2019%Z \/ y = 2020%Z \/ y = 2021%Z \/ y = 2022%Z) by lia.
  destruct Hcases as [->|[->|[->| ->]]]; split; reflexivity.
Qed.

Lemma views_follow_the_globals_in_two_cities :
  exists a0,
    startup two_cities = Ok a0
    /\ let a := run [slider 100; click; tick; tap [5%nat]; tap [0%nat]] a0 in
       years_present two_cities
       /\ reachable two_cities a
       /\ create_df two_cities (year a) (city a) (market_cap_lower a) true
          = Ok (main_source_data a)
       /\ create_df two_cities (year a) (city a) (market_cap_lower a) false
          = Ok (sub_source_data a)
       /\ label_text a = str (year a)
       /\ subplot_title a = title_of (city a) (year a).
Proof.
  destruct (startup two_cities) as [a0|e] eqn:E; [|discriminate E].
  exists a0. split; [reflexivity|].
  assert (Hr : reachable two_cities
                 (run [slider 100; click; tick; tap [5%nat]; tap [0%nat]] a0)).
  { apply reachable_run. now constructor. }
  split; [exact two_cities_years_present|]. split; [exact Hr|].
  exact (views_follow_the_globals two_cities _ two_cities_years_present Hr).
Defined.

(** *** The index of the main frame and the tap tool *)

(** X3 (one index for every main frame).  Whatever the year, the city
    and the lower bound, a main frame returned by [create_df] has the
    same index: the distinct cities of the table in ascending order.
    Masking never removes a city from the map. *)
Theorem main_frames_share_their_index :
  forall table y1 y2 c1 c2 T1 T2 f1 f2,
    create_df table y1 c1 T1 true = Ok f1 ->
    create_df table y2 c2 T2 true = Ok f2 ->
    frame_index f1 = frame_index f2
    /\ frame_index f1 = sorted_unique (map raw_City (companies table))
    /\ List.NoDup (frame_index f1).
Proof.
  intros table y1 y2 c1 c2 T1 T2 f1 f2 H1 H2.
  destruct (create_df_columns _ _ _ _ _ _ H1) as [A1 B1].
  destruct (create_df_columns _ _ _ _ _ _ H2) as [A2 B2].
  rewrite (create_df_main_ok _ _ _ _ A1 B1) in H1.
  rewrite (create_df_main_ok _ _ _ _ A2 B2) in H2.
  injection H1 as <-. injection H2 as <-. simpl.
  rewrite !map_map. simpl. rewrite !map_id.
  split; [reflexivity|]. split; [reflexivity|]. apply sorted_unique_NoDup.
Qed.

Lemma main_frames_share_their_index_in_scenario_1 :
  exists f1 f2,
    create_df with_unlisted 2019 "Austin" 0 true = Ok f1
    /\ create_df with_unlisted 2022 "Reno" 1000 true = Ok f2
    /\ frame_index f1 = frame_index f2
    /\ frame_index f1 = sorted_unique (map raw_City (companies with_unlisted))
    /\ List.NoDup (frame_index f1).
Proof.
  eexists. eexists. split; [reflexivity|]. split; [reflexivity|].
  apply (main_frames_share_their_index with_unlisted 2019%Z 2022%Z "Austin" "Reno"
           0%Q 1000%Q); reflexivity.
Defined.

Lemma frame_index_of_create_df table y c T f :
  create_df table y c T true = Ok f ->
  frame_index f = sorted_unique (map raw_City (companies table)).
Proof.
  intros H. destruct (create_df_columns _ _ _ _ _ _ H) as [A B].
  rewrite (create_df_main_ok _ _ _ _ A B) in H. injection H as <-. simpl.
  rewrite map_map. simpl. now rewrite map_id.
Qed.

Lemma step_main_df a ev : main_df (step a ev) = main_df a.
Proof.
  destruct ev;
    cbv [step deliver tap_update slider_update update_year play add_periodic_callback
         remove_periodic_callback create_df_now main_df_index bind modify gets ret id];
    repeat match goal with
           | |- context [match ?e with _ => _ end] => destruct e
           end; reflexivity.
Qed.

Lemma reachable_main_df table a :
  reachable table a ->
  map City_index (main_df a) = sorted_unique (map raw_City (companies table)).
Proof.
  intros Hr. induction Hr as [a H|a ev _ IH].
  - destruct (startup_fields table a H) as (_ & _ & _ & _ & Hmain & _ & Hdf & _).
    rewrite Hdf. rewrite <- (frame_index_of_create_df _ _ _ _ _ Hmain).
    destruct (main_source_data a) eqn:E; [reflexivity|].
    (* a frame returned for the main plot is not a subplot frame *)
    destruct (create_df_columns _ _ _ _ _ _ Hmain) as [A B].
    rewrite (create_df_main_ok _ _ _ _ A B) in Hmain. discriminate.
  - now rewrite step_main_df.
Qed.

(** X4 (a tap selects the city under the pointer).  When the table has
    the columns of the years 2019 to 2022, in every reachable state the
    index the tap tool reads, the one of the frame made at startup, is
    the index of the frame the main plot shows now.  A tap on the [i]-th
    circle never raises; it makes the city of that circle the current
    city, names it and the current year in the title of the subplot, and
    shows its companies, leaving the year, the lower bound and the main
    plot as they are.  What an earlier tap had selected leaves no
    trace. *)
Theorem tap_selects_the_displayed_city :
  forall table a i rest k,
    years_present table ->
    reachable table a ->
    nth_error (frame_index (main_source_data a)) i = Some k ->
    let a' := step a (tap (i :: rest)) in
    map City_index (main_df a) = frame_index (main_source_data a)
    /\ fst (tap_update (i :: rest) a) = Ok tt
    /\ city a' = k
    /\ subplot_title a' = title_of k (year a)
    /\ create_df table (year a) k (market_cap_lower a) false = Ok (sub_source_data a')
    /\ year a' = year a
    /\ market_cap_lower a' = market_cap_lower a
    /\ main_source_data a' = main_source_data a.
Proof.
  intros table a i rest k Hyears Hr Hk a'. subst a'.
  destruct (reachable_facts table a Hr) as [Hy Ht].
  destruct (reachable_views_consistent table a Hyears Hr) as (Hmain & _).
  assert (Hindex : map City_index (main_df a) = frame_index (main_source_data a)).
  { rewrite (reachable_main_df table a Hr).
    symmetry. rewrite Ht in Hmain. exact (frame_index_of_create_df _ _ _ _ _ Hmain). }
  split; [exact Hindex|].
  rewrite <- Hindex, nth_error_map in Hk.
  destruct (nth_error (main_df a) i) as [r|] eqn:Hi; [|discriminate].
  injection Hk as <-.
  destruct (Hyears (year a) Hy) as [Hc1 Hc2].
  destruct (create_df_total table (year a) (City_index r) (market_cap_lower a) false
              Hc1 Hc2) as [f Hf].
  assert (Hf' := Hf). rewrite <- Ht in Hf'.
  unfold step, deliver. rewrite (tap_update_run i rest a r f Hi Hf'). simpl.
  repeat split. exact Hf.
Qed.

Lemma tap_selects_san_jose :
  exists a0,
    startup two_cities = Ok a0
    /\ let a := run [tap [0%nat]; slider 100] a0 in
       (forall y, (2019 <= y <= 2022)%Z ->
                  has_column y (Market_Cap_years two_cities) = true
                  /\ has_column y (Employees_years two_cities) = true)
       /\ reachable two_cities a
       /\ nth_error (frame_index (main_source_data a)) 1 = Some "San Jose"
       /\ city a = "Austin"
       /\ city (step a (tap [1%nat])) = "San Jose"
       /\ subplot_title (step a (tap [1%nat])) = title_of "San Jose" (year a).
Proof.
  destruct (startup two_cities) as [a0|e] eqn:E; [|discriminate E].
  exists a0. split; [reflexivity|].
  assert (Hyears : years_present two_cities).
  { intros y Hy.
    assert (Hcases : y = 2019%Z \/ y = 2020%Z \/ y = 2021%Z \/ y = 2022%Z) by lia.
    destruct Hcases as [->|[->|[->| ->]]]; split; reflexivity. }
  assert (Hr : reachable two_cities (run [tap [0%nat]; slider 100] a0)).
  { apply reachable_run. now constructor. }
  assert (Hk : nth_error (frame_index (main_source_data (run [tap [0%nat]; slider 100] a0))) 1
               = Some "San Jose").
  { injection E as <-. reflexivity. }
  split; [exact Hyears|]. split; [exact Hr|]. split; [exact Hk|].
  split; [injection E as <-; reflexivity|].
  destruct (tap_selects_the_displayed_city two_cities _ 1%nat [] "San Jose" Hyears Hr Hk)
    as (_ & _ & Hcity & Htitle & _).
  split; [exact Hcity|exact Htitle].
Defined.

(** X5 (taps that select nothing).  A change of the selection to the
    empty one (a tap beside the circles) changes nothing at all.  An
    index beyond the frame made at startup raises [IndexError], and the
    state is left as it was. *)
Theorem tap_update_on_nothing :
  (forall a, tap_update [] a = (Ok tt, a))
  /\ (forall a i rest,
         nth_error (main_df a) i = None ->
         tap_update (i :: rest) a = (Raise IndexError, a)).
Proof.
  split; [reflexivity|].
  intros a i rest H. cbv [tap_update main_df_index bind]. now rewrite H.
Qed.

Lemma tap_update_beyond_the_index :
  nth_error (main_df (session_in 2022)) 3 = None
  /\ tap_update [3%nat] (session_in 2022) = (Raise IndexError, session_in 2022).
Proof.
  split; [reflexivity|].
  apply (proj2 tap_update_on_nothing (session_in 2022) 3%nat []). reflexivity.
Defined.

(** *** The animation *)

Lemma run_app (evs1 evs2 : list event) a : run (evs1 ++ evs2) a = run evs2 (run evs1 a).
Proof. unfold run. apply fold_left_app. Qed.

Lemma tick_when_stopped a : session_callbacks a = [] -> step a tick = a.
Proof. intros H. unfold step, deliver. now rewrite H. Qed.

Lemma ticks_when_stopped n a : session_callbacks a = [] -> run (ticks n) a = a.
Proof.
  intros H. induction n as [|n IH]; [reflexivity|].
  unfold ticks in *. simpl. now rewrite (tick_when_stopped a H).
Qed.

(** X6 (no tick after a stop).  In a reachable state in which the
    button shows "Play", that is at the start and after every click that
    stops the animation, any number of ticks leaves the whole state as
    it is: the year does not advance and nothing is redrawn. *)
Theorem ticks_do_nothing_when_stopped :
  forall table a n,
    reachable table a ->
    btn_label a = play_label ->
    run (ticks n) a = a.
Proof.
  intros table a n Hr Hl. apply ticks_when_stopped.
  destruct (reachable_timer_invariant table a Hr) as [[_ Hs]|[Hp _]]; [exact Hs|].
  rewrite Hl in Hp. discriminate.
Qed.

Lemma ticks_do_nothing_after_a_stop :
  exists a0,
    startup two_cities = Ok a0
    /\ let a := run [click; tick; click] a0 in
       reachable two_cities a
       /\ btn_label a = play_label
       /\ run (ticks 3) a = a.
Proof.
  destruct (startup two_cities) as [a0|e] eqn:E; [|discriminate E].
  exists a0. split; [reflexivity|].
  assert (Hr : reachable two_cities (run [click; tick; click] a0)).
  { apply reachable_run. now constructor. }
  assert (Hl : btn_label (run [click; tick; click] a0) = play_label).
  { injection E as <-. reflexivity. }
  split; [exact Hr|]. split; [exact Hl|].
  exact (ticks_do_nothing_when_stopped two_cities _ 3%nat Hr Hl).
Defined.

Lemma tick_beside_the_year a : beside_the_year (step a tick) = beside_the_year a.
Proof.
  cbv [step deliver update_year create_df_now bind modify].
  repeat match goal with
         | |- context [match ?e with _ => _ end] => destruct e
         end; reflexivity.
Qed.

Lemma tick_year_when_running a :
  session_callbacks a <> [] -> year (step a tick) = next_year (year a).
Proof.
  intros H. unfold step, deliver. destruct (session_callbacks a); [congruence|].
  apply update_year_year.
Qed.

Lemma app_ext (a b : app) :
  beside_the_year a = beside_the_year b ->
  year a = year b ->
  main_source_data a = main_source_data b ->
  sub_source_data a = sub_source_data b ->
  label_text a = label_text b ->
  subplot_title a = subplot_title b ->
  a = b.
Proof.
  destruct a, b. unfold beside_the_year, control. simpl.
  intros H1 -> -> -> -> ->. injection H1 as -> -> -> -> -> -> -> ->. reflexivity.
Qed.

Lemma four_years y : (2019 <= y <= 2022)%Z -> next_year (next_year (next_year (next_year y))) = y.
Proof.
  intros H.
  assert (Hcases : y = 2019%Z \/ y = 2020%Z \/ y = 2021%Z \/ y = 2022%Z) by lia.
  destruct Hcases as [->|[->|[->| ->]]]; reflexivity.
Qed.

(** X7 (the animation has period four).  When the table has the columns
    of the years 2019 to 2022, four ticks in a row bring every reachable
    state back to itself: the year, the label, the title and the data of
    both plots are again what they were. *)
Theorem four_ticks_come_full_circle :
  forall table a,
    years_present table ->
    reachable table a ->
    run (ticks 4) a = a.
Proof.
  intros table a Hyears Hr.
  destruct (session_callbacks a) as [|cb cbs] eqn:Hcbs.
  { now apply ticks_when_stopped. }
  set (a4 := run (ticks 4) a).
  assert (Hr4 : reachable table a4) by now apply reachable_run.
  assert (Hside : beside_the_year a4 = beside_the_year a).
  { unfold a4, ticks. simpl. now rewrite !tick_beside_the_year. }
  assert (Hcontrol : forall b, beside_the_year b = beside_the_year a ->
                               session_callbacks b <> []).
  { intros b Hb. unfold beside_the_year, control in Hb.
    injection Hb as _ _ _ _ _ _ Hs _. rewrite Hs, Hcbs. discriminate. }
  assert (Hyear : year a4 = year a).
  { destruct (reachable_facts table a Hr) as [Hy _].
    rewrite <- (four_years (year a) Hy).
    unfold a4, ticks. simpl.
    rewrite !tick_year_when_running; [reflexivity| | | |];
      apply Hcontrol; now rewrite ?tick_beside_the_year. }
  destruct (reachable_views_consistent table a Hyears Hr) as (M & S & L & T).
  destruct (reachable_views_consistent table a4 Hyears Hr4) as (M4 & S4 & L4 & T4).
  assert (Hfields : us_company_map a4 = us_company_map a /\ city a4 = city a
                    /\ market_cap_lower a4 = market_cap_lower a).
  { unfold beside_the_year in Hside. injection Hside as -> -> -> _ _ _. auto. }
  destruct Hfields as (F1 & F2 & F3).
  rewrite F1, F2, F3, Hyear in M4, S4. rewrite Hyear, ?F2 in L4, T4.
  apply app_ext; try assumption; congruence.
Qed.

Lemma four_ticks_come_full_circle_in_two_cities :
  exists a0,
    startup two_cities = Ok a0
    /\ (forall y, (2019 <= y <= 2022)%Z ->
                  has_column y (Market_Cap_years two_cities) = true
                  /\ has_column y (Employees_years two_cities) = true)
    /\ reachable two_cities (run [click; tick] a0)
    /\ year (run [click; tick] a0) = 2019%Z
    /\ run (ticks 4) (run [click; tick] a0) = run [click; tick] a0.
Proof.
  destruct (startup two_cities) as [a0|e] eqn:E; [|discriminate E].
  exists a0. split; [reflexivity|].
  assert (Hr : reachable two_cities (run [click; tick] a0)).
  { apply reachable_run. now constructor. }
  split; [exact two_cities_years_present|]. split; [exact Hr|].
  split; [injection E as <-; reflexivity|].
  exact (four_ticks_come_full_circle two_cities _ two_cities_years_present Hr).
Defined.

(** X8 (a handler that fails half way).  When the table lacks a column
    of the year to show, [slider_update] raises [KeyError] after it has
    stored the new lower bound, and [update_year] raises [KeyError]
    after it has advanced the year, the label and the title: in both
    cases the data of the two plots stay as they were, so what is shown
    no longer follows the globals. *)
Theorem handlers_fail_after_updating_the_globals :
  (forall a new,
      has_column (year a) (Market_Cap_years (us_company_map a))
      && has_column (year a) (Employees_years (us_company_map a)) = false ->
      slider_update new a = (Raise KeyError, set_market_cap_lower new a))
  /\ (forall a,
         has_column (next_year (year a)) (Market_Cap_years (us_company_map a))
         && has_column (next_year (year a)) (Employees_years (us_company_map a)) = false ->
         update_year a
         = (Raise KeyError,
            set_subplot_title (title_of (city a) (next_year (year a)))
              (set_label_text (str (next_year (year a)))
                 (set_year (next_year (year a)) a)))).
Proof.
  split.
  - intros a new H.
    cbv [slider_update create_df_now bind modify]. simpl.
    now rewrite (create_df_raises _ _ _ _ _ H).
  - intros a H. unfold next_year in *.
    cbv [update_year create_df_now bind modify]. simpl.
    destruct (2022 <? year a + 1)%Z; simpl;
      now rewrite (create_df_raises _ _ _ _ _ H).
Qed.

Lemma handlers_fail_in_1999 :
  (has_column (year (session_in 1999)) (Market_Cap_years (us_company_map (session_in 1999)))
   && has_column (year (session_in 1999)) (Employees_years (us_company_map (session_in 1999)))
   = false
   /\ slider_update 7 (session_in 1999)
      = (Raise KeyError, set_market_cap_lower 7 (session_in 1999)))
  /\ (has_column (next_year (year (session_in 1999)))
                 (Market_Cap_years (us_company_map (session_in 1999)))
      && has_column (next_year (year (session_in 1999)))
                    (Employees_years (us_company_map (session_in 1999))) = false
      /\ year (snd (update_year (session_in 1999))) = 2000%Z
      /\ main_source_data (snd (update_year (session_in 1999)))
         = main_source_data (session_in 1999)).
Proof.
  split.
  - split; [reflexivity|].
    apply (proj1 handlers_fail_after_updating_the_globals (session_in 1999) 7%Q).
    reflexivity.
  - split; [reflexivity|].
    rewrite (proj2 handlers_fail_after_updating_the_globals (session_in 1999) eq_refl).
    split; reflexivity.
Defined.

(** *** The callbacks of the document *)

Lemma step_callbacks_well_formed a ev :
  timer_invariant a -> callbacks_well_formed a -> callbacks_well_formed (step a ev).
Proof.
  intros Hinv Hwf.
  assert (Hkeep : forall a', control a' = control a ->
                             next_callback_id a' = next_callback_id a ->
                             callbacks_well_formed a').
  { intros a' Hc Hn cb Hin. unfold control in Hc. injection Hc as _ _ Hs.
    rewrite Hs in Hin. rewrite Hn. now apply Hwf. }
  destruct ev.
  - apply Hkeep; [apply tap_update_control|].
    cbv [step deliver tap_update create_df_now main_df_index bind modify gets ret id].
    repeat match goal with
           | |- context [match ?e with _ => _ end] => destruct e
           end; reflexivity.
  - apply Hkeep; [apply slider_update_control|].
    cbv [step deliver slider_update create_df_now bind modify].
    repeat match goal with
           | |- context [match ?e with _ => _ end] => destruct e
           end; reflexivity.
  - destruct Hinv as [[Hl Hs]|[Hl (cb0 & Hs & Hc)]].
    + intros cb. cbv [step deliver play add_periodic_callback bind modify gets].
      rewrite Hl. simpl. rewrite Hs. simpl.
      intros [<-|[]]. simpl. split; [reflexivity|lia].
    + intros cb. cbv [step deliver play remove_periodic_callback bind modify gets].
      rewrite Hl. simpl. rewrite Hc, Hs. simpl.
      rewrite periodic_callback_eqb_refl. simpl. intros [].
  - pose proof (tick_beside_the_year a) as Hb. unfold beside_the_year in Hb.
    apply Hkeep; congruence.
Qed.

(** X9 (the registered callback).  In every reachable state every
    registered periodic callback has a period of 200 milliseconds and an
    identity older than the next one the document will hand out, so
    that a callback registered by a later click is a new one. *)
Theorem callbacks_fire_every_200_ms :
  forall table a cb,
    reachable table a ->
    In cb (session_callbacks a) ->
    period_milliseconds cb = 200%Z /\ (callback_id cb < next_callback_id a)%nat.
Proof.
  intros table a cb Hr. revert cb.
  change (callbacks_well_formed a).
  induction Hr as [a H|a ev Hr IH].
  - destruct (startup_stopped table a H) as [_ Hs]. intros cb Hin.
    rewrite Hs in Hin. destruct Hin.
  - apply step_callbacks_well_formed; [|exact IH].
    now apply (reachable_timer_invariant table).
Qed.

Lemma callbacks_fire_every_200_ms_after_three_clicks :
  exists a0 cb,
    startup two_cities = Ok a0
    /\ reachable two_cities (run [click; click; click] a0)
    /\ session_callbacks (run [click; click; click] a0) = [cb]
    /\ callback_id cb = 1%nat
    /\ period_milliseconds cb = 200%Z
    /\ (callback_id cb < next_callback_id (run [click; click; click] a0))%nat.
Proof.
  destruct (startup two_cities) as [a0|e] eqn:E; [|discriminate E].
  exists a0, {| callback_id := 1; period_milliseconds := 200 |}.
  split; [reflexivity|].
  assert (Hr : reachable two_cities (run [click; click; click] a0)).
  { apply reachable_run. now constructor. }
  assert (Hs : session_callbacks (run [click; click; click] a0)
               = [{| callback_id := 1; period_milliseconds := 200 |}]).
  { injection E as <-. reflexivity. }
  split; [exact Hr|]. split; [exact Hs|]. split; [reflexivity|].
  apply (callbacks_fire_every_200_ms two_cities _ _ Hr).
  rewrite Hs. now left.
Defined.

(** *** The frames of [create_df] *)

(** X10 (the frame of the subplot).  A frame returned for the subplot
    holds one line for every company of the chosen city, in the order of
    the table and whatever the lower bound is: a company below the bound
    is still there, with its fields masked, and the circle size is taken
    from the (possibly masked) number of employees.  A city without
    companies gives an empty frame, not an error. *)
Theorem subplot_frame_lists_the_city :
  forall table y c T f,
    create_df table y c T false = Ok f ->
    exists rows,
      f = sub_frame rows
      /\ map company_data rows = map (masked_line y T) (in_city c table)
      /\ length rows = length (in_city c table)
      /\ (forall r, In r rows ->
                    company_circle_size r = log_times (Employees (company_data r)) (7 # 2))
      /\ ((forall co, In co (companies table) -> raw_City co <> c) -> rows = []).
Proof.
  intros table y c T f H.
  destruct (create_df_columns _ _ _ _ _ _ H) as [A B].
  rewrite (create_df_sub_ok _ _ _ _ A B) in H. injection H as <-.
  rewrite (filter_map_swap (masked_line y T) _ (fun co => String.eqb (raw_City co) c)).
  2:{ intros co. now destruct (masked_line_fixed y T co) as (-> & _). }
  fold (in_city c table).
  exists (map with_circle_size (map (masked_line y T) (in_city c table))).
  split; [reflexivity|]. split.
  { rewrite map_map. simpl. now rewrite map_map. }
  split; [now rewrite !length_map|]. split.
  - intros r Hr. apply in_map_iff in Hr. destruct Hr as (r0 & <- & _). reflexivity.
  - intros Hnone. unfold in_city.
    assert (Hnil : List.filter (fun co => String.eqb (raw_City co) c) (companies table) = []).
    { induction (companies table) as [|co cs IH]; [reflexivity|]. simpl.
      destruct (String.eqb_spec (raw_City co) c) as [Heq|_].
      - exfalso. apply (Hnone co); [now left|exact Heq].
      - apply IH. intros co' Hin. apply Hnone. now right. }
    now rewrite Hnil.
Qed.

Lemma subplot_frame_of_austin :
  exists f,
    create_df with_unlisted 2022 "Austin" 100 false = Ok f
    /\ exists rows,
         f = sub_frame rows
         /\ map company_data rows = map (masked_line 2022 100) (in_city "Austin" with_unlisted)
         /\ length rows = 2%nat.
Proof.
  eexists. split; [reflexivity|].
  destruct (subplot_frame_lists_the_city with_unlisted 2022%Z "Austin" 100%Q _ eq_refl)
    as (rows & Hf & Hdata & Hlen & _).
  exists rows. split; [exact Hf|]. split; [exact Hdata|exact Hlen].
Defined.

(** X11 (a bound below every market cap masks nothing).  When no market
    cap of the year is below the lower bound, as with the initial bound
    of 0 on a table without negative market caps, the masking line
    changes nothing: the frame is the selection of the columns of the
    year. *)
Theorem low_bound_masks_nothing :
  forall table y T,
    (forall co cap, In co (companies table) ->
                    raw_Market_Cap co y = Some cap -> (T <= cap)%Q) ->
    masked_df table y T = take_year table y.
Proof.
  intros table y T Hcaps. unfold masked_df.
  destruct (take_year table y) as [df|e] eqn:E; [|reflexivity]. simpl. f_equal.
  unfold take_year in E.
  destruct (has_column y (Market_Cap_years table) && has_column y (Employees_years table));
    [|discriminate].
  injection E as <-. unfold mask_below. rewrite map_map.
  apply map_ext_in. intros co Hin. fold (masked_line y T co).
  apply masked_line_kept.
  destruct (raw_Market_Cap co y) as [cap|] eqn:Hcap; [|reflexivity].
  apply (float_lt_not _ _ cap eq_refl). apply Qle_not_lt. now apply (Hcaps co).
Qed.

Lemma low_bound_masks_nothing_in_scenario_1 :
  (forall co cap, In co (companies with_unlisted) ->
                  raw_Market_Cap co 2022 = Some cap -> (0 <= cap)%Q)
  /\ masked_df with_unlisted 2022 0 = take_year with_unlisted 2022.
Proof.
  assert (H : forall co cap, In co (companies with_unlisted) ->
                             raw_Market_Cap co 2022 = Some cap -> (0 <= cap)%Q).
  { intros co cap [<-|[<-|[<-|[]]]] Hcap; simpl in Hcap;
      try discriminate; injection Hcap as <-; discriminate. }
  split; [exact H|].
  exact (low_bound_masks_nothing with_unlisted 2022%Z 0%Q H).
Defined.

Lemma kept_monotone y T1 T2 co :
  (T1 <= T2)%Q -> kept y T2 co = true -> kept y T1 co = true.
Proof.
  unfold kept. intros Hle H.
  destruct (raw_Market_Cap co y) as [cap|]; [|reflexivity]. simpl in *.
  apply negb_true_iff in H. apply negb_true_iff.
  destruct (Qltb cap T1) eqn:E; [|reflexivity].
  apply Qltb_lt in E.
  assert (Hlt : (cap < T2)%Q) by (eapply Qlt_le_trans; eauto).
  apply Qltb_lt in Hlt. congruence.
Qed.

Lemma filter_length_monotone {A} (p q : A -> bool) (l : list A) :
  (forall a, p a = true -> q a = true) ->
  (length (List.filter p l) <= length (List.filter q l))%nat.
Proof.
  intros Hpq. induction l as [|a l IH]; simpl; [lia|].
  destruct (p a) eqn:Hp.
  - rewrite (Hpq a Hp). simpl. lia.
  - destruct (q a); simpl; lia.
Qed.

Lemma filter_filter_and {A} (p q : A -> bool) (l : list A) :
  List.filter p (List.filter q l) = List.filter (fun a => q a && p a) l.
Proof.
  induction l as [|a l IH]; simpl; [reflexivity|].
  destruct (q a); simpl; [destruct (p a)|]; now rewrite IH.
Qed.

Lemma symbol_count_of_city table y T k :
  Symbol_count (agg_city (map (masked_line y T) (companies table)) k)
  = length (List.filter (fun co => kept y T co && notna (raw_Symbol co)) (in_city k table)).
Proof. rewrite agg_city_masked. simpl. now rewrite filter_filter_and. Qed.

(** X12 (a higher bound never shows more companies).  Raising the lower
    bound keeps the cities of the main frame and, city by city, never
    increases the number of companies it reports. *)
Theorem higher_bound_counts_fewer :
  forall table y c T1 T2 rows1 rows2,
    (T1 <= T2)%Q ->
    create_df table y c T1 true = Ok (main_frame rows1) ->
    create_df table y c T2 true = Ok (main_frame rows2) ->
    Forall2 (fun r1 r2 => City_index r1 = City_index r2
                          /\ (Symbol_count r2 <= Symbol_count r1)%nat)
            rows1 rows2.
Proof.
  intros table y c T1 T2 rows1 rows2 Hle H1 H2.
  destruct (create_df_columns _ _ _ _ _ _ H1) as [A B].
  rewrite (create_df_main_ok table y c T1 A B) in H1.
  rewrite (create_df_main_ok table y c T2 A B) in H2.
  injection H1 as <-. injection H2 as <-.
  induction (sorted_unique (map raw_City (companies table))) as [|k ks IH]; simpl.
  - constructor.
  - constructor; [|exact IH]. split; [reflexivity|].
    rewrite !symbol_count_of_city. apply filter_length_monotone.
    intros co Hco. apply andb_true_iff in Hco. destruct Hco as [Hk Hs].
    apply andb_true_iff. split; [|exact Hs]. now apply (kept_monotone y T1 T2).
Qed.

Lemma higher_bound_counts_fewer_in_scenario_1 :
  exists rows1 rows2,
    (0 <= 100)%Q
    /\ create_df scenario_1 2022 "Austin" 0 true = Ok (main_frame rows1)
    /\ create_df scenario_1 2022 "Austin" 100 true = Ok (main_frame rows2)
    /\ map Symbol_count rows1 = [2%nat]
    /\ map Symbol_count rows2 = [1%nat]
    /\ Forall2 (fun r1 r2 => City_index r1 = City_index r2
                             /\ (Symbol_count r2 <= Symbol_count r1)%nat)
               rows1 rows2.
Proof.
  eexists. eexists. split; [discriminate|].
  split; [reflexivity|]. split; [reflexivity|].
  split; [reflexivity|]. split; [reflexivity|].
  apply (higher_bound_counts_fewer scenario_1 2022%Z "Austin" 0%Q 100%Q);
    [discriminate|reflexivity|reflexivity].
Defined.

Lemma indicator_sum (keys : list string) (k : string) :
  List.NoDup keys -> In k keys ->
  list_sum (map (fun k' => if String.eqb k k' then 1 else 0)%nat keys) = 1%nat.
Proof.
  intros Hnd. induction Hnd as [|k0 keys Hnotin Hnd IH]; intros Hin; [destruct Hin|].
  simpl. destruct (String.eqb_spec k k0) as [->|Hne].
  - assert (Hzero : list_sum (map (fun k' => if String.eqb k0 k' then 1 else 0)%nat keys)
                    = 0%nat).
    { clear -Hnotin. induction keys as [|k1 keys IH]; [reflexivity|]. simpl.
      destruct (String.eqb_spec k0 k1) as [->|_].
      - exfalso. apply Hnotin. now left.
      - apply IH. intros Hin. apply Hnotin. now right. }
    now rewrite Hzero.
  - destruct Hin as [->|Hin]; [congruence|]. now apply IH.
Qed.

Lemma count_by_key_cons {A} (key : A -> string) (keys : list string) (a : A) (l : list A) :
  list_sum (map (fun k => length (List.filter (fun b => String.eqb (key b) k) (a :: l))) keys)
  = (list_sum (map (fun k => if String.eqb (key a) k then 1 else 0) keys)
     + list_sum (map (fun k => length (List.filter (fun b => String.eqb (key b) k) l)) keys))%nat.
Proof.
  unfold list_sum. induction keys as [|k keys IH]; [reflexivity|].
  cbn [map fold_right]. rewrite IH. cbn [List.filter].
  destruct (String.eqb (key a) k); cbn [length]; lia.
Qed.

Lemma count_by_key {A} (key : A -> string) (keys : list string) (l : list A) :
  List.NoDup keys ->
  (forall a, In a l -> In (key a) keys) ->
  list_sum (map (fun k => length (List.filter (fun a => String.eqb (key a) k) l)) keys)
  = length l.
Proof.
  intros Hnd. induction l as [|a l IH]; intros Hkeys.
  - simpl. clear Hnd Hkeys. induction keys as [|k keys IHk]; [reflexivity|exact IHk].
  - rewrite count_by_key_cons.
    rewrite (indicator_sum keys (key a) Hnd (Hkeys a (or_introl eq_refl))).
    rewrite IH by (intros b Hb; apply Hkeys; now right). reflexivity.
Qed.

Lemma symbol_counts_total table y T :
  list_sum (map Symbol_count
                (map (agg_city (map (masked_line y T) (companies table)))
                     (sorted_unique (map raw_City (companies table)))))
  = length (List.filter (fun co => kept y T co && notna (raw_Symbol co))
                        (companies table)).
Proof.
  rewrite map_map.
  set (live := fun co => kept y T co && notna (raw_Symbol co)).
  rewrite <- (count_by_key raw_City (sorted_unique (map raw_City (companies table)))
                (List.filter live (companies table))).
  - f_equal. apply map_ext. intros k. rewrite symbol_count_of_city.
    fold live. unfold in_city. rewrite !filter_filter_and.
    f_equal. apply List.filter_ext. intros co. apply andb_comm.
  - apply sorted_unique_NoDup.
  - intros co Hco. apply List.filter_In in Hco. destruct Hco as [Hin _].
    apply sorted_unique_In. now apply in_map.
Qed.

(** X13 (every company of a city is counted once).  The numbers of
    companies that the lines of a main frame report add up to the number
    of companies of the table whose city is a line of the frame, that
    the lower bound does not mask and that have a symbol: no company is
    counted in two cities, and no company of a city of the frame is left
    out.  (A company whose city is missing would be in no group and so
    in no count; the tables considered here give every company a
    city.) *)
Theorem symbol_counts_add_up :
  forall table y c T rows,
    create_df table y c T true = Ok (main_frame rows) ->
    list_sum (map Symbol_count rows)
    = length (List.filter
                (fun co => existsb (String.eqb (raw_City co)) (map City_index rows)
                           && (kept y T co && notna (raw_Symbol co)))
                (companies table)).
Proof.
  intros table y c T rows H.
  destruct (create_df_columns _ _ _ _ _ _ H) as [A B].
  rewrite (create_df_main_ok _ _ _ _ A B) in H. injection H as <-.
  rewrite symbol_counts_total. f_equal.
  apply List.filter_ext_in. intros co Hco.
  assert (Hcity : existsb (String.eqb (raw_City co))
                    (map City_index
                       (map (agg_city (map (masked_line y T) (companies table)))
                            (sorted_unique (map raw_City (companies table)))))
                  = true).
  { apply existsb_exists. exists (raw_City co). split; [|apply String.eqb_refl].
    rewrite map_map. cbn [agg_city City_index]. rewrite map_id.
    apply sorted_unique_In. now apply in_map. }
  now rewrite Hcity.
Qed.

Lemma symbol_counts_add_up_with_unlisted :
  exists rows,
    create_df with_unlisted 2022 "Reno" 100 true = Ok (main_frame rows)
    /\ map City_index rows = ["Austin"; "Reno"]
    /\ map Symbol_count rows = [1%nat; 1%nat]
    /\ list_sum (map Symbol_count rows)
       = length (List.filter
                   (fun co => existsb (String.eqb (raw_City co)) (map City_index rows)
                              && (kept 2022 100 co && notna (raw_Symbol co)))
                   (companies with_unlisted)).
Proof.
  eexists. split; [reflexivity|]. split; [reflexivity|]. split; [reflexivity|].
  apply (symbol_counts_add_up with_unlisted 2022%Z "Reno" 100%Q). reflexivity.
Defined.

End MapExtras.

(** ** Further properties of the explorer *)

Section ExplorerExtras.
Import DvcEx3 ExplorerExamples ExplorerStatements ExplorerNotions.
Local Open Scope list_scope.

(** *** Minimum and maximum *)

Lemma Qltb_false_le (a b : Q) : Qltb a b = false -> (b <= a)%Q.
Proof.
  unfold Qltb. intros H. apply negb_false_iff in H. now apply Qle_bool_iff.
Qed.

Lemma py_min_fold_finite (m : Q) (qs : list Q) :
  exists lo,
    fold_left (fun m item => if float_ltb item m then item else m) (map Some qs) (Some m)
    = Some lo
    /\ In lo (m :: qs)
    /\ forall q, In q (m :: qs) -> (lo <= q)%Q.
Proof.
  revert m. induction qs as [|q qs IH]; intros m.
  - exists m. simpl. split; [reflexivity|]. split; [now left|].
    intros q [<-|[]]. apply Qle_refl.
  - simpl. destruct (Qltb q m) eqn:E.
    + destruct (IH q) as (lo & Hfold & Hin & Hle).
      exists lo. split; [exact Hfold|]. split; [now right|].
      intros q' [<-|Hq'].
      * apply Qle_trans with q; [apply Hle; now left|].
        apply Qlt_le_weak. now apply Qltb_lt.
      * now apply Hle.
    + destruct (IH m) as (lo & Hfold & Hin & Hle).
      exists lo. split; [exact Hfold|]. split.
      * destruct Hin as [<-|Hin]; [now left|right; now right].
      * intros q' [<-|[<-|Hq']].
        -- apply Hle. now left.
        -- apply Qle_trans with m; [apply Hle; now left|]. now apply Qltb_false_le.
        -- apply Hle. now right.
Qed.

Lemma py_max_fold_finite (m : Q) (qs : list Q) :
  exists hi,
    fold_left (fun m item => if float_ltb m item then item else m) (map Some qs) (Some m)
    = Some hi
    /\ In hi (m :: qs)
    /\ forall q, In q (m :: qs) -> (q <= hi)%Q.
Proof.
  revert m. induction qs as [|q qs IH]; intros m.
  - exists m. simpl. split; [reflexivity|]. split; [now left|].
    intros q [<-|[]]. apply Qle_refl.
  - simpl. destruct (Qltb m q) eqn:E.
    + destruct (IH q) as (hi & Hfold & Hin & Hle).
      exists hi. split; [exact Hfold|]. split; [now right|].
      intros q' [<-|Hq'].
      * apply Qle_trans with q; [|apply Hle; now left].
        apply Qlt_le_weak. now apply Qltb_lt.
      * now apply Hle.
    + destruct (IH m) as (hi & Hfold & Hin & Hle).
      exists hi. split; [exact Hfold|]. split.
      * destruct Hin as [<-|Hin]; [now left|right; now right].
      * intros q' [<-|[<-|Hq']].
        -- apply Hle. now left.
        -- apply Qle_trans with m; [now apply Qltb_false_le|apply Hle; now left].
        -- apply Hle. now right.
Qed.

Lemma finite_values (vals : list float) :
  forallb notna vals = true -> vals = map Some (present vals).
Proof.
  induction vals as [|[q|] vals IH]; simpl; intros H; [reflexivity| |discriminate].
  now rewrite <- IH.
Qed.

Lemma py_min_finite (vals : list float) :
  vals <> [] -> forallb notna vals = true ->
  exists lo, py_min vals = Ok (Some lo)
             /\ In (Some lo) vals
             /\ forall q, In (Some q) vals -> (lo <= q)%Q.
Proof.
  intros Hne Hfin. pose proof (finite_values vals Hfin) as E.
  destruct (present vals) as [|m qs]; rewrite E; [now elim Hne|]. clear E Hne Hfin.
  destruct (py_min_fold_finite m qs) as (lo & Hfold & Hin & Hle).
  exists lo. cbn [map py_min]. rewrite Hfold. split; [reflexivity|]. split.
  - change (In (Some lo) (map Some (m :: qs))). now apply in_map.
  - intros q Hq. apply Hle. change (In (Some q) (map Some (m :: qs))) in Hq.
    apply in_map_iff in Hq. destruct Hq as (q' & Heq & Hq'). now injection Heq as <-.
Qed.

Lemma py_max_finite (vals : list float) :
  vals <> [] -> forallb notna vals = true ->
  exists hi, py_max vals = Ok (Some hi)
             /\ In (Some hi) vals
             /\ forall q, In (Some q) vals -> (q <= hi)%Q.
Proof.
  intros Hne Hfin. pose proof (finite_values vals Hfin) as E.
  destruct (present vals) as [|m qs]; rewrite E; [now elim Hne|]. clear E Hne Hfin.
  destruct (py_max_fold_finite m qs) as (hi & Hfold & Hin & Hle).
  exists hi. cbn [map py_max]. rewrite Hfold. split; [reflexivity|]. split.
  - change (In (Some hi) (map Some (m :: qs))). now apply in_map.
  - intros q Hq. apply Hle. change (In (Some q) (map Some (m :: qs))) in Hq.
    apply in_map_iff in Hq. destruct Hq as (q' & Heq & Hq'). now injection Heq as <-.
Qed.

(** *** The colour map of a numeric feature *)

(** X14 (the colour map spans the feature).  For a numeric column that
    is not empty and holds no [nan], [create_cmap] returns a continuous
    mapper and no palette of categories; its bounds are the least and
    the greatest value of the column, so that every value lies between
    them; it is logarithmic when the least value is not negative and
    linear otherwise.  For an empty numeric column it raises
    [ValueError]. *)
Theorem create_cmap_spans_the_feature :
  (forall TolRainbow23 Turbo256 frame col vals,
      get_column col frame = Ok (float_col vals) ->
      vals <> [] ->
      forallb notna vals = true ->
      exists lo hi,
        create_cmap TolRainbow23 Turbo256 frame col
        = Ok (if Qle_bool 0 lo
              then log_cmap col Turbo256 (Some lo) (Some hi)
              else linear_cmap col Turbo256 (Some lo) (Some hi), None)
        /\ In (Some lo) vals /\ In (Some hi) vals
        /\ forall q, In (Some q) vals -> (lo <= q <= hi)%Q)
  /\ (forall TolRainbow23 Turbo256 frame col,
         get_column col frame = Ok (float_col []) ->
         create_cmap TolRainbow23 Turbo256 frame col = Raise ValueError).
Proof.
  split.
  - intros Tol Turbo frame col vals Hcol Hne Hfin.
    destruct (py_min_finite vals Hne Hfin) as (lo & Hmin & Hlo & Hle).
    destruct (py_max_finite vals Hne Hfin) as (hi & Hmax & Hhi & Hge).
    exists lo, hi. unfold create_cmap. rewrite Hcol. simpl. rewrite Hmin, Hmax. simpl.
    split.
    + unfold Qltb. rewrite negb_involutive. now destruct (Qle_bool 0 lo).
    + split; [exact Hlo|]. split; [exact Hhi|]. intros q Hq. split; auto.
  - intros Tol Turbo frame col Hcol. unfold create_cmap. now rewrite Hcol.
Qed.

Lemma create_cmap_spans_market_cap :
  get_column "Market Cap" explored = Ok (float_col [Some 50%Q; Some 150%Q])
  /\ [Some 50%Q; Some 150%Q] <> []
  /\ forallb notna [Some 50%Q; Some 150%Q] = true
  /\ exists lo hi,
       create_cmap one_colour [] explored "Market Cap"
       = Ok (if Qle_bool 0 lo
             then log_cmap "Market Cap" [] (Some lo) (Some hi)
             else linear_cmap "Market Cap" [] (Some lo) (Some hi), None)
       /\ In (Some lo) [Some 50%Q; Some 150%Q] /\ In (Some hi) [Some 50%Q; Some 150%Q]
       /\ forall q, In (Some q) [Some 50%Q; Some 150%Q] -> (lo <= q <= hi)%Q.
Proof.
  split; [reflexivity|]. split; [discriminate|]. split; [reflexivity|].
  apply (proj1 create_cmap_spans_the_feature one_colour [] explored "Market Cap"
               [Some 50%Q; Some 150%Q]);
    [reflexivity|discriminate|reflexivity].
Defined.

Lemma fold_min_from_nan (vals : list float) :
  fold_left (fun m item => if float_ltb item m then item else m) vals nan = nan.
Proof.
  induction vals as [|v vals IH]; [reflexivity|]. simpl.
  now destruct v.
Qed.

Lemma fold_max_from_nan (vals : list float) :
  fold_left (fun m item => if float_ltb m item then item else m) vals nan = nan.
Proof. induction vals as [|v vals IH]; [reflexivity|exact IH]. Qed.

(** X15 (a missing first value blinds the colour map).  When the first
    cell of a numeric column is [nan], the builtin [min] and [max] both
    return [nan], whatever the other cells are, and [create_cmap]
    returns a linear mapper whose two bounds are [nan]. *)
Theorem create_cmap_with_nan_first :
  forall TolRainbow23 Turbo256 frame col rest,
    get_column col frame = Ok (float_col (nan :: rest)) ->
    create_cmap TolRainbow23 Turbo256 frame col
    = Ok (linear_cmap col Turbo256 nan nan, None).
Proof.
  intros Tol Turbo frame col rest Hcol. unfold create_cmap. rewrite Hcol. simpl.
  fold (@nan Q). now rewrite fold_min_from_nan, fold_max_from_nan.
Qed.

Lemma create_cmap_with_nan_first_in_a_yield :
  get_column "Dividend Yield" [("Dividend Yield", float_col [nan; Some 1%Q; Some 4%Q])]
  = Ok (float_col (nan :: [Some 1%Q; Some 4%Q]))
  /\ create_cmap one_colour [] [("Dividend Yield", float_col [nan; Some 1%Q; Some 4%Q])]
                 "Dividend Yield"
     = Ok (linear_cmap "Dividend Yield" [] nan nan, None).
Proof.
  split; [reflexivity|].
  apply (create_cmap_with_nan_first one_colour []
           [("Dividend Yield", float_col [nan; Some 1%Q; Some 4%Q])]
           "Dividend Yield" [Some 1%Q; Some 4%Q]).
  reflexivity.
Defined.

(** *** The histogram counts every cell *)

Lemma indicator_over_seq (k start n : nat) :
  list_sum (map (fun i => if Nat.eqb k i then 1 else 0)%nat (seq start n))
  = if (start <=? k)%nat && (k <? start + n)%nat then 1%nat else 0%nat.
Proof.
  unfold list_sum. revert start. induction n as [|n IH]; intros start.
  - cbn [seq map fold_right].
    destruct (Nat.leb_spec start k), (Nat.ltb_spec k (start + 0)); simpl; lia.
  - cbn [seq map fold_right]. rewrite IH.
    destruct (Nat.eqb_spec k start) as [Heq|Hne];
      destruct (Nat.leb_spec (S start) k), (Nat.ltb_spec k (S start + n)),
               (Nat.leb_spec start k), (Nat.ltb_spec k (start + S n));
      simpl; lia.
Qed.

Lemma counts_with_one_more {A} (bin : A -> nat) (a : A) (l : list A) (s : list nat) :
  list_sum (map (fun i => length (List.filter (fun a => Nat.eqb (bin a) i) (a :: l))) s)
  = (list_sum (map (fun i => if Nat.eqb (bin a) i then 1 else 0)%nat s)
     + list_sum (map (fun i => length (List.filter (fun a => Nat.eqb (bin a) i) l)) s))%nat.
Proof.
  unfold list_sum. induction s as [|i s IH]; [reflexivity|].
  cbn [map fold_right]. rewrite IH. cbn [List.filter].
  destruct (Nat.eqb (bin a) i); cbn [length]; lia.
Qed.

Lemma counts_in_bins {A} (bin : A -> nat) (n : nat) (l : list A) :
  (forall a, (bin a < n)%nat) ->
  list_sum (map (fun i => length (List.filter (fun a => Nat.eqb (bin a) i) l)) (seq 0 n))
  = length l.
Proof.
  intros Hbin. induction l as [|a l IH].
  - unfold list_sum. cbn [List.filter length].
    induction (seq 0 n) as [|i s IHs]; [reflexivity|].
    cbn [map fold_right]. now rewrite IHs.
  - rewrite counts_with_one_more, IH, indicator_over_seq. specialize (Hbin a).
    destruct (Nat.leb_spec 0 (bin a)), (Nat.ltb_spec (bin a) (0 + n)); simpl; lia.
Qed.

Lemma bin_index_in_range first_edge last_edge v :
  (bin_index first_edge last_edge v < n_equal_bins)%nat.
Proof. unfold bin_index, n_equal_bins. lia. Qed.

Lemma present_length cells :
  existsb isnan cells = false -> length (present cells) = length cells.
Proof.
  induction cells as [|[q|] cells IH]; simpl; intros H; [reflexivity| |discriminate].
  now rewrite IH.
Qed.

Lemma cells_of_columns (a : DataFrame) cols :
  rmap (fun c => series_floats (snd c)) a = Ok cols ->
  length (concat cols) = cells_count a.
Proof.
  unfold cells_count, list_sum. revert cols.
  induction a as [|[n s] a IH]; intros cols H; simpl in H.
  - now injection H as <-.
  - destruct s as [v|v]; [discriminate|]. simpl in H.
    destruct (rmap (fun c => series_floats (snd c)) a) as [rest|e]; [|discriminate].
    simpl in H. injection H as <-. cbn [concat map fold_right snd series_length].
    rewrite length_app. now rewrite (IH rest eq_refl).
Qed.

Lemma no_lines_no_cells (a : DataFrame) :
  forallb (fun c => Nat.eqb (series_length (snd c)) 0) a = true -> cells_count a = 0%nat.
Proof.
  unfold cells_count, list_sum. induction a as [|c a IH]; [reflexivity|].
  cbn [forallb map fold_right]. intros H. apply andb_true_iff in H.
  destruct H as [H0 H]. apply Nat.eqb_eq in H0. rewrite H0. now rewrite IH.
Qed.

Lemma linspace_length first_edge last_edge :
  length (linspace first_edge last_edge) = S n_equal_bins.
Proof. unfold linspace. now rewrite length_map, length_seq. Qed.

Lemma np_histogram_total a :
  all_finite a ->
  exists counts edges,
    np_histogram a = Ok (counts, edges)
    /\ length counts = n_equal_bins
    /\ length edges = S n_equal_bins
    /\ list_sum counts = cells_count a.
Proof.
  intros Hfin. unfold np_histogram.
  destruct (forallb (fun c => Nat.eqb (series_length (snd c)) 0) a) eqn:Hlines.
  - eexists _, _. split; [reflexivity|]. split; [apply repeat_length|].
    split; [apply linspace_length|]. now rewrite (no_lines_no_cells a Hlines).
  - destruct (all_finite_floats a Hfin) as (cols & Hcols & Hnan & Hnil).
    rewrite Hcols. cbv beta iota delta [rbind]. rewrite Hnan.
    assert (Hlen : length (present (concat cols)) = cells_count a).
    { etransitivity; [apply present_length; exact Hnan|].
      exact (cells_of_columns a cols Hcols). }
    destruct (present (concat cols)) as [|v rest] eqn:Hp.
    + apply present_nil in Hp; [|exact Hnan].
      rewrite (Hnil Hp) in Hlines. discriminate.
    + eexists _, _. split; [reflexivity|].
      split; [now rewrite length_map, length_seq|].
      split; [apply linspace_length|].
      rewrite <- Hlen. apply counts_in_bins. intros q. apply bin_index_in_range.
Qed.

(** *** Selecting lines by label *)

Lemma take_in_range {A} (labels : list nat) (values : list A) :
  (forall i, In i labels -> (i < length values)%nat) ->
  exists taken,
    take labels values = Ok taken
    /\ length taken = length labels
    /\ forall v, In v taken -> In v values.
Proof.
  unfold take. induction labels as [|i labels IH]; intros Hin.
  - exists []. split; [reflexivity|]. split; [reflexivity|]. intros v [].
  - destruct IH as (taken & Htake & Hlen & Hsub).
    { intros j Hj. apply Hin. now right. }
    destruct (nth_error values i) as [v|] eqn:E.
    + exists (v :: taken). cbn [rmap]. rewrite E. cbn [rbind]. rewrite Htake. cbn [rbind].
      split; [reflexivity|]. split; [simpl; now rewrite Hlen|].
      intros w [<-|Hw]; [now apply nth_error_In in E|now apply Hsub].
    + apply nth_error_None in E. specialize (Hin i (or_introl eq_refl)). lia.
Qed.

Lemma take_out_of_range {A} (labels : list nat) (values : list A) i :
  In i labels -> (length values <= i)%nat -> take labels values = Raise KeyError.
Proof.
  unfold take. induction labels as [|j labels IH]; intros Hin Hi; [destruct Hin|].
  cbn [rmap]. destruct (nth_error values j) as [v|] eqn:E; [|reflexivity].
  cbn [rbind]. destruct Hin as [->|Hin].
  - apply nth_error_None in Hi. congruence.
  - now rewrite (IH Hin Hi).
Qed.

Lemma forallb_taken (taken values : list float) :
  (forall v, In v taken -> In v values) ->
  forallb notna values = true -> forallb notna taken = true.
Proof.
  intros Hsub Hfin. apply forallb_forall. intros v Hv.
  rewrite forallb_forall in Hfin. apply Hfin. now apply Hsub.
Qed.

Lemma get_column_raises name (t : DataFrame) e :
  get_column name t = Raise e -> e = KeyError.
Proof.
  induction t as [|[n s] t IH]; simpl; [congruence|].
  destruct (String.eqb n name); [discriminate|exact IH].
Qed.

Lemma draw_hist_run df col v1 v2 v3 sel t1 t2 t3 :
  get_column "PCA 1" df = Ok (float_col v1) ->
  get_column "PCA 2" df = Ok (float_col v2) ->
  get_column col df = Ok (float_col v3) ->
  take sel v1 = Ok t1 -> take sel v2 = Ok t2 -> take sel v3 = Ok t3 ->
  draw_hist df col sel
  = rbind (np_histogram [("PCA 1", float_col v1); ("PCA 2", float_col v2);
                         (col, float_col v3)]) (fun h =>
    rbind (np_histogram [("PCA 1", float_col t1); ("PCA 2", float_col t2);
                         (col, float_col t3)]) (fun h_s =>
    rbind (np_max (fst h)) (fun top_max =>
      Ok {| top := fst h;
            top_s := fst h_s;
            left := removelast (snd h);
            right := tl (snd h);
            hist_y_range_end := ((11 # 10) * inject_Z (Z.of_nat top_max))%Q;
            hist_title := "Histogram of " ++ col |}))).
Proof.
  intros H1 H2 H3 T1 T2 T3. unfold draw_hist, loc.
  rewrite (get_columns_finite df col v1 v2 v3 H1 H2 H3).
  cbn [rbind rmap snd fst series_take]. rewrite T1, T2, T3. reflexivity.
Qed.

Lemma three_finite_columns n1 n2 n3 v1 v2 v3 :
  forallb notna v1 = true -> forallb notna v2 = true -> forallb notna v3 = true ->
  all_finite [(n1, float_col v1); (n2, float_col v2); (n3, float_col v3)].
Proof.
  intros F1 F2 F3 c [<-|[<-|[<-|[]]]]; eexists; split; simpl; eauto.
Qed.

Lemma removelast_length {A} (l : list A) : length (removelast l) = pred (length l).
Proof.
  induction l as [|a [|b l] IH]; [reflexivity|reflexivity|].
  change (removelast (a :: b :: l)) with (a :: removelast (b :: l)).
  cbn [length] in *. now rewrite IH.
Qed.

Lemma tl_length {A} (l : list A) : length (tl l) = pred (length l).
Proof. now destruct l. Qed.

Lemma draw_hist_counts df col v1 v2 v3 sel :
  get_column "PCA 1" df = Ok (float_col v1) ->
  get_column "PCA 2" df = Ok (float_col v2) ->
  get_column col df = Ok (float_col v3) ->
  forallb notna (v1 ++ v2 ++ v3)%list = true ->
  (forall i, In i sel ->
             (i < length v1)%nat /\ (i < length v2)%nat /\ (i < length v3)%nat) ->
  exists counts edges counts_s top_max,
    draw_hist df col sel
    = Ok {| top := counts;
            top_s := counts_s;
            left := removelast edges;
            right := tl edges;
            hist_y_range_end := ((11 # 10) * inject_Z (Z.of_nat top_max))%Q;
            hist_title := "Histogram of " ++ col |}
    /\ length counts = n_equal_bins /\ length counts_s = n_equal_bins
    /\ length edges = S n_equal_bins
    /\ list_sum counts = (length v1 + length v2 + length v3)%nat
    /\ list_sum counts_s = (3 * length sel)%nat.
Proof.
  intros H1 H2 H3 Hfin Hsel.
  rewrite !forallb_app in Hfin.
  apply andb_true_iff in Hfin. destruct Hfin as [F1 F23].
  apply andb_true_iff in F23. destruct F23 as [F2 F3].
  destruct (take_in_range sel v1) as (t1 & T1 & L1 & S1); [intros i Hi; now apply Hsel|].
  destruct (take_in_range sel v2) as (t2 & T2 & L2 & S2); [intros i Hi; now apply Hsel|].
  destruct (take_in_range sel v3) as (t3 & T3 & L3 & S3); [intros i Hi; now apply Hsel|].
  rewrite (draw_hist_run df col v1 v2 v3 sel t1 t2 t3 H1 H2 H3 T1 T2 T3).
  destruct (np_histogram_total _ (three_finite_columns "PCA 1" "PCA 2" col _ _ _ F1 F2 F3))
    as (counts & edges & Hh & Hlen & Hedges & Hsum).
  destruct (np_histogram_total _
              (three_finite_columns "PCA 1" "PCA 2" col _ _ _
                 (forallb_taken _ _ S1 F1) (forallb_taken _ _ S2 F2)
                 (forallb_taken _ _ S3 F3)))
    as (counts_s & edges_s & Hh_s & Hlen_s & _ & Hsum_s).
  destruct (np_max_nonempty counts) as (n & Hn).
  { intros ->. discriminate Hlen. }
  rewrite Hh, Hh_s. cbn [rbind fst snd]. rewrite Hn.
  exists counts, edges, counts_s, n. split; [reflexivity|].
  unfold cells_count in Hsum, Hsum_s. cbn in Hsum, Hsum_s.
  repeat split; try assumption; lia.
Qed.

(** X16 (the histogram counts every cell).  When the feature column and
    the two component columns are numeric and hold no [nan], and every
    selected label is a line of the frame, [draw_hist] returns a
    histogram of ten bins with ten left and ten right edges.  The counts
    for all points add up to the number of cells of the three columns
    and the counts for the selection to three times the number of
    selected labels: the values of ['PCA 1'], ['PCA 2'] and the feature
    are pooled into one histogram, and a label selected twice is counted
    twice. *)
Theorem histogram_counts_every_cell :
  forall df col v1 v2 v3 sel,
    get_column "PCA 1" df = Ok (float_col v1) ->
    get_column "PCA 2" df = Ok (float_col v2) ->
    get_column col df = Ok (float_col v3) ->
    forallb notna (v1 ++ v2 ++ v3)%list = true ->
    (forall i, In i sel ->
               (i < length v1)%nat /\ (i < length v2)%nat /\ (i < length v3)%nat) ->
    exists ph,
      draw_hist df col sel = Ok ph
      /\ list_sum (top ph) = (length v1 + length v2 + length v3)%nat
      /\ list_sum (top_s ph) = (3 * length sel)%nat
      /\ length (top ph) = 10%nat /\ length (top_s ph) = 10%nat
      /\ length (left ph) = 10%nat /\ length (right ph) = 10%nat.
Proof.
  intros df col v1 v2 v3 sel H1 H2 H3 Hfin Hsel.
  destruct (draw_hist_counts df col v1 v2 v3 sel H1 H2 H3 Hfin Hsel)
    as (counts & edges & counts_s & n & Hph & Hlen & Hlen_s & Hedges & Hsum & Hsum_s).
  eexists. split; [exact Hph|]. cbn [top top_s left right].
  rewrite removelast_length, tl_length, Hedges.
  unfold n_equal_bins in *. repeat split; assumption.
Qed.

Lemma histogram_counts_every_cell_of_explored :
  get_column "PCA 1" explored = Ok (float_col [Some 50%Q; Some 150%Q])
  /\ get_column "PCA 2" explored = Ok (float_col [Some 2%Q; Some 3%Q])
  /\ get_column "Mean Recommendation" explored = Ok (float_col [Some 2%Q; Some 3%Q])
  /\ forallb notna ([Some 50%Q; Some 150%Q] ++ [Some 2%Q; Some 3%Q]
                    ++ [Some 2%Q; Some 3%Q])%list = true
  /\ (forall i, In i [1; 1; 0]%nat -> (i < 2)%nat /\ (i < 2)%nat /\ (i < 2)%nat)
  /\ exists ph,
       draw_hist explored "Mean Recommendation" [1; 1; 0]%nat = Ok ph
       /\ list_sum (top ph) = 6%nat
       /\ list_sum (top_s ph) = 9%nat
       /\ length (top ph) = 10%nat /\ length (top_s ph) = 10%nat
       /\ length (left ph) = 10%nat /\ length (right ph) = 10%nat.
Proof.
  repeat (split; [reflexivity|]).
  assert (Hsel : forall i, In i [1; 1; 0]%nat -> (i < 2)%nat /\ (i < 2)%nat /\ (i < 2)%nat).
  { intros i Hi. simpl in Hi. lia. }
  split; [exact Hsel|].
  apply (histogram_counts_every_cell explored "Mean Recommendation"
           [Some 50%Q; Some 150%Q] [Some 2%Q; Some 3%Q] [Some 2%Q; Some 3%Q]
           [1; 1; 0]%nat);
    [reflexivity|reflexivity|reflexivity|reflexivity|exact Hsel].
Defined.

(** X17 (labels and columns that do not exist).  [draw_hist] raises
    [KeyError] when the feature is not a column of the frame, and also
    when one of the selected labels is not a line of it; in both cases
    it fails in its first statement, before any histogram is
    computed. *)
Theorem draw_hist_raises_KeyError :
  (forall df col sel,
      get_column col df = Raise KeyError ->
      loc df sel (hist_columns col) = Raise KeyError
      /\ draw_hist df col sel = Raise KeyError)
  /\ (forall df col sel s i,
         get_column "PCA 1" df = Ok s ->
         In i sel ->
         (series_length s <= i)%nat ->
         loc df sel (hist_columns col) = Raise KeyError
         /\ draw_hist df col sel = Raise KeyError).
Proof.
  assert (Hloc : forall df col sel,
             loc df sel (hist_columns col) = Raise KeyError ->
             loc df sel (hist_columns col) = Raise KeyError
             /\ draw_hist df col sel = Raise KeyError).
  { intros df col sel H. split; [exact H|]. unfold draw_hist. now rewrite H. }
  split.
  - intros df col sel Hcol. apply Hloc. unfold loc, get_columns, hist_columns.
    cbn [rmap].
    destruct (get_column "PCA 1" df) as [s1|e] eqn:E1;
      [|now rewrite (get_column_raises _ _ _ E1)].
    destruct (get_column "PCA 2" df) as [s2|e] eqn:E2;
      [|now rewrite (get_column_raises _ _ _ E2)].
    now rewrite Hcol.
  - intros df col sel s i H1 Hin Hi. apply Hloc. unfold loc, get_columns, hist_columns.
    cbn [rmap]. rewrite H1.
    destruct (get_column "PCA 2" df) as [s2|e] eqn:E2;
      [|now rewrite (get_column_raises _ _ _ E2)].
    destruct (get_column col df) as [s3|e] eqn:E3;
      [|now rewrite (get_column_raises _ _ _ E3)].
    cbn [rbind rmap snd fst].
    assert (Htake : series_take sel s = Raise KeyError).
    { destruct s as [v|v]; cbn [series_take series_length] in *;
        now rewrite (take_out_of_range sel v i Hin Hi). }
    now rewrite Htake.
Qed.

Lemma draw_hist_raises_KeyError_on_explored :
  (get_column "Dividend Yield" explored = Raise KeyError
   /\ loc explored [] (hist_columns "Dividend Yield") = Raise KeyError
   /\ draw_hist explored "Dividend Yield" [] = Raise KeyError)
  /\ (get_column "PCA 1" explored = Ok (float_col [Some 50%Q; Some 150%Q])
      /\ In 2%nat [0; 2]%nat
      /\ (series_length (float_col [Some 50%Q; Some 150%Q]) <= 2)%nat
      /\ loc explored [0; 2]%nat (hist_columns "Market Cap") = Raise KeyError
      /\ draw_hist explored "Market Cap" [0; 2]%nat = Raise KeyError).
Proof.
  split.
  - split; [reflexivity|].
    apply (proj1 draw_hist_raises_KeyError explored "Dividend Yield" []). reflexivity.
  - split; [reflexivity|]. split; [simpl; auto|]. split; [simpl; lia|].
    apply (proj2 draw_hist_raises_KeyError explored "Market Cap" [0; 2]%nat
             (float_col [Some 50%Q; Some 150%Q]) 2%nat);
      [reflexivity|simpl; auto|simpl; lia].
Defined.

(** *** Features of object dtype *)

Lemma create_cmap_object_fails Tol Turbo df col values :
  Tol <> [] ->
  get_column col df = Ok (object_col values) ->
  create_cmap Tol Turbo df col = Raise TypeError.
Proof.
  intros Hne H. destruct Tol as [|colour palette]; [congruence|].
  now apply (create_cmap_object_raises colour palette Turbo df col values).
Qed.

Lemma plot_pca_object_fails Tol Turbo df col values :
  Tol <> [] ->
  get_column col df = Ok (object_col values) ->
  plot_pca Tol Turbo df col = Raise TypeError.
Proof.
  intros Hne H. unfold plot_pca.
  now rewrite (create_cmap_object_fails Tol Turbo df col values Hne H).
Qed.

Lemma draw_subplot_object_fails Tol Turbo df col values sel :
  Tol <> [] ->
  get_column col df = Ok (object_col values) ->
  is_ok (draw_subplot Tol Turbo df col sel) = false.
Proof.
  intros Hne H. unfold draw_subplot, draw_bar_chart. rewrite H. cbn [rbind is_numeric_dtype].
  destruct (loc df sel (hist_columns col)) as [s|e]; [|reflexivity].
  cbn [rbind].
  now rewrite (create_cmap_object_fails Tol Turbo df col values Hne H).
Qed.

(** *** The bar chart *)

Lemma create_cmap_palette Tol Turbo df col cm :
  create_cmap Tol Turbo df col = Ok cm ->
  forall k, is_ok (subscript (snd cm) k) = false.
Proof.
  unfold create_cmap. destruct (get_column col df) as [[values|values]|e];
    cbn [rbind]; [| |discriminate].
  - destruct Tol as [|colour palette].
    + cbn. intros H. injection H as <-. intros k. cbn. now destruct k.
    + now rewrite dict_of_palette_ndarray.
  - destruct (py_min values) as [low|e]; cbn [rbind]; [|discriminate].
    destruct (py_max values) as [high|e]; cbn [rbind]; [|discriminate].
    destruct (notna low && negb (float_ltb low (Some 0%Q))); intros H;
      injection H as <-; reflexivity.
Qed.

(** X25 (the bar chart is never drawn).  [draw_bar_chart] raises on
    every frame, column and selection, whatever the palettes are: for a
    column of strings the dictionary of colours cannot be built (or is
    empty, with an empty palette), for a numeric column there is no
    dictionary at all, and a column without any value has no greatest
    count.  So a subplot that [draw_subplot] returns is always the
    histogram of a numeric column. *)
Theorem draw_bar_chart_never_returns :
  forall Tol Turbo df col sel,
    is_ok (draw_bar_chart Tol Turbo df col sel) = false
    /\ forall p,
         draw_subplot Tol Turbo df col sel = Ok p ->
         exists ph v,
           p = hist_plot ph
           /\ draw_hist df col sel = Ok ph
           /\ get_column col df = Ok (float_col v).
Proof.
  intros Tol Turbo df col sel.
  assert (Hbar : is_ok (draw_bar_chart Tol Turbo df col sel) = false).
  { unfold draw_bar_chart.
    destruct (loc df sel (hist_columns col)) as [s|e]; [|reflexivity].
    cbn [rbind]. destruct (get_column col df) as [column|e]; [|reflexivity].
    cbn [rbind]. destruct (create_cmap Tol Turbo df col) as [cm|e] eqn:Ecm; [|reflexivity].
    cbn [rbind]. pose proof (create_cmap_palette Tol Turbo df col cm Ecm) as Hsub.
    destruct (value_counts column) as [|d dis]; [reflexivity|].
    cbn [map length seq rmap]. specialize (Hsub (py_int (Z.of_nat 0))).
    destruct (subscript (snd cm) (py_int (Z.of_nat 0))); [discriminate Hsub|reflexivity]. }
  split; [exact Hbar|].
  intros p. unfold draw_subplot.
  destruct (get_column col df) as [[values|values]|e]; cbn [rbind is_numeric_dtype];
    [| |discriminate].
  - destruct (draw_bar_chart Tol Turbo df col sel); [discriminate Hbar|discriminate].
  - destruct (draw_hist df col sel) as [ph|e]; cbn [rbind]; [|discriminate].
    intros H. injection H as <-. exists ph, values. repeat split.
Qed.

(** *** The PCA plot *)

(** X26 (what the PCA plot is coloured by).  With a palette of at least
    one colour, a PCA plot that [plot_pca] returns is coloured by a
    numeric feature: it has a colour bar and no legend, its title names
    the feature, and the bounds of its colour mapper are the [min] and
    [max] of the feature.  The mapper however reads the field ['y'] of
    the data source, which holds the second principal component, not
    the feature. *)
Theorem pca_plot_is_coloured_by_y :
  forall Tol Turbo df c p,
    Tol <> [] ->
    plot_pca Tol Turbo df c = Ok p ->
    exists vals low high,
      get_column c df = Ok (float_col vals)
      /\ py_min vals = Ok low /\ py_max vals = Ok high
      /\ pca_title p = ("PCA with Color Map on " ++ c)%string
      /\ color_bar p = true /\ legend_on_the_left p = false
      /\ (fill_color p = log_cmap "y" Turbo low high
          \/ fill_color p = linear_cmap "y" Turbo low high)
      /\ (fill_color p = log_cmap "y" Turbo low high
          <-> exists q, low = Some q /\ (0 <= q)%Q).
Proof.
  intros Tol Turbo df c p Hne. unfold plot_pca.
  destruct (get_column c df) as [[values|values]|e] eqn:Hcol.
  - now rewrite (create_cmap_object_fails Tol Turbo df c values Hne Hcol).
  - unfold create_cmap. rewrite Hcol. cbn [rbind].
    destruct (py_min values) as [low|e] eqn:Hmin; cbn [rbind]; [|discriminate].
    destruct (py_max values) as [high|e] eqn:Hmax; cbn [rbind]; [|discriminate].
    assert (Hlog : notna low && negb (float_ltb low (Some 0%Q)) = true
                   <-> exists q, low = Some q /\ (0 <= q)%Q).
    { destruct low as [q|]; cbn.
      - unfold Qltb. rewrite negb_involutive. rewrite Qle_bool_iff. split.
        + intros H. now exists q.
        + intros (q' & Hq & H). now injection Hq as ->.
      - split; [discriminate|]. intros (q & Hq & _). discriminate. }
    destruct (notna low && negb (float_ltb low (Some 0%Q))); cbn [rbind fst];
      intros H; injection H as <-; exists values, low, high;
      (split; [reflexivity|]); (split; [exact Hmin|]); (split; [exact Hmax|]);
      cbn; repeat (split; [reflexivity|]).
    + split; [now left|]. split; [intros _; now apply Hlog|reflexivity].
    + split; [now right|]. split; [discriminate|].
      intros Hq. apply Hlog in Hq. discriminate.
  - unfold create_cmap. rewrite Hcol. discriminate.
Qed.

Lemma pca_plot_of_market_cap_is_coloured_by_y :
  exists p,
    one_colour <> []
    /\ plot_pca one_colour [] explored "Market Cap" = Ok p
    /\ exists vals low high,
         get_column "Market Cap" explored = Ok (float_col vals)
         /\ py_min vals = Ok low /\ py_max vals = Ok high
         /\ pca_title p = "PCA with Color Map on Market Cap"
         /\ color_bar p = true /\ legend_on_the_left p = false
         /\ (fill_color p = log_cmap "y" [] low high
             \/ fill_color p = linear_cmap "y" [] low high)
         /\ (fill_color p = log_cmap "y" [] low high
             <-> exists q, low = Some q /\ (0 <= q)%Q).
Proof.
  eexists. split; [discriminate|]. split; [reflexivity|].
  apply (pca_plot_is_coloured_by_y one_colour [] explored "Market Cap");
    [discriminate|reflexivity].
Defined.

End ExplorerExtras.

(** ** Further properties of the explorer session *)

Section SessionExtras.
Import DvcEx3 ExplorerExamples ExplorerStatements ExplorerNotions.
Local Open Scope list_scope.

Context (rng : Type)
        (np_random_seed : Z -> rng)
        (MinMaxScaler_fit_transform : DataFrame -> result ndarray)
        (SimpleImputer_mean_fit_transform : ndarray -> result ndarray)
        (PCA_fit_transform : nat -> ndarray -> rng -> result ndarray * rng)
        (MiniBatchKMeans_fit_labels :
           nat -> nat -> DataFrame -> rng -> result (list Z) * rng)
        (TolRainbow23 Turbo256 : list string).

Local Abbreviation pca :=
  (DvcEx3.pca rng MinMaxScaler_fit_transform SimpleImputer_mean_fit_transform
              PCA_fit_transform).
Local Abbreviation pipeline :=
  (DvcEx3.pipeline rng np_random_seed MinMaxScaler_fit_transform
                   SimpleImputer_mean_fit_transform PCA_fit_transform
                   MiniBatchKMeans_fit_labels).
Local Abbreviation plotting :=
  (DvcEx3.plotting TolRainbow23 Turbo256 rng np_random_seed
                   MinMaxScaler_fit_transform SimpleImputer_mean_fit_transform
                   PCA_fit_transform MiniBatchKMeans_fit_labels).
Local Abbreviation startup :=
  (DvcEx3.startup TolRainbow23 Turbo256 rng np_random_seed
                  MinMaxScaler_fit_transform SimpleImputer_mean_fit_transform
                  PCA_fit_transform MiniBatchKMeans_fit_labels).
Local Abbreviation step := (DvcEx3.step TolRainbow23 Turbo256 rng).
Local Abbreviation run_session := (ExplorerNotions.run_session TolRainbow23 Turbo256 rng).
Local Abbreviation update_pca_col := (DvcEx3.update_pca_col TolRainbow23 Turbo256 rng).
Local Abbreviation update_sub_col := (DvcEx3.update_sub_col TolRainbow23 Turbo256 rng).
Local Abbreviation lasso_update := (DvcEx3.lasso_update TolRainbow23 Turbo256 rng).
Local Abbreviation plot_pca := (DvcEx3.plot_pca TolRainbow23 Turbo256).
Local Abbreviation draw_subplot := (DvcEx3.draw_subplot TolRainbow23 Turbo256).

(** *** The setup *)

Lemma assigned_column n s (t t' : DataFrame) :
  assign_column n s t = Ok t' -> t' = set_column n s t.
Proof.
  unfold assign_column. destruct (length_matches s t); [|discriminate].
  intros H. now injection H.
Qed.

(** What a successful pipeline has computed and stored. *)
Lemma pipeline_result (r : ref) (m : memory rng) (t : DataFrame) :
  heap m !! r = Some t ->
  forall r', fst (pipeline r m) = Ok r' ->
  exists X_scaled X_imp X_pca c0 c1 labels g1 g2 t1,
    MinMaxScaler_fit_transform (iloc_columns_from 5 t) = Ok X_scaled
    /\ SimpleImputer_mean_fit_transform X_scaled = Ok X_imp
    /\ PCA_fit_transform 2 X_imp (np_random m) = (Ok X_pca, g1)
    /\ array_column X_pca 0 = Ok c0
    /\ array_column X_pca 1 = Ok c1
    /\ MiniBatchKMeans_fit_labels 2 2 (filter_PCA t1) (np_random_seed 0) = (Ok labels, g2)
    /\ r' = r
    /\ heap (snd (pipeline r m)) !! r = Some t1
    /\ np_random (snd (pipeline r m)) = g2
    /\ get_column "PCA 1" t1 = Ok (float_col c0)
    /\ get_column "PCA 2" t1 = Ok (float_col c1)
    /\ get_column "Cluster" t1 = Ok (astype_str_labels labels).
Proof.
  intros H r'. rewrite (pipeline_run rng np_random_seed MinMaxScaler_fit_transform
                          SimpleImputer_mean_fit_transform PCA_fit_transform
                          MiniBatchKMeans_fit_labels r m t H).
  unfold pca_outcome.
  destruct (MinMaxScaler_fit_transform (iloc_columns_from 5 t)) as [X_scaled|e] eqn:E1;
    [|discriminate].
  destruct (SimpleImputer_mean_fit_transform X_scaled) as [X_imp|e] eqn:E2;
    [|discriminate].
  destruct (PCA_fit_transform 2 X_imp (np_random m)) as [[X_pca|e] g1] eqn:E3;
    [|discriminate].
  destruct (array_column X_pca 0) as [c0|e] eqn:E4; [|discriminate].
  destruct (assign_column "PCA 1" (float_col c0) t) as [ta|e] eqn:Ea; [|discriminate].
  destruct (array_column X_pca 1) as [c1|e] eqn:E5; [|discriminate].
  destruct (assign_column "PCA 2" (float_col c1) ta) as [tb|e] eqn:Eb; [|discriminate].
  apply assigned_column in Ea, Eb.
  assert (Hb : heap {| heap := <[r := tb]> (heap m); np_random := g1 |} !! r = Some tb).
  { apply (lookup_stored _ _ _ _ H). }
  rewrite (clustering_run rng np_random_seed MiniBatchKMeans_fit_labels r 2 _ tb Hb).
  unfold clustering_outcome.
  destruct (MiniBatchKMeans_fit_labels 2 2 (filter_PCA tb) (np_random_seed 0))
    as [[labels|e] g2] eqn:Hfit; [|discriminate].
  destruct (assign_column "Cluster" (astype_str_labels labels) tb) as [tc|e] eqn:Ec;
    [|discriminate].
  apply assigned_column in Ec. cbn [fst snd heap np_random]. intros Hr.
  exists X_scaled, X_imp, X_pca, c0, c1, labels, g1, g2, tc.
  split; [reflexivity|]. split; [exact E2|]. split; [exact E3|].
  split; [exact E4|]. split; [exact E5|].
  split.
  { rewrite Ec, filter_PCA_set_column by reflexivity. exact Hfit. }
  split; [now injection Hr|]. split; [apply (lookup_stored _ _ _ _ Hb)|].
  split; [reflexivity|]. rewrite Ec, Eb, Ea.
  split; [|split].
  - rewrite !get_column_set_column_ne by discriminate. apply get_column_set_column_eq.
  - rewrite get_column_set_column_ne by discriminate. apply get_column_set_column_eq.
  - apply get_column_set_column_eq.
Qed.

Lemma plotting_result (r : ref) (m : memory rng) (t : DataFrame) (s : session rng) :
  heap m !! r = Some t ->
  fst (plotting r m) = Ok s ->
  exists frame X_scaled X_imp X_pca c0 c1 labels market_cap g1 g2,
    MinMaxScaler_fit_transform (iloc_columns_from 5 t) = Ok X_scaled
    /\ SimpleImputer_mean_fit_transform X_scaled = Ok X_imp
    /\ PCA_fit_transform 2 X_imp (np_random m) = (Ok X_pca, g1)
    /\ array_column X_pca 0 = Ok c0
    /\ array_column X_pca 1 = Ok c1
    /\ MiniBatchKMeans_fit_labels 2 2 (filter_PCA frame) (np_random_seed 0) = (Ok labels, g2)
    /\ np_random (mem s) = g2
    /\ heap (mem s) !! r = Some frame
    /\ df s = r /\ pca_data s = r
    /\ get_column "PCA 1" frame = Ok (float_col c0)
    /\ get_column "PCA 2" frame = Ok (float_col c1)
    /\ get_column "Cluster" frame = Ok (astype_str_labels labels)
    /\ get_column "Market Cap" frame = Ok market_cap
    /\ get_column "label" frame = Ok market_cap
    /\ p_pca_source_label s = label_column market_cap
    /\ plot_pca frame "Market Cap" = Ok (layout_p_pca s)
    /\ draw_subplot frame "Mean Recommendation" [] = Ok (layout_p_sub s)
    /\ sub_ft_selected s = "Mean Recommendation"
    /\ points_selected s = [].
Proof.
  intros H Hs. remember (plotting r m) as run eqn:Hrun.
  unfold DvcEx3.plotting in Hrun.
  unfold bind at 1 in Hrun.
  pose proof (pipeline_result r m t H) as Hc.
  destruct (pipeline r m) as [[r'|e] m1]; cbn [fst snd] in *.
  2:{ subst run. discriminate Hs. }
  destruct (Hc r' eq_refl)
    as (X_scaled & X_imp & X_pca & c0 & c1 & labels & g1 & g2 & t1
        & E1 & E2 & E3 & E4 & E5 & Hfit & -> & H1 & Hg & Hp1 & Hp2 & Hcluster).
  clear Hc.
  unfold bind at 1 in Hrun. unfold deref at 1 in Hrun. rewrite H1 in Hrun.
  unfold bind at 1 in Hrun. unfold lift at 1 in Hrun.
  destruct (get_column "Market Cap" t1) as [label|e] eqn:Hcap.
  2:{ subst run. discriminate Hs. }
  unfold bind at 1 in Hrun.
  rewrite (setitem_run rng r _ _ _ t1 H1) in Hrun.
  unfold assign_column in Hrun.
  destruct (length_matches label t1).
  2:{ subst run. discriminate Hs. }
  set (t2 := set_column "label" label t1) in *.
  assert (H2 : heap (with_heap (<[r := t2]> (heap m1)) m1) !! r = Some t2).
  { apply (lookup_stored _ _ _ _ H1). }
  set (m2 := with_heap (<[r := t2]> (heap m1)) m1) in *.
  unfold bind at 1 in Hrun. unfold deref at 1 in Hrun. rewrite H2 in Hrun.
  unfold bind at 1 in Hrun. unfold lift at 1 in Hrun.
  assert (Hlabel : get_column "label" t2 = Ok label)
    by apply get_column_set_column_eq.
  rewrite Hlabel in Hrun.
  unfold bind at 1 in Hrun. unfold lift at 1 in Hrun.
  destruct (plot_pca t2 "Market Cap") as [p_pca|e] eqn:Hpca.
  2:{ subst run. discriminate Hs. }
  unfold bind at 1 in Hrun. unfold lift at 1 in Hrun.
  destruct (draw_subplot t2 "Mean Recommendation" []) as [p_sub|e] eqn:Hsub.
  2:{ subst run. discriminate Hs. }
  unfold bind, gets, ret, id in Hrun. subst run. cbn [fst snd] in Hs.
  injection Hs as <-. cbn [mem df DvcEx3.pca_data p_pca_source_label layout_p_pca
                           layout_p_sub sub_ft_selected points_selected].
  exists t2, X_scaled, X_imp, X_pca, c0, c1, labels, label, g1, g2.
  repeat (split; [assumption|]).
  split; [unfold t2; rewrite filter_PCA_set_column by reflexivity; exact Hfit|].
  split; [exact Hg|].
  split; [exact H2|]. split; [reflexivity|]. split; [reflexivity|].
  split; [unfold t2; rewrite get_column_set_column_ne by discriminate; exact Hp1|].
  split; [unfold t2; rewrite get_column_set_column_ne by discriminate; exact Hp2|].
  split; [unfold t2; rewrite get_column_set_column_ne by discriminate; exact Hcluster|].
  split; [unfold t2; rewrite get_column_set_column_ne by discriminate; exact Hcap|].
  split; [exact Hlabel|]. split; [reflexivity|].
  split; [exact Hpca|]. split; [exact Hsub|]. split; reflexivity.
Qed.

(** *** The handlers, given the frame *)

Lemma update_pca_col_run (s : session rng) (new : string) :
  update_pca_col new s
  = (Raise ValueError, set_p_pca_source_label rng (label_name new) s).
Proof. reflexivity. Qed.

Lemma update_sub_col_run (s : session rng) (frame : DataFrame) (new : string) :
  heap (mem s) !! df s = Some frame ->
  update_sub_col new s
  = match draw_subplot frame new (points_selected s) with
    | Ok p => (Ok tt, set_layout_p_sub rng p (set_sub_ft_selected rng new s))
    | Raise e => (Raise e, set_sub_ft_selected rng new s)
    end.
Proof.
  intros H. unfold DvcEx3.update_sub_col, the_df, bind, modify, gets, lift, deref, id.
  cbn [fst snd mem df sub_ft_selected points_selected set_sub_ft_selected]. rewrite H.
  now destruct (draw_subplot frame new (points_selected s)).
Qed.

Lemma lasso_update_run (s : session rng) (frame : DataFrame) (new : list nat) :
  heap (mem s) !! df s = Some frame ->
  lasso_update new s
  = match draw_subplot frame (sub_ft_selected s) new with
    | Ok p => (Ok tt, set_layout_p_sub rng p (set_points_selected rng new s))
    | Raise e => (Raise e, set_points_selected rng new s)
    end.
Proof.
  intros H. unfold DvcEx3.lasso_update, the_df, bind, modify, gets, lift, deref, id.
  cbn [fst snd mem df sub_ft_selected points_selected set_points_selected]. rewrite H.
  now destruct (draw_subplot frame (sub_ft_selected s) new).
Qed.

Lemma step_df (s : session rng) (ev : event) : df (step s ev) = df s.
Proof.
  destruct ev; unfold DvcEx3.step, deliver,
    DvcEx3.update_pca_col, DvcEx3.update_sub_col, DvcEx3.lasso_update,
    the_df, bind, modify, gets, lift, id;
    cbn [fst snd];
    repeat match goal with
           | |- context [match ?e with _ => _ end] => destruct e
           end; reflexivity.
Qed.

Lemma run_session_frame (evs : list event) (s : session rng) :
  mem (run_session evs s) = mem s /\ df (run_session evs s) = df s.
Proof.
  unfold ExplorerNotions.run_session. revert s.
  induction evs as [|ev evs IH]; intros s; [split; reflexivity|].
  cbn [fold_left]. destruct (IH (step s ev)) as [-> ->].
  split; [apply step_mem|apply step_df].
Qed.

Lemma step_layout_p_pca (s : session rng) (ev : event) :
  layout_p_pca (step s ev) = layout_p_pca s.
Proof.
  destruct ev as [new|new|new]; unfold DvcEx3.step, deliver.
  - now rewrite update_pca_col_run.
  - unfold DvcEx3.update_sub_col, the_df, bind, modify, gets, lift, id; cbn [fst snd];
      repeat match goal with
             | |- context [match ?e with _ => _ end] => destruct e
             end; reflexivity.
  - unfold DvcEx3.lasso_update, the_df, bind, modify, gets, lift, id; cbn [fst snd];
      repeat match goal with
             | |- context [match ?e with _ => _ end] => destruct e
             end; reflexivity.
Qed.

Lemma run_session_layout_p_pca (evs : list event) (s : session rng) :
  layout_p_pca (run_session evs s) = layout_p_pca s.
Proof.
  unfold ExplorerNotions.run_session. revert s.
  induction evs as [|ev evs IH]; intros s; [reflexivity|].
  cbn [fold_left]. rewrite IH. apply step_layout_p_pca.
Qed.

(** X18 (what the setup leaves).  After a successful setup the globals
    [pca_data] and [df] name one frame.  In it ['PCA 1'] and ['PCA 2']
    are the two columns of the projection of the scaled and imputed
    columns from the sixth on of the table read, ['Cluster'] holds, as
    strings, the labels that the clustering with two clusters, two
    initialisations and the generator seeded with 0 returned on the
    columns of this frame that are named like a component, and the
    generator is left as the clustering left it; ['label'] is a copy of
    ['Market Cap'] and is the label column of the data source; the PCA
    plot is the one of this frame coloured by ['Market Cap'], the
    subplot the one of ['Mean Recommendation'] with nothing selected. *)
Theorem setup_plots_the_clustered_frame :
  forall table g s,
    fst (startup table g) = Ok s ->
    exists frame X_scaled X_imp X_pca c0 c1 labels market_cap g1,
      MinMaxScaler_fit_transform (iloc_columns_from 5 table) = Ok X_scaled
      /\ SimpleImputer_mean_fit_transform X_scaled = Ok X_imp
      /\ PCA_fit_transform 2 X_imp g = (Ok X_pca, g1)
      /\ array_column X_pca 0 = Ok c0
      /\ array_column X_pca 1 = Ok c1
      /\ MiniBatchKMeans_fit_labels 2 2 (filter_PCA frame) (np_random_seed 0)
         = (Ok labels, np_random (mem s))
      /\ heap (mem s) !! df s = Some frame
      /\ pca_data s = df s
      /\ get_column "PCA 1" frame = Ok (float_col c0)
      /\ get_column "PCA 2" frame = Ok (float_col c1)
      /\ get_column "Cluster" frame = Ok (astype_str_labels labels)
      /\ get_column "Market Cap" frame = Ok market_cap
      /\ get_column "label" frame = Ok market_cap
      /\ p_pca_source_label s = label_column market_cap
      /\ plot_pca frame "Market Cap" = Ok (layout_p_pca s)
      /\ draw_subplot frame "Mean Recommendation" [] = Ok (layout_p_sub s)
      /\ sub_ft_selected s = "Mean Recommendation"
      /\ points_selected s = [].
Proof.
  intros table g s Hs.
  destruct (plotting_result 0%nat {| heap := [table]; np_random := g |} table s
              eq_refl Hs)
    as (frame & X_scaled & X_imp & X_pca & c0 & c1 & labels & cap & g1 & g2
        & E1 & E2 & E3 & E4 & E5 & Hfit & Hg & H1 & H2 & H3 & rest).
  exists frame, X_scaled, X_imp, X_pca, c0, c1, labels, cap, g1.
  rewrite H2, H3, Hg. cbn [np_random] in E3.
  repeat (split; [assumption|]). split; [reflexivity|]. exact rest.
Qed.

(** X19 (the colour widget).  [update_pca_col] raises [ValueError] for
    every value, in every state: it writes the selected name, a string,
    into the data source as the column ['label'], which the source
    rejects, and it never reaches [plot_pca].  So in every state that a
    session reaches after a successful setup, the PCA plot in the layout
    is still the one drawn at the setup, that of the frame coloured by
    ['Market Cap'], whatever has been chosen in the widget. *)
Theorem pca_plot_is_never_replaced :
  forall table g s0 evs,
    fst (startup table g) = Ok s0 ->
    let s := run_session evs s0 in
    layout_p_pca s = layout_p_pca s0
    /\ (exists frame,
          heap (mem s) !! df s = Some frame
          /\ plot_pca frame "Market Cap" = Ok (layout_p_pca s))
    /\ forall new,
         fst (update_pca_col new s) = Raise ValueError
         /\ p_pca_source_label (step s (select_col_pca new)) = label_name new
         /\ layout_p_pca (step s (select_col_pca new)) = layout_p_pca s
         /\ layout_p_sub (step s (select_col_pca new)) = layout_p_sub s.
Proof.
  intros table g s0 evs Hs0 s.
  destruct (plotting_result 0%nat {| heap := [table]; np_random := g |} table s0
              eq_refl Hs0)
    as (frame & X_scaled & X_imp & X_pca & c0 & c1 & labels & cap & g1 & g2
        & _ & _ & _ & _ & _ & _ & _ & H1 & H2 & _ & _ & _ & _ & _ & _ & _ & Hplot & _).
  destruct (run_session_frame evs s0) as [Hmem Hdf]. fold s in Hmem, Hdf.
  pose proof (run_session_layout_p_pca evs s0) as Hlayout. fold s in Hlayout.
  split; [exact Hlayout|]. split.
  - exists frame. rewrite Hmem, Hdf, H2, Hlayout. split; [exact H1|exact Hplot].
  - intros new. unfold DvcEx3.step, deliver. rewrite update_pca_col_run.
    repeat split.
Qed.

(** X20 (a categorical feature freezes the subplot).  With a palette of
    at least one colour, choosing a column of strings in the widget of
    the subplot raises; the choice is stored but the subplot in the
    layout stays the one it was.  From then on every lasso selection
    raises too, and the subplot never changes again, whatever is
    selected. *)
Theorem categorical_feature_freezes_the_subplot :
  forall s frame new values sels,
    TolRainbow23 <> [] ->
    heap (mem s) !! df s = Some frame ->
    get_column new frame = Ok (object_col values) ->
    let s1 := step s (select_col_sub new) in
    let s2 := run_session (map lasso sels) s1 in
    is_ok (fst (update_sub_col new s)) = false
    /\ sub_ft_selected s1 = new
    /\ layout_p_sub s1 = layout_p_sub s
    /\ layout_p_sub s2 = layout_p_sub s
    /\ sub_ft_selected s2 = new
    /\ forall sel, is_ok (fst (lasso_update sel s2)) = false.
Proof.
  intros s frame new values sels Hne Hframe Hcol s1 s2.
  assert (Hfail : forall sel, exists e, draw_subplot frame new sel = Raise e).
  { intros sel.
    pose proof (draw_subplot_object_fails TolRainbow23 Turbo256 frame new values sel
                  Hne Hcol) as H.
    destruct (draw_subplot frame new sel) as [p|e]; [discriminate H|now exists e]. }
  assert (H1 : update_sub_col new s
               = (fst (update_sub_col new s), set_sub_ft_selected rng new s)
               /\ is_ok (fst (update_sub_col new s)) = false).
  { rewrite (update_sub_col_run s frame new Hframe).
    destruct (Hfail (points_selected s)) as (e & ->). split; reflexivity. }
  destruct H1 as [Hrun Hnot].
  assert (Hs1 : s1 = set_sub_ft_selected rng new s).
  { unfold s1, DvcEx3.step, deliver. now rewrite Hrun. }
  assert (Hinv : forall sels' s',
             heap (mem s') !! df s' = Some frame ->
             sub_ft_selected s' = new ->
             let s'' := run_session (map lasso sels') s' in
             heap (mem s'') !! df s'' = Some frame
             /\ sub_ft_selected s'' = new
             /\ layout_p_sub s'' = layout_p_sub s').
  { unfold ExplorerNotions.run_session.
    induction sels' as [|sel sels' IH]; intros s' Hf Hn; [now repeat split|].
    cbn [map fold_left].
    assert (Hstep : step s' (lasso sel) = set_points_selected rng sel s').
    { unfold DvcEx3.step, deliver. rewrite (lasso_update_run s' frame sel Hf), Hn.
      now destruct (Hfail sel) as (e & ->). }
    rewrite Hstep.
    destruct (IH (set_points_selected rng sel s') Hf Hn) as (A & B & C).
    repeat split; assumption. }
  destruct (Hinv sels s1) as (Hf2 & Hn2 & Hl2).
  { now rewrite Hs1. }
  { now rewrite Hs1. }
  fold s2 in Hf2, Hn2, Hl2.
  split; [exact Hnot|]. split; [now rewrite Hs1|]. split; [now rewrite Hs1|].
  split; [now rewrite Hl2, Hs1|]. split; [exact Hn2|].
  intros sel. rewrite (lasso_update_run s2 frame sel Hf2), Hn2.
  now destruct (Hfail sel) as (e & ->).
Qed.

(** X21 (a lasso selection on a numeric feature).  When the feature of
    the subplot and the two components are numeric columns without
    [nan] and every selected label is a line of the frame,
    [lasso_update] does not raise: it stores the selection and puts a
    new histogram in the layout, whose counts for the selection add up
    to three times the number of selected labels; the feature, the PCA
    plot and the frame are left as they are. *)
Theorem lasso_redraws_the_histogram :
  forall s frame v1 v2 v3 sel,
    heap (mem s) !! df s = Some frame ->
    get_column "PCA 1" frame = Ok (float_col v1) ->
    get_column "PCA 2" frame = Ok (float_col v2) ->
    get_column (sub_ft_selected s) frame = Ok (float_col v3) ->
    forallb notna (v1 ++ v2 ++ v3)%list = true ->
    (forall i, In i sel ->
               (i < length v1)%nat /\ (i < length v2)%nat /\ (i < length v3)%nat) ->
    let s' := step s (lasso sel) in
    fst (lasso_update sel s) = Ok tt
    /\ points_selected s' = sel
    /\ sub_ft_selected s' = sub_ft_selected s
    /\ layout_p_pca s' = layout_p_pca s
    /\ mem s' = mem s
    /\ exists ph,
         layout_p_sub s' = hist_plot ph
         /\ draw_hist frame (sub_ft_selected s) sel = Ok ph
         /\ list_sum (top_s ph) = (3 * length sel)%nat
         /\ list_sum (top ph) = (length v1 + length v2 + length v3)%nat.
Proof.
  intros s frame v1 v2 v3 sel Hframe H1 H2 H3 Hfin Hsel s'.
  destruct (draw_hist_counts frame (sub_ft_selected s) v1 v2 v3 sel H1 H2 H3 Hfin Hsel)
    as (counts & edges & counts_s & n & Hph & _ & _ & _ & Htop & Htop_s).
  remember {| top := counts;
              top_s := counts_s;
              left := removelast edges;
              right := tl edges;
              hist_y_range_end := ((11 # 10) * inject_Z (Z.of_nat n))%Q;
              hist_title := "Histogram of " ++ sub_ft_selected s |} as ph eqn:Eph.
  assert (Hs : top_s ph = counts_s /\ top ph = counts) by (subst ph; split; reflexivity).
  destruct Hs as [Hs Ht]. rewrite <- Hs in Htop_s. rewrite <- Ht in Htop. clear Eph Hs Ht.
  assert (Hsub : draw_subplot frame (sub_ft_selected s) sel = Ok (hist_plot ph)).
  { unfold DvcEx3.draw_subplot. rewrite H3. cbn [rbind is_numeric_dtype].
    now rewrite Hph. }
  unfold s', DvcEx3.step, deliver.
  rewrite (lasso_update_run s frame sel Hframe), Hsub. cbn.
  repeat split. exists ph. repeat split; assumption.
Qed.

End SessionExtras.

(** ** The example session *)

Section SessionWitnesses.
Import DvcEx3 ExplorerExamples ExplorerStatements ExplorerNotions SessionExamples.
Local Open Scope list_scope.

Lemma toy_startup_frame s :
  fst toy_startup = Ok s -> heap (mem s) !! df s = Some set_up.
Proof. intros E. vm_compute in E. injection E as <-. reflexivity. Qed.

Lemma setup_plots_the_two_companies :
  exists s,
    fst toy_startup = Ok s
    /\ exists frame X_scaled X_imp X_pca c0 c1 labels market_cap g1,
         toy_scaler (iloc_columns_from 5 two_companies) = Ok X_scaled
         /\ toy_imputer X_scaled = Ok X_imp
         /\ toy_projection 2 X_imp 7%nat = (Ok X_pca, g1)
         /\ array_column X_pca 0 = Ok c0
         /\ array_column X_pca 1 = Ok c1
         /\ toy_kmeans 2 2 (filter_PCA frame) (toy_seed 0) = (Ok labels, np_random (mem s))
         /\ heap (mem s) !! df s = Some frame
         /\ pca_data s = df s
         /\ get_column "PCA 1" frame = Ok (float_col c0)
         /\ get_column "PCA 2" frame = Ok (float_col c1)
         /\ get_column "Cluster" frame = Ok (astype_str_labels labels)
         /\ get_column "Market Cap" frame = Ok market_cap
         /\ get_column "label" frame = Ok market_cap
         /\ p_pca_source_label s = label_column market_cap
         /\ plot_pca one_colour [] frame "Market Cap" = Ok (layout_p_pca s)
         /\ draw_subplot one_colour [] frame "Mean Recommendation" [] = Ok (layout_p_sub s)
         /\ sub_ft_selected s = "Mean Recommendation"
         /\ points_selected s = [].
Proof.
  destruct (fst toy_startup) as [s|e] eqn:E; [|vm_compute in E; discriminate E].
  exists s. split; [reflexivity|].
  exact (setup_plots_the_clustered_frame nat toy_seed toy_scaler toy_imputer
           toy_projection toy_kmeans one_colour [] two_companies 7%nat s E).
Defined.

Lemma pca_plot_is_never_replaced_after_three_events :
  exists s0,
    fst toy_startup = Ok s0
    /\ let s := toy_run [select_col_pca "Mean Recommendation"; lasso [0%nat];
                         select_col_pca "Cluster"] s0 in
       layout_p_pca s = layout_p_pca s0
       /\ (exists frame,
             heap (mem s) !! df s = Some frame
             /\ plot_pca one_colour [] frame "Market Cap" = Ok (layout_p_pca s))
       /\ forall new,
            fst (update_pca_col one_colour [] nat new s) = Raise ValueError
            /\ p_pca_source_label (toy_step s (select_col_pca new)) = label_name new
            /\ layout_p_pca (toy_step s (select_col_pca new)) = layout_p_pca s
            /\ layout_p_sub (toy_step s (select_col_pca new)) = layout_p_sub s.
Proof.
  destruct (fst toy_startup) as [s0|e] eqn:E; [|vm_compute in E; discriminate E].
  exists s0. split; [reflexivity|].
  exact (pca_plot_is_never_replaced nat toy_seed toy_scaler toy_imputer
           toy_projection toy_kmeans one_colour [] two_companies 7%nat s0
           [select_col_pca "Mean Recommendation"; lasso [0%nat]; select_col_pca "Cluster"]
           E).
Defined.

Lemma choosing_country_freezes_the_subplot :
  exists s,
    fst toy_startup = Ok s
    /\ one_colour <> []
    /\ heap (mem s) !! df s = Some set_up
    /\ get_column "Country" set_up = Ok (object_col [Some "US"; Some "CH"])
    /\ let s1 := toy_step s (select_col_sub "Country") in
       let s2 := toy_run (map lasso [[0%nat]; []; [1; 0]%nat]) s1 in
       is_ok (fst (update_sub_col one_colour [] nat "Country" s)) = false
       /\ sub_ft_selected s1 = "Country"
       /\ layout_p_sub s1 = layout_p_sub s
       /\ layout_p_sub s2 = layout_p_sub s
       /\ sub_ft_selected s2 = "Country"
       /\ forall sel, is_ok (fst (lasso_update one_colour [] nat sel s2)) = false.
Proof.
  destruct (fst toy_startup) as [s|e] eqn:E; [|vm_compute in E; discriminate E].
  exists s. split; [reflexivity|]. split; [discriminate|].
  split; [exact (toy_startup_frame s E)|]. split; [reflexivity|].
  apply (categorical_feature_freezes_the_subplot nat one_colour [] s set_up "Country"
           [Some "US"; Some "CH"] [[0%nat]; []; [1; 0]%nat]);
    [discriminate|exact (toy_startup_frame s E)|reflexivity].
Defined.

Lemma lasso_redraws_the_mean_recommendation :
  exists s,
    fst toy_startup = Ok s
    /\ heap (mem s) !! df s = Some set_up
    /\ sub_ft_selected s = "Mean Recommendation"
    /\ get_column "PCA 1" set_up = Ok (float_col [Some 50%Q; Some 150%Q])
    /\ get_column "PCA 2" set_up = Ok (float_col [Some 2%Q; Some 3%Q])
    /\ get_column "Mean Recommendation" set_up = Ok (float_col [Some 2%Q; Some 3%Q])
    /\ (forall i, In i [1; 0]%nat -> (i < 2)%nat /\ (i < 2)%nat /\ (i < 2)%nat)
    /\ let s' := toy_step s (lasso [1; 0]%nat) in
       fst (lasso_update one_colour [] nat [1; 0]%nat s) = Ok tt
       /\ points_selected s' = [1; 0]%nat
       /\ sub_ft_selected s' = sub_ft_selected s
       /\ layout_p_pca s' = layout_p_pca s
       /\ mem s' = mem s
       /\ exists ph,
            layout_p_sub s' = hist_plot ph
            /\ draw_hist set_up (sub_ft_selected s) [1; 0]%nat = Ok ph
            /\ list_sum (top_s ph) = 6%nat
            /\ list_sum (top ph) = 6%nat.
Proof.
  destruct (fst toy_startup) as [s|e] eqn:E; [|vm_compute in E; discriminate E].
  assert (Hft : sub_ft_selected s = "Mean Recommendation").
  { vm_compute in E. injection E as <-. reflexivity. }
  assert (Hsel : forall i, In i [1; 0]%nat -> (i < 2)%nat /\ (i < 2)%nat /\ (i < 2)%nat).
  { intros i Hi. simpl in Hi. lia. }
  exists s. split; [reflexivity|]. split; [exact (toy_startup_frame s E)|].
  split; [exact Hft|]. repeat (split; [reflexivity|]). split; [exact Hsel|].
  apply (lasso_redraws_the_histogram nat one_colour [] s set_up
           [Some 50%Q; Some 150%Q] [Some 2%Q; Some 3%Q] [Some 2%Q; Some 3%Q]
           [1; 0]%nat);
    [exact (toy_startup_frame s E)|reflexivity|reflexivity
    |rewrite Hft; reflexivity|reflexivity|exact Hsel].
Defined.

End SessionWitnesses.

(** ** Properties of the two figures of the map *)

Section PlotExtras.
Import DvcEx4 Examples MapStatements MapNotions DvcEx4Plots PlotExamples.
Local Open Scope list_scope.

Lemma py_min_nonempty (vals : list float) :
  vals <> [] -> exists v, DvcEx3.py_min vals = Ok v.
Proof. destruct vals; [congruence|]. intros _. eexists. reflexivity. Qed.

Lemma py_max_nonempty (vals : list float) :
  vals <> [] -> exists v, DvcEx3.py_max vals = Ok v.
Proof. destruct vals; [congruence|]. intros _. eexists. reflexivity. Qed.

Lemma map_nonempty {A B} (f : A -> B) (l : list A) : l <> [] -> map f l <> [].
Proof. destruct l; [congruence|discriminate]. Qed.

Lemma forallb_notna_map {A} (f : A -> float) (l : list A) :
  (forall a, In a l -> notna (f a) = true) -> forallb notna (map f l) = true.
Proof.
  intros H. apply forallb_forall. intros v Hv. apply in_map_iff in Hv.
  destruct Hv as (a & <- & Ha). now apply H.
Qed.

Lemma notna_float_minus v k : notna (float_minus v k) = notna v.
Proof. now destruct v. Qed.

(** The bounds of one axis of the main plot. *)
Lemma axis_bounds (coordinate : city_row -> float) (rows : list city_row) :
  rows <> [] ->
  (forall r, In r rows -> notna (coordinate r) = true) ->
  exists lo hi,
    DvcEx3.py_min (map (fun r => float_minus (coordinate r) 200000) rows) = Ok (Some lo)
    /\ DvcEx3.py_max (map coordinate rows) = Ok (Some hi)
    /\ forall r v, In r rows -> coordinate r = Some v ->
                   (lo <= v - 200000)%Q /\ (v + 200000 <= hi + 200000)%Q.
Proof.
  intros Hne Hfin.
  destruct (py_min_finite (map (fun r => float_minus (coordinate r) 200000) rows))
    as (lo & Hmin & _ & Hlo).
  { now apply map_nonempty. }
  { apply forallb_notna_map. intros r Hr. rewrite notna_float_minus. now apply Hfin. }
  destruct (py_max_finite (map coordinate rows)) as (hi & Hmax & _ & Hhi).
  { now apply map_nonempty. }
  { now apply forallb_notna_map. }
  exists lo, hi. split; [exact Hmin|]. split; [exact Hmax|].
  intros r v Hr Hv. split.
  - apply Hlo. apply in_map_iff. exists r. split; [now rewrite Hv|exact Hr].
  - apply Qplus_le_l. apply Hhi. rewrite <- Hv. now apply in_map.
Qed.

(** X22 (the map shows every city).  For a frame in which every city
    has a position, [plot_city] returns a figure whose ranges are
    finite and leave a margin of 200000 metres around every city: the
    start of a range is at most the coordinate minus 200000, its end at
    least the coordinate plus 200000. *)
Theorem map_ranges_hold_every_city :
  forall rows,
    rows <> [] ->
    (forall r, In r rows -> notna (x_mean r) = true /\ notna (y_mean r) = true) ->
    exists fig x0 x1 y0 y1,
      plot_city rows = Ok fig
      /\ x_range fig = {| range_start := Some x0; range_end := Some x1 |}
      /\ y_range fig = {| range_start := Some y0; range_end := Some y1 |}
      /\ forall r px py,
           In r rows -> x_mean r = Some px -> y_mean r = Some py ->
           (x0 <= px - 200000)%Q /\ (px + 200000 <= x1)%Q
           /\ (y0 <= py - 200000)%Q /\ (py + 200000 <= y1)%Q.
Proof.
  intros rows Hne Hfin.
  destruct (axis_bounds x_mean rows Hne) as (x0 & x1 & Hx0 & Hx1 & Hx).
  { intros r Hr. now apply Hfin. }
  destruct (axis_bounds y_mean rows Hne) as (y0 & y1 & Hy0 & Hy1 & Hy).
  { intros r Hr. now apply Hfin. }
  destruct (py_min_nonempty (map Market_Cap_sum rows) (map_nonempty _ _ Hne)) as (low & Hlow).
  destruct (py_max_nonempty (map Market_Cap_sum rows) (map_nonempty _ _ Hne)) as (high & Hhigh).
  eexists _, x0, (x1 + 200000)%Q, y0, (y1 + 200000)%Q.
  unfold plot_city. rewrite Hx0, Hx1, Hy0, Hy1, Hlow, Hhigh. cbn [rbind].
  split; [reflexivity|]. split; [reflexivity|]. split; [reflexivity|].
  intros r px py Hr Hpx Hpy.
  destruct (Hx r px Hr Hpx) as [A1 A2]. destruct (Hy r py Hr Hpy) as [B1 B2].
  repeat split; assumption.
Qed.

Lemma main_rows_nonempty table year T :
  companies table <> [] ->
  map (agg_city (map (masked_line year T) (companies table)))
      (sorted_unique (map raw_City (companies table))) <> [].
Proof.
  intros Hne. apply map_nonempty.
  destruct (companies table) as [|co cs]; [congruence|].
  intros Hnil.
  assert (Hin : In (raw_City co) (sorted_unique (map raw_City (co :: cs)))).
  { apply sorted_unique_In. now left. }
  rewrite Hnil in Hin. destruct Hin.
Qed.

Lemma main_rows_sums table year T r :
  In r (map (agg_city (map (masked_line year T) (companies table)))
            (sorted_unique (map raw_City (companies table)))) ->
  notna (Market_Cap_sum r) = true.
Proof.
  intros Hr. apply in_map_iff in Hr. destruct Hr as (k & <- & _). reflexivity.
Qed.

(** X23 (the colour bar of the map).  For the main frame of a table
    that is not empty, [plot_city] does not raise, also when a city has
    no position or all its companies are masked, and the bounds of its
    colour mapper are finite and enclose the market cap of every city of
    the frame.  On an empty frame [plot_city] raises [ValueError]. *)
Theorem colour_bar_spans_the_cities :
  (forall table year city_name T rows,
      create_df table year city_name T true = Ok (main_frame rows) ->
      companies table <> [] ->
      exists fig lo hi,
        plot_city rows = Ok fig
        /\ cmap_low (fill_color fig) = Some lo
        /\ cmap_high (fill_color fig) = Some hi
        /\ forall r, In r rows ->
                     exists cap, Market_Cap_sum r = Some cap /\ (lo <= cap <= hi)%Q)
  /\ plot_city [] = Raise ValueError.
Proof.
  split; [|reflexivity].
  intros table year city_name T rows Hdf Hne.
  destruct (create_df_columns _ _ _ _ _ _ Hdf) as [A B].
  rewrite (create_df_main_ok _ _ _ _ A B) in Hdf. injection Hdf as <-.
  set (rows := map (agg_city (map (masked_line year T) (companies table)))
                   (sorted_unique (map raw_City (companies table)))).
  pose proof (main_rows_nonempty table year T Hne) as Hrows. fold rows in Hrows.
  assert (Hfin : forallb notna (map Market_Cap_sum rows) = true).
  { apply forallb_notna_map. intros r Hr. now apply (main_rows_sums table year T). }
  destruct (py_min_finite _ (map_nonempty Market_Cap_sum _ Hrows) Hfin)
    as (lo & Hmin & _ & Hlo).
  destruct (py_max_finite _ (map_nonempty Market_Cap_sum _ Hrows) Hfin)
    as (hi & Hmax & _ & Hhi).
  destruct (py_min_nonempty (map (fun r => float_minus (x_mean r) 200000) rows)
              (map_nonempty _ _ Hrows)) as (x0 & Hx0).
  destruct (py_max_nonempty (map x_mean rows) (map_nonempty _ _ Hrows)) as (x1 & Hx1).
  destruct (py_min_nonempty (map (fun r => float_minus (y_mean r) 200000) rows)
              (map_nonempty _ _ Hrows)) as (y0 & Hy0).
  destruct (py_max_nonempty (map y_mean rows) (map_nonempty _ _ Hrows)) as (y1 & Hy1).
  eexists _, lo, hi. unfold plot_city.
  rewrite Hx0, Hx1, Hy0, Hy1, Hmin, Hmax. cbn [rbind].
  split; [reflexivity|]. split; [reflexivity|]. split; [reflexivity|].
  intros r Hr. pose proof (main_rows_sums table year T r Hr) as Hsum.
  destruct (Market_Cap_sum r) as [cap|] eqn:E; [|discriminate Hsum].
  exists cap. split; [reflexivity|].
  assert (Hin : In (Some cap) (map Market_Cap_sum rows)).
  { rewrite <- E. now apply in_map. }
  split; [now apply Hlo|now apply Hhi].
Qed.

(** *** Running the module *)

Lemma no_company_in_city (c : string) (cs : list company) (f : company -> row) :
  (forall co, City (f co) = raw_City co) ->
  (forall co, In co cs -> raw_City co <> c) ->
  List.filter (fun r => String.eqb (City r) c) (map f cs) = [].
Proof.
  intros Hf Hnone. induction cs as [|co cs IH]; [reflexivity|].
  cbn [map List.filter]. rewrite Hf.
  destruct (String.eqb_spec (raw_City co) c) as [Heq|_].
  - exfalso. apply (Hnone co); [now left|exact Heq].
  - apply IH. intros co' Hin. apply Hnone. now right.
Qed.

Lemma a_company_in_city (c : string) (cs : list company) (f : company -> row) co :
  (forall co, City (f co) = raw_City co) ->
  In co cs -> raw_City co = c ->
  List.filter (fun r => String.eqb (City r) c) (map f cs) <> [].
Proof.
  intros Hf Hin Hc Hnil.
  assert (H : In (f co) (List.filter (fun r => String.eqb (City r) c) (map f cs))).
  { apply filter_In. split; [now apply in_map|]. rewrite Hf, Hc. apply String.eqb_refl. }
  rewrite Hnil in H. destruct H.
Qed.

Lemma masked_line_city year T co : City (masked_line year T co) = raw_City co.
Proof. now destruct (masked_line_fixed year T co) as (-> & _). Qed.

Lemma startup_run table :
  has_column 2022 (Market_Cap_years table) = true ->
  has_column 2022 (Employees_years table) = true ->
  exists a,
    startup table = Ok a
    /\ year a = 2022%Z /\ city a = "San Jose"
    /\ main_df a = map (agg_city (map (masked_line 2022 0) (companies table)))
                       (sorted_unique (map raw_City (companies table)))
    /\ sub_df_of a
       = map with_circle_size
             (List.filter (fun r => String.eqb (City r) "San Jose")
                          (map (masked_line 2022 0) (companies table))).
Proof.
  intros A B. unfold startup, sub_df_of.
  rewrite (create_df_main_ok _ _ _ _ A B), (create_df_sub_ok _ _ _ _ A B). cbn [rbind].
  eexists. split; [reflexivity|]. repeat split.
Qed.

Lemma table_extremes_total table year :
  has_column year (Market_Cap_years table) = true ->
  has_column year (Employees_years table) = true ->
  companies table <> [] ->
  exists globals, table_extremes table year = Ok globals.
Proof.
  intros A B Hne. unfold table_extremes, Market_Cap_column, Employees_column.
  rewrite A, B. cbn [rbind].
  destruct (py_max_nonempty (map (fun c => raw_Market_Cap c year) (companies table))
              (map_nonempty _ _ Hne)) as (v1 & ->).
  destruct (py_min_nonempty (map (fun c => raw_Market_Cap c year) (companies table))
              (map_nonempty _ _ Hne)) as (v2 & ->).
  destruct (py_max_nonempty (map (fun c => raw_Employees c year) (companies table))
              (map_nonempty _ _ Hne)) as (v3 & ->).
  destruct (py_min_nonempty (map (fun c => raw_Employees c year) (companies table))
              (map_nonempty _ _ Hne)) as (v4 & ->).
  cbn [rbind]. eexists. reflexivity.
Qed.

Lemma plot_city_total rows : rows <> [] -> exists fig, plot_city rows = Ok fig.
Proof.
  intros Hne. unfold plot_city.
  destruct (py_min_nonempty (map (fun r => float_minus (x_mean r) 200000) rows)
              (map_nonempty _ _ Hne)) as (x0 & ->).
  destruct (py_max_nonempty (map x_mean rows) (map_nonempty _ _ Hne)) as (x1 & ->).
  destruct (py_min_nonempty (map (fun r => float_minus (y_mean r) 200000) rows)
              (map_nonempty _ _ Hne)) as (y0 & ->).
  destruct (py_max_nonempty (map y_mean rows) (map_nonempty _ _ Hne)) as (y1 & ->).
  destruct (py_min_nonempty (map Market_Cap_sum rows) (map_nonempty _ _ Hne)) as (lo & ->).
  destruct (py_max_nonempty (map Market_Cap_sum rows) (map_nonempty _ _ Hne)) as (hi & ->).
  cbn [rbind]. eexists. reflexivity.
Qed.

(** X24 (when the application starts).  Running the module succeeds
    exactly when the table has the two columns of 2022 and at least one
    company in San Jose, the city selected at the start.  Without the
    columns it raises [KeyError]; with them but without a company in
    San Jose it raises [ValueError], from [plot_city] when the table is
    empty and from the colour mapper of [plot_company] otherwise.  When
    it succeeds the subplot is titled with San Jose and 2022 and its
    ranges are eleven times the least and greatest number of employees
    and market cap of 2022. *)
Theorem launch_needs_a_company_in_san_jose :
  forall table,
    (has_column 2022 (Market_Cap_years table)
     && has_column 2022 (Employees_years table) = false ->
     launch table = Raise KeyError)
    /\ (has_column 2022 (Market_Cap_years table)
        && has_column 2022 (Employees_years table) = true ->
        (forall co, In co (companies table) -> raw_City co <> "San Jose") ->
        launch table = Raise ValueError)
    /\ (has_column 2022 (Market_Cap_years table)
        && has_column 2022 (Employees_years table) = true ->
        (exists co, In co (companies table) /\ raw_City co = "San Jose") ->
        exists d globals,
          launch table = Ok d
          /\ startup table = Ok (state d)
          /\ table_extremes table 2022 = Ok globals
          /\ title (subplot d) = "Tech Companies in San Jose Year 2022"
          /\ x_range (subplot d)
             = {| range_start := float_times 11 (emp_min globals);
                  range_end := float_times 11 (emp_max globals) |}
          /\ y_range (subplot d)
             = {| range_start := float_times 11 (markt_min globals);
                  range_end := float_times 11 (markt_max globals) |}).
Proof.
  intros table. split; [|split].
  - intros H. unfold launch, startup.
    now rewrite (create_df_raises _ _ _ _ _ H).
  - intros H Hnone. apply andb_true_iff in H. destruct H as [A B].
    destruct (startup_run table A B) as (a & Ha & Hy & Hc & Hmain & Hsub).
    unfold launch. rewrite Ha. cbn [rbind]. rewrite Hmain, Hy, Hc, Hsub.
    destruct (companies table) as [|co cs] eqn:E; [reflexivity|].
    destruct (plot_city_total _ (main_rows_nonempty table 2022 0 ltac:(rewrite E; discriminate)))
      as (fig & Hfig).
    rewrite E in Hfig. rewrite Hfig. cbn [rbind].
    destruct (table_extremes_total table 2022 A B ltac:(rewrite E; discriminate))
      as (globals & ->). cbn [rbind].
    rewrite (no_company_in_city "San Jose" (co :: cs) (masked_line 2022 0)
               (masked_line_city 2022 0) Hnone).
    reflexivity.
  - intros H (co & Hin & Hco). apply andb_true_iff in H. destruct H as [A B].
    assert (Hne : companies table <> []) by (intros E; rewrite E in Hin; destruct Hin).
    destruct (startup_run table A B) as (a & Ha & Hy & Hc & Hmain & Hsub).
    destruct (plot_city_total _ (main_rows_nonempty table 2022 0 Hne)) as (fig & Hfig).
    destruct (table_extremes_total table 2022 A B Hne) as (globals & Hglobals).
    pose proof (a_company_in_city "San Jose" (companies table) (masked_line 2022 0) co
                  (masked_line_city 2022 0) Hin Hco) as Hrows.
    destruct (py_min_nonempty
                (map (fun r => Market_Cap (company_data r)) (sub_df_of a))) as (lo & Hlo).
    { rewrite Hsub. now apply map_nonempty, map_nonempty. }
    destruct (py_max_nonempty
                (map (fun r => Market_Cap (company_data r)) (sub_df_of a))) as (hi & Hhi).
    { rewrite Hsub. now apply map_nonempty, map_nonempty. }
    eexists _, globals. unfold launch. rewrite Ha. cbn [rbind].
    rewrite Hmain, Hfig. cbn [rbind]. rewrite Hy, Hglobals. cbn [rbind].
    unfold plot_company. rewrite Hlo, Hhi. cbn [rbind].
    split; [reflexivity|]. cbn [state subplot title x_range y_range].
    split; [reflexivity|]. split; [reflexivity|]. rewrite Hc. repeat split.
Qed.

Lemma map_ranges_hold_two_cities :
  exists rows,
    create_df two_cities 2022 "San Jose" 0 true = Ok (main_frame rows)
    /\ rows <> []
    /\ (forall r, In r rows -> notna (x_mean r) = true /\ notna (y_mean r) = true)
    /\ exists fig x0 x1 y0 y1,
         plot_city rows = Ok fig
         /\ x_range fig = {| range_start := Some x0; range_end := Some x1 |}
         /\ y_range fig = {| range_start := Some y0; range_end := Some y1 |}
         /\ forall r px py,
              In r rows -> x_mean r = Some px -> y_mean r = Some py ->
              (x0 <= px - 200000)%Q /\ (px + 200000 <= x1)%Q
              /\ (y0 <= py - 200000)%Q /\ (py + 200000 <= y1)%Q.
Proof.
  eexists. split; [reflexivity|].
  assert (Hne : map (agg_city (map (mask_row 0) (map (select_columns 2022) (companies two_cities))))
                    (group_keys (map (mask_row 0)
                                     (map (select_columns 2022) (companies two_cities))))
                <> []) by discriminate.
  assert (Hfin : forall r,
             In r (map (agg_city (map (mask_row 0)
                                      (map (select_columns 2022) (companies two_cities))))
                       (group_keys (map (mask_row 0)
                                        (map (select_columns 2022) (companies two_cities))))) ->
             notna (x_mean r) = true /\ notna (y_mean r) = true).
  { intros r Hr. vm_compute in Hr. destruct Hr as [<-|[<-|[]]]; split; reflexivity. }
  split; [exact Hne|]. split; [exact Hfin|].
  exact (map_ranges_hold_every_city _ Hne Hfin).
Defined.

Lemma colour_bar_spans_two_cities :
  exists rows,
    create_df two_cities 2022 "San Jose" 150 true = Ok (main_frame rows)
    /\ companies two_cities <> []
    /\ exists fig lo hi,
         plot_city rows = Ok fig
         /\ cmap_low (fill_color fig) = Some lo
         /\ cmap_high (fill_color fig) = Some hi
         /\ forall r, In r rows ->
                      exists cap, Market_Cap_sum r = Some cap /\ (lo <= cap <= hi)%Q.
Proof.
  eexists. split; [reflexivity|]. split; [discriminate|].
  apply (proj1 colour_bar_spans_the_cities two_cities 2022%Z "San Jose" 150%Q);
    [reflexivity|discriminate].
Defined.

Lemma launch_of_three_tables :
  (has_column 2022 (Market_Cap_years (Build_base_table [] [] []))
   && has_column 2022 (Employees_years (Build_base_table [] [] [])) = false
   /\ launch (Build_base_table [] [] []) = Raise KeyError)
  /\ (has_column 2022 (Market_Cap_years scenario_1)
      && has_column 2022 (Employees_years scenario_1) = true
      /\ (forall co, In co (companies scenario_1) -> raw_City co <> "San Jose")
      /\ launch scenario_1 = Raise ValueError)
  /\ (has_column 2022 (Market_Cap_years two_cities)
      && has_column 2022 (Employees_years two_cities) = true
      /\ (exists co, In co (companies two_cities) /\ raw_City co = "San Jose")
      /\ exists d globals,
           launch two_cities = Ok d
           /\ startup two_cities = Ok (state d)
           /\ table_extremes two_cities 2022 = Ok globals
           /\ title (subplot d) = "Tech Companies in San Jose Year 2022"
           /\ x_range (subplot d)
              = {| range_start := float_times 11 (emp_min globals);
                   range_end := float_times 11 (emp_max globals) |}
           /\ y_range (subplot d)
              = {| range_start := float_times 11 (markt_min globals);
                   range_end := float_times 11 (markt_max globals) |}).
Proof.
  assert (Hnone : forall co, In co (companies scenario_1) -> raw_City co <> "San Jose").
  { intros co [<-|[<-|[]]]; discriminate. }
  assert (Hsome : exists co, In co (companies two_cities) /\ raw_City co = "San Jose").
  { eexists. split; [left; reflexivity|reflexivity]. }
  split; [|split].
  - split; [reflexivity|].
    apply (proj1 (launch_needs_a_company_in_san_jose (Build_base_table [] [] []))).
    reflexivity.
  - split; [reflexivity|]. split; [exact Hnone|].
    apply (proj1 (proj2 (launch_needs_a_company_in_san_jose scenario_1)));
      [reflexivity|exact Hnone].
  - split; [reflexivity|]. split; [exact Hsome|].
    apply (proj2 (proj2 (launch_needs_a_company_in_san_jose two_cities)));
      [reflexivity|exact Hsome].
Defined.

End PlotExtras.
